(** * Retrieval core of garbage-in-garbage-out: result formatting, retriever
    factory, staged queries and the reference extraction pipeline.

    The Python sources under [gigo_retrieval/src] are embedded as Rocq
    functions.  Python values are a small inductive type, dictionaries are
    association lists in insertion order, exceptions are an error monad. *)

From Stdlib Require Import QArith Ascii String.
From stdpp Require Import base decidable option list strings pretty gmap.

Set Warnings "-register-all".

Open Scope Z_scope.
Open Scope string_scope.
Open Scope list_scope.

(** ** Exceptions and the error monad *)

Inductive exn : Type :=
  | AttributeError
  | TypeError
  | KeyError
  | ValueError (msg : string)
  | ValidationError
  | EmbeddingError
  | StoreError
  | OSError.

Inductive res (A : Type) : Type :=
  | Ok (a : A)
  | Raise (e : exn).
Arguments Ok {A} a.
Arguments Raise {A} e.

Global Instance res_ret : MRet res := fun A a => Ok a.
Global Instance res_bind : MBind res := fun A B k m =>
  match m with
  | Ok a => k a
  | Raise e => Raise e
  end.

Definition raises {A} (m : res A) : Prop := exists e, m = Raise e.
Definition returns {A} (m : res A) : Prop := exists a, m = Ok a.

(** [for x in l: ...] where the body may raise: the first failure aborts. *)
Fixpoint mapM {A B} (f : A -> res B) (l : list A) : res (list B) :=
  match l with
  | [] => Ok []
  | x :: l' => y ← f x; ys ← mapM f l'; Ok (y :: ys)
  end.

(** ** Python values *)

Inductive pyval : Type :=
  | PNone
  | PBool (b : bool)
  | PInt (n : Z)
  | PFloat (q : Q)
  | PStr (s : string)
  | PList (l : list pyval)
  | PDict (d : list (string * pyval)).

Abbreviation pydict := (list (string * pyval)).

(** [bool(v)] *)
Definition truthy (v : pyval) : bool :=
  match v with
  | PNone => false
  | PBool b => b
  | PInt n => negb (Z.eqb n 0)
  | PFloat q => negb (Qeq_bool q 0)
  | PStr s => negb (String.eqb s EmptyString)
  | PList l => match l with [] => false | _ => true end
  | PDict d => match d with [] => false | _ => true end
  end.

(** [v == s] for a string literal [s]: only a [str] equals a [str]. *)
Definition py_eq_str (v : pyval) (s : string) : bool :=
  match v with
  | PStr t => String.eqb t s
  | _ => false
  end.

(** ** Dictionaries *)

Fixpoint dict_lookup (k : string) (d : pydict) : option pyval :=
  match d with
  | [] => None
  | (k', v) :: d' => if String.eqb k k' then Some v else dict_lookup k d'
  end.

(** [k in d] *)
Definition dict_mem (k : string) (d : pydict) : bool :=
  match dict_lookup k d with Some _ => true | None => false end.

(** [d.get(k, default)] *)
Definition dict_get (d : pydict) (k : string) (default : pyval) : pyval :=
  match dict_lookup k d with Some v => v | None => default end.

(** [d[k] = v]: overwrite in place, or append a new key. *)
Fixpoint dict_set (k : string) (v : pyval) (d : pydict) : pydict :=
  match d with
  | [] => [(k, v)]
  | (k', v') :: d' =>
      if String.eqb k k' then (k, v) :: d' else (k', v') :: dict_set k v d'
  end.

(** [d.update(u)] *)
Definition dict_update (d u : pydict) : pydict :=
  fold_left (fun acc kv => dict_set kv.1 kv.2 acc) u d.

(** A dictionary display [{k1: v1, ...}]. *)
Definition dict_literal (items : pydict) : pydict := dict_update [] items.

(** [v.get(k, default)] on an arbitrary value: only a dict has [get]. *)
Definition py_get (v : pyval) (k : string) (default : pyval) : res pyval :=
  match v with
  | PDict d => Ok (dict_get d k default)
  | _ => Raise AttributeError
  end.

(** [v[k]] on a dict. *)
Definition dict_item (d : pydict) (k : string) : res pyval :=
  match dict_lookup k d with Some v => Ok v | None => Raise KeyError end.

(** A [str] is held as its UTF-8 encoding, one [ascii] per byte.  The lead
    byte of a character tells how many bytes the character takes. *)
Definition utf8_width (c : ascii) : nat :=
  let n := nat_of_ascii c in
  if (n <? 192)%nat then 1%nat
  else if (n <? 224)%nat then 2%nat
  else if (n <? 240)%nat then 3%nat
  else 4%nat.

Fixpoint take_bytes (n : nat) (s : string) : string :=
  match n, s with
  | S n', String c s' => String c (take_bytes n' s')
  | _, _ => EmptyString
  end.

Fixpoint drop_bytes (n : nat) (s : string) : string :=
  match n, s with
  | S n', String _ s' => drop_bytes n' s'
  | _, _ => s
  end.

(** The characters (code points) of a string, each as a string of its
    own. *)
Fixpoint code_points_aux (fuel : nat) (s : string) : list string :=
  match fuel, s with
  | S fuel', String c s' =>
      let w := utf8_width c in
      String c (take_bytes (w - 1) s')
        :: code_points_aux fuel' (drop_bytes (w - 1) s')
  | _, _ => []
  end.

Definition code_points (s : string) : list string :=
  code_points_aux (String.length s) s.

(** [iter(v)]: lists give their items, dicts their keys, strings their
    characters; nothing else is iterable. *)
Definition py_iter (v : pyval) : res (list pyval) :=
  match v with
  | PList l => Ok l
  | PDict d => Ok (map (fun kv => PStr kv.1) d)
  | PStr s => Ok (map PStr (code_points s))
  | _ => Raise TypeError
  end.

(** ** Reference models ([references/models.py]) *)

Record TableReference : Type := mkTableReference {
  t_sub_question : string;
  element_id : string;
  t_page_number : option Z;
  t_png_file : option string;
  html_file : option string
}.

Record FigureReference : Type := mkFigureReference {
  f_sub_question : string;
  label : string;
  f_page_number : option Z;
  f_png_file : option string
}.

Record References : Type := mkReferences {
  tables : list TableReference;
  figures : list FigureReference
}.

(** [str(x)] for an [Optional[int]], as an f-string renders it. *)
Definition str_opt_int (p : option Z) : string :=
  match p with
  | None => "None"
  | Some n => pretty n
  end.

(** ** Deduplication ([references/extractor.py], [deduplicate_references]) *)

(** [key = f"{table.element_id}_{table.page_number}"] *)
Definition table_key (t : TableReference) : string :=
  element_id t +:+ "_" +:+ str_opt_int (t_page_number t).

(** [key = f"{figure.label}_{figure.page_number}"] *)
Definition figure_key (f : FigureReference) : string :=
  label f +:+ "_" +:+ str_opt_int (f_page_number f).

(** The loop over the references, threading the [seen] set and the
    [unique] list. *)
Fixpoint dedup_loop {A} (key : A -> string) (l : list A)
    (seen : gset string) (unique : list A) : list A :=
  match l with
  | [] => unique
  | x :: l' =>
      if decide (key x ∈ seen) then dedup_loop key l' seen unique
      else dedup_loop key l' ({[key x]} ∪ seen) (unique ++ [x])
  end.

Definition deduplicate_references (references : References) : References :=
  {| tables := dedup_loop table_key (tables references) ∅ [];
     figures := dedup_loop figure_key (figures references) ∅ [] |}.

(** ** Result formatting ([strategies/base.py]) *)

(** One point of a store response.  The payload is a string-keyed
    dictionary; identifier and score are carried as values. *)
Record ScoredPoint : Type := mkScoredPoint {
  pt_id : pyval;
  pt_score : pyval;
  pt_payload : pydict
}.

Module BaseQdrantRetriever.

(** The body of the loop over [results.points]. *)
Definition format_point (point : ScoredPoint) : res pydict :=
  let payload := pt_payload point in
  let formatted_result := dict_literal [
    ("score", pt_score point);
    ("id", pt_id point);
    ("payload", PDict payload);
    ("text", dict_get payload "embedding_text" (PStr EmptyString));
    ("page_number", dict_get payload "page_number" PNone);
    ("document_title", dict_get payload "document_title" PNone);
    ("document_id", dict_get payload "document_id" PNone);
    ("section_title", dict_get payload "section_title" PNone);
    ("subsection_title", dict_get payload "subsection_title" PNone);
    ("manufacturer", dict_get payload "manufacturer" PNone);
    ("models_covered", dict_get payload "models_covered" (PList []));
    ("entities", dict_get payload "entities" (PList []));
    ("keywords", dict_get payload "keywords" (PList []));
    ("warnings", dict_get payload "warnings" (PList []));
    ("has_tables", dict_get payload "has_tables" (PBool false));
    ("has_figures", dict_get payload "has_figures" (PBool false));
    ("table_count", dict_get payload "table_count" (PInt 0));
    ("figure_count", dict_get payload "figure_count" (PInt 0))
  ] in
  if dict_mem "full_page_metadata" payload then
    full_metadata ← dict_item payload "full_page_metadata";
    page_visual_description ←
      py_get full_metadata "page_visual_description" PNone;
    content_elements ← py_get full_metadata "content_elements" (PList []);
    text_content ← py_get full_metadata "text_content" PNone;
    text_file ← py_get full_metadata "text_file" PNone;
    Ok (dict_update formatted_result [
      ("page_visual_description", page_visual_description);
      ("content_elements", content_elements);
      ("text_content", text_content);
      ("text_file", text_file)
    ])
  else Ok formatted_result.

Definition _format_results (points : list ScoredPoint) : res (list pydict) :=
  mapM format_point points.

End BaseQdrantRetriever.

(** The documented output fields, each with the payload key it is read from
    and the default the formatter passes to [get]. *)
Definition convenience_fields : list (string * string * pyval) := [
  ("text", "embedding_text", PStr EmptyString);
  ("page_number", "page_number", PNone);
  ("document_title", "document_title", PNone);
  ("document_id", "document_id", PNone);
  ("section_title", "section_title", PNone);
  ("subsection_title", "subsection_title", PNone);
  ("manufacturer", "manufacturer", PNone);
  ("models_covered", "models_covered", PList []);
  ("entities", "entities", PList []);
  ("keywords", "keywords", PList []);
  ("warnings", "warnings", PList []);
  ("has_tables", "has_tables", PBool false);
  ("has_figures", "has_figures", PBool false);
  ("table_count", "table_count", PInt 0);
  ("figure_count", "figure_count", PInt 0)
].

(** The defaults the specification documents: empty string, empty list,
    false or zero. *)
Definition is_empty_default (v : pyval) : bool :=
  match v with
  | PStr s => String.eqb s EmptyString
  | PList [] => true
  | PBool false => true
  | PInt 0 => true
  | _ => false
  end.

(** [full_page_metadata], when the payload has it, is a dictionary. *)
Definition metadata_is_dict (payload : pydict) : bool :=
  match dict_lookup "full_page_metadata" payload with
  | Some (PDict _) | None => true
  | Some _ => false
  end.

(** ** Staged queries and the store client *)

Definition Vec : Type := list Q.

Inductive Query : Type :=
  | Nearest (v : Vec)
  | NearestMulti (m : list Vec)
  | NearestSparse (indices : list Z) (values : list Q)
  | FusionRRF.

(** [models.Prefetch(prefetch=..., query=..., using=..., limit=...)] *)
Inductive Prefetch : Type :=
  | mkPrefetch (pf_prefetch : list Prefetch) (pf_query : option Query)
      (pf_using : option string) (pf_limit : option Z).

(** The keyword arguments of one [client.query_points] call; [None] is an
    argument that is not passed. *)
Record QueryRequest : Type := mkQueryRequest {
  q_collection_name : option string;
  q_prefetch : list Prefetch;
  q_query : option Query;
  q_using : option string;
  q_with_payload : option bool;
  q_limit : Z;
  q_score_threshold : option Z
}.

(** The collaborators a retriever holds: the store client, the OpenAI
    embeddings endpoint and the three local embedding models. *)
Record Clients : Type := mkClients {
  query_points : QueryRequest -> res (list ScoredPoint);
  embeddings_create : string -> string -> Z -> res Vec;
  dense_embed : string -> res Vec;
  sparse_embed : string -> res (list Z * list Q);
  colbert_embed : string -> res (list Vec)
}.

(** [text.replace("\n", " ")] *)
Fixpoint replace_newlines (text : string) : string :=
  match text with
  | EmptyString => EmptyString
  | String c rest =>
      String (if Ascii.eqb c "010"%char then " "%char else c)
             (replace_newlines rest)
  end.

(** [_get_openai_embedding], shared by the Matryoshka and Fusion classes. *)
Definition _get_openai_embedding (cl : Clients) (text model : string)
    (dimensions : Z) : res Vec :=
  let text := replace_newlines text in
  embeddings_create cl text model dimensions.

(** [x or d] on an [Optional[int]]. *)
Definition int_or (x : option Z) (d : Z) : Z :=
  match x with
  | Some n => if Z.eqb n 0 then d else n
  | None => d
  end.

(** ** Retrieval strategies *)

Module ColbertRetriever.

Definition request (query_vector : list Vec) (limit : Z)
    (score_threshold : option Z) (collection_name : option string)
    : QueryRequest :=
  {| q_collection_name := collection_name;
     q_prefetch := [];
     q_query := Some (NearestMulti query_vector);
     q_using := Some "colbert";
     q_with_payload := Some true;
     q_limit := limit;
     q_score_threshold := score_threshold |}.

Definition retrieve (cl : Clients) (query : string) (limit : Z)
    (score_threshold : option Z) (prefetch_limit : option Z)
    (collection_name : option string) : res (list pydict) :=
  query_vector ← colbert_embed cl query;
  results ← query_points cl
    (request query_vector limit score_threshold collection_name);
  BaseQdrantRetriever._format_results results.

End ColbertRetriever.

Module HybridRetriever.

Definition request (dense_vector : Vec) (sparse_vector : list Z * list Q)
    (colbert_vector : list Vec) (limit prefetch_limit : Z)
    (score_threshold : option Z) (collection_name : option string)
    : QueryRequest :=
  let prefetch := [
    mkPrefetch [] (Some (Nearest dense_vector)) (Some "dense")
      (Some prefetch_limit);
    mkPrefetch [] (Some (NearestSparse sparse_vector.1 sparse_vector.2))
      (Some "sparse") (Some prefetch_limit)
  ] in
  {| q_collection_name := collection_name;
     q_prefetch := prefetch;
     q_query := Some (NearestMulti colbert_vector);
     q_using := Some "colbert";
     q_with_payload := Some true;
     q_limit := limit;
     q_score_threshold := score_threshold |}.

Definition retrieve (cl : Clients) (query : string) (limit : Z)
    (prefetch_limit : option Z) (score_threshold : option Z)
    (collection_name : option string) : res (list pydict) :=
  let prefetch_limit := int_or prefetch_limit 20 in
  dense_vector ← dense_embed cl query;
  sparse_vector ← sparse_embed cl query;
  colbert_vector ← colbert_embed cl query;
  results ← query_points cl
    (request dense_vector sparse_vector colbert_vector limit prefetch_limit
       score_threshold collection_name);
  BaseQdrantRetriever._format_results results.

End HybridRetriever.

Module MatrioskaRetriever.

(** The helper [_get_matryoska_prefetch]; [retrieve] does not call it. *)
Definition _get_matryoska_prefetch (cl : Clients) (query : string)
    (limit_small_vector limit_large_vector : Z) : res Prefetch :=
  small_vector ←
    _get_openai_embedding cl query "text-embedding-3-small" 128;
  large_vector ←
    _get_openai_embedding cl query "text-embedding-3-large" 1024;
  Ok (mkPrefetch
        [mkPrefetch
           [mkPrefetch [] (Some (Nearest small_vector))
              (Some "small-embedding") (Some limit_small_vector)]
           (Some (Nearest large_vector)) (Some "large-embedding")
           (Some limit_large_vector)]
        None None None).

Definition request (small_vector large_vector : Vec)
    (limit prefetch_limit : Z) (collection_name : option string)
    : QueryRequest :=
  {| q_collection_name := collection_name;
     q_prefetch := [
       mkPrefetch [] (Some (Nearest small_vector)) (Some "small-embedding")
         (Some prefetch_limit)
     ];
     q_query := Some (Nearest large_vector);
     q_using := Some "large-embedding";
     q_with_payload := None;
     q_limit := limit;
     q_score_threshold := None |}.

Definition retrieve (cl : Clients) (query : string) (limit : Z)
    (prefetch_limit : option Z) (score_threshold : option Z)
    (collection_name : option string) : res (list pydict) :=
  let prefetch_limit := int_or prefetch_limit 50 in
  small_vector ←
    _get_openai_embedding cl query "text-embedding-3-small" 128;
  large_vector ←
    _get_openai_embedding cl query "text-embedding-3-large" 1024;
  results ← query_points cl
    (request small_vector large_vector limit prefetch_limit
       collection_name);
  BaseQdrantRetriever._format_results results.

(** Default arguments of [_get_matryoska_prefetch] and of [retrieve]. *)
Definition default_limit_small_vector : Z := 100.
Definition default_limit_large_vector : Z := 50.
Definition default_limit : Z := 5.
Definition default_prefetch_limit : option Z := Some 50.
Definition default_score_threshold : option Z := Some 10.

End MatrioskaRetriever.

Module FusionybridRetriever.

Definition format_point (result : ScoredPoint) : pydict :=
  dict_literal [
    ("id", pt_id result);
    ("score", pt_score result);
    ("payload", PDict (pt_payload result))
  ].

(** The override of the base formatter in [fusion.py]. *)
Definition _format_results (points : list ScoredPoint) : res (list pydict) :=
  Ok (map format_point points).

Definition request (small_vector large_vector dense_vector : Vec)
    (sparse_vector : list Z * list Q) (colbert_vector : list Vec)
    (limit : Z) (collection_name : option string) : QueryRequest :=
  let matryoshka_prefetch :=
    mkPrefetch
      [mkPrefetch [] (Some (Nearest small_vector)) (Some "small-embedding")
         (Some 100)]
      (Some (Nearest large_vector)) (Some "large-embedding") (Some 50) in
  let sparse_dense_prefetch :=
    mkPrefetch
      [mkPrefetch [] (Some (Nearest dense_vector)) (Some "dense")
         (Some 100);
       mkPrefetch [] (Some (NearestSparse sparse_vector.1 sparse_vector.2))
         (Some "sparse") (Some 25)]
      (Some FusionRRF) None None in
  {| q_collection_name := collection_name;
     q_prefetch := [matryoshka_prefetch; sparse_dense_prefetch];
     q_query := Some (NearestMulti colbert_vector);
     q_using := Some "colbert";
     q_with_payload := Some true;
     q_limit := limit;
     q_score_threshold := None |}.

Definition retrieve (cl : Clients) (query : string) (limit : Z)
    (prefetch_limit : Z) (collection_name : option string)
    : res (list pydict) :=
  small_vector ←
    _get_openai_embedding cl query "text-embedding-3-small" 128;
  large_vector ←
    _get_openai_embedding cl query "text-embedding-3-large" 1024;
  dense_vector ← dense_embed cl query;
  sparse_vector ← sparse_embed cl query;
  colbert_vector ← colbert_embed cl query;
  results ← query_points cl
    (request small_vector large_vector dense_vector sparse_vector
       colbert_vector limit collection_name);
  _format_results results.

End FusionybridRetriever.

(** ** The retriever factory ([strategies/__init__.py]) *)

Module SearchType.
Definition COLBERT : string := "colbert".
Definition HYBRID : string := "hybrid".
Definition MATRIOSKA : string := "matrioska".
Definition FUSION : string := "fusion".
(** The members of the enumeration. *)
Definition members : list string := [COLBERT; HYBRID; MATRIOSKA; FUSION].
End SearchType.

Record RetrievalConfig : Type := mkRetrievalConfig {
  qdrant_host : string;
  qdrant_api_key : string;
  timeout : Z
}.

(** A handle on an OpenAI client object. *)
Record OpenAI : Type := mkOpenAI { openai_api_key : string }.

(** The retriever objects the factory can hand out, by class. *)
Inductive Retriever : Type :=
  | NewColbertRetriever (config : RetrievalConfig)
  | NewHybridRetriever (config : RetrievalConfig)
  | NewMatrioskaRetriever (openai_client : OpenAI) (config : RetrievalConfig)
  | NewFusionybridRetriever (config : RetrievalConfig) (openai_client : OpenAI).

Module RetrieverFactory.

(** [search_type] is a member of the string-valued enumeration, compared by
    value.  The message of the last error ends with the tag; it is left
    out here. *)
Definition create_retriever (search_type : string) (config : RetrievalConfig)
    (openai_client : option OpenAI) : res Retriever :=
  if String.eqb search_type SearchType.COLBERT then
    Ok (NewColbertRetriever config)
  else if String.eqb search_type SearchType.HYBRID then
    Ok (NewHybridRetriever config)
  else if String.eqb search_type SearchType.MATRIOSKA then
    match openai_client with
    | None => Raise (ValueError "OpenAI client required for matrioska search")
    | Some client => Ok (NewMatrioskaRetriever client config)
    end
  else Raise (ValueError "Unknown search type").

End RetrieverFactory.

(** ** The store's staged-query contract *)

(** Modelled from the spec: the vector store engine is an external service;
    what is modelled is its staged-query contract (section 4.1): a stage
    scores its candidate set by one field and returns up to [limit] of the
    candidates, and the candidate set of an outer stage is what its inner
    prefetch stages returned (the whole collection when there are none).
    [rank field query] stands for the engine's scoring and ordering. *)
Section StagedStore.

Variable corpus : list ScoredPoint.
Variable rank :
  option string -> option Query -> list ScoredPoint -> list ScoredPoint.

Definition take_limit (limit : option Z) (l : list ScoredPoint)
    : list ScoredPoint :=
  match limit with
  | Some n => take (Z.to_nat n) l
  | None => l
  end.

Fixpoint eval_prefetch (p : Prefetch) : list ScoredPoint :=
  match p with
  | mkPrefetch inner query field limit =>
      let candidates :=
        match inner with
        | [] => corpus
        | _ => concat (map eval_prefetch inner)
        end in
      take_limit limit (rank field query candidates)
  end.

Definition candidates_of (prefetch : list Prefetch) : list ScoredPoint :=
  match prefetch with
  | [] => corpus
  | _ => concat (map eval_prefetch prefetch)
  end.

Definition eval_request (r : QueryRequest) : list ScoredPoint :=
  take (Z.to_nat (q_limit r))
    (rank (q_using r) (q_query r) (candidates_of (q_prefetch r))).

(** A store client answering every request by the contract. *)
Definition staged_store (cl : Clients) : Clients :=
  {| query_points := fun r => Ok (eval_request r);
     embeddings_create := embeddings_create cl;
     dense_embed := dense_embed cl;
     sparse_embed := sparse_embed cl;
     colbert_embed := colbert_embed cl |}.

End StagedStore.

(** The plan the specification words describe for the Matryoshka variant:
    small field to [limit_small], reranked by the large field to
    [limit_large]. *)
Definition matryoshka_plan_spec (small_vector large_vector : Vec)
    (limit_small limit_large : Z) : list Prefetch :=
  [mkPrefetch
     [mkPrefetch [] (Some (Nearest small_vector)) (Some "small-embedding")
        (Some limit_small)]
     (Some (Nearest large_vector)) (Some "large-embedding")
     (Some limit_large)].

(** ** Reference extractors ([references/extractors/]) *)

(** Model validation of the two fields an extractor fills from payload
    values: [element_id]/[label], declared [str], and [page_number], declared
    [Optional[int]].  The validation library is external; only what it does
    on values of the declared types is fixed. *)
Class Pydantic : Type := {
  validate_str : pyval -> option string;
  validate_opt_int : pyval -> option (option Z);
  validate_str_str : forall s, validate_str (PStr s) = Some s;
  validate_opt_int_none : validate_opt_int PNone = Some None;
  validate_opt_int_int : forall n, validate_opt_int (PInt n) = Some (Some n)
}.

(** A validator accepting the declared types only. *)
Definition strict_str (v : pyval) : option string :=
  match v with PStr s => Some s | _ => None end.
Definition strict_opt_int (v : pyval) : option (option Z) :=
  match v with PNone => Some None | PInt n => Some (Some n) | _ => None end.

Definition strict_pydantic : Pydantic :=
  {| validate_str := strict_str;
     validate_opt_int := strict_opt_int;
     validate_str_str := fun s => eq_refl;
     validate_opt_int_none := eq_refl;
     validate_opt_int_int := fun n => eq_refl |}.

(** [TableReference(sub_question=..., element_id=..., page_number=...)] *)
Definition new_TableReference `{Pydantic} (sub_question : string)
    (element_id page_number : pyval) : res TableReference :=
  match validate_str element_id, validate_opt_int page_number with
  | Some e, Some p => Ok (mkTableReference sub_question e p None None)
  | _, _ => Raise ValidationError
  end.

(** [FigureReference(sub_question=..., label=..., page_number=...)] *)
Definition new_FigureReference `{Pydantic} (sub_question : string)
    (label page_number : pyval) : res FigureReference :=
  match validate_str label, validate_opt_int page_number with
  | Some l, Some p => Ok (mkFigureReference sub_question l p None)
  | _, _ => Raise ValidationError
  end.

(** A [for] loop whose body updates the accumulated state or raises. *)
Fixpoint for_each {A S} (l : list A) (body : S -> A -> res S) (s : S)
    : res S :=
  match l with
  | [] => Ok s
  | x :: l' => s' ← body s x; for_each l' body s'
  end.

Definition extraction : Type :=
  (list TableReference * list FigureReference)%type.

Module ContentElementsExtractor.

(** [identifier and identifier != "None"] *)
Definition _is_valid_id (identifier : pyval) : pyval :=
  if truthy identifier then PBool (negb (py_eq_str identifier "None"))
  else identifier.

Definition extract `{Pydantic} (result : pydict) (sub_question : string)
    : res extraction :=
  content_elements ← py_iter (dict_get result "content_elements" (PList []));
  for_each content_elements (fun '(tables, figures) element =>
    element_type ← py_get element "type" PNone;
    if py_eq_str element_type "table" then
      element_id ← py_get element "element_id" PNone;
      if truthy (_is_valid_id element_id) then
        t ← new_TableReference sub_question element_id
              (dict_get result "page_number" PNone);
        Ok (tables ++ [t], figures)
      else Ok (tables, figures)
    else if py_eq_str element_type "figure" then
      figure_id ← py_get element "figure_id" PNone;
      if truthy (_is_valid_id figure_id) then
        f ← new_FigureReference sub_question figure_id
              (dict_get result "page_number" PNone);
        Ok (tables, figures ++ [f])
      else Ok (tables, figures)
    else Ok (tables, figures)) ([], []).

End ContentElementsExtractor.

Module FlattenedTablesExtractor.

Definition extract `{Pydantic} (result : pydict) (sub_question : string)
    : res extraction :=
  flattened_tables ← py_iter (dict_get result "flattened_tables" (PList []));
  tables ← for_each flattened_tables (fun tables table =>
    table_id ← py_get table "table_id" PNone;
    if truthy (ContentElementsExtractor._is_valid_id table_id) then
      t ← new_TableReference sub_question table_id
            (dict_get result "page_number" PNone);
      Ok (tables ++ [t])
    else Ok tables) [];
  Ok (tables, []).

End FlattenedTablesExtractor.

Module TableMetadataExtractor.

Definition extract `{Pydantic} (result : pydict) (sub_question : string)
    : res extraction :=
  table_metadata ← py_iter (dict_get result "table_metadata" (PList []));
  tables ← for_each table_metadata (fun tables table =>
    table_id ← py_get table "table_id" PNone;
    if truthy (ContentElementsExtractor._is_valid_id table_id) then
      t ← new_TableReference sub_question table_id
            (dict_get result "page_number" PNone);
      Ok (tables ++ [t])
    else Ok tables) [];
  Ok (tables, []).

End TableMetadataExtractor.

Module ContentSummaryExtractor.

Definition extract `{Pydantic} (result : pydict) (sub_question : string)
    : res extraction :=
  let content_summary := dict_get result "content_summary" (PDict []) in
  summary_figures ← py_get content_summary "figures" (PList []);
  summary_figures ← py_iter summary_figures;
  figures ← for_each summary_figures (fun figures figure =>
    if truthy (ContentElementsExtractor._is_valid_id figure) then
      f ← new_FigureReference sub_question figure
            (dict_get result "page_number" PNone);
      Ok (figures ++ [f])
    else Ok figures) [];
  Ok ([], figures).

End ContentSummaryExtractor.

Module WithinPageRelationsExtractor.

Definition extract `{Pydantic} (result : pydict) (sub_question : string)
    : res extraction :=
  content_elements ← py_iter (dict_get result "content_elements" (PList []));
  figures ← for_each content_elements (fun figures element =>
    within_page_relations ←
      py_get element "within_page_relations" (PDict []);
    related_figures ←
      py_get within_page_relations "related_figures" (PList []);
    related_figures ← py_iter related_figures;
    for_each related_figures (fun figures figure =>
      label ← py_get figure "label" PNone;
      if truthy (ContentElementsExtractor._is_valid_id label) then
        f ← new_FigureReference sub_question label
              (dict_get result "page_number" PNone);
        Ok (figures ++ [f])
      else Ok figures) figures) [];
  Ok ([], figures).

End WithinPageRelationsExtractor.

(** ** File correlation ([references/extractor.py]) *)

(** [s.split(sep)] for a one-character separator. *)
Fixpoint split_on (sep : ascii) (s : string) : list string :=
  match s with
  | EmptyString => [EmptyString]
  | String c s' =>
      if Ascii.eqb c sep then EmptyString :: split_on sep s'
      else match split_on sep s' with
           | piece :: pieces => String c piece :: pieces
           | [] => [String c EmptyString]
           end
  end.

(** [l[-1]] on a list of strings. *)
Definition last_piece (l : list string) : string := List.last l EmptyString.

(** *** [pathlib] on a POSIX system

    A path is held as [pathlib] holds it: its root (empty, one slash or two
    slashes) and the parts after the root. *)
Record Path : Type := mkPath {
  path_root : string;
  path_parts : list string
}.

(** [part.lstrip("/")] *)
Fixpoint lstrip_sep (s : string) : string :=
  match s with
  | String c s' => if Ascii.eqb c "/" then lstrip_sep s' else s
  | EmptyString => EmptyString
  end.

(** [splitroot]: exactly two leading slashes are a root of their own, any
    other number of them is the root ["/"]. *)
Definition splitroot (part : string) : string * string :=
  match part with
  | String c _ =>
      if Ascii.eqb c "/" then
        let stripped := lstrip_sep part in
        if Nat.eqb (String.length part - String.length stripped) 2
        then ("//", stripped)
        else ("/", stripped)
      else (EmptyString, part)
  | EmptyString => (EmptyString, part)
  end.

(** The pieces [parse_parts] keeps: [if x and x != "."]. *)
Definition is_part (x : string) : bool :=
  negb (String.eqb x EmptyString) && negb (String.eqb x ".").

(** [Path(s)] *)
Definition path_of (s : string) : Path :=
  let '(root, rel) := splitroot s in
  mkPath root (List.filter is_part (split_on "/" rel)).

(** [p / s]: a segment with a root replaces the path, any other is
    appended. *)
Definition path_join (p : Path) (s : string) : Path :=
  let q := path_of s in
  if String.eqb (path_root q) EmptyString
  then mkPath (path_root p) (path_parts p ++ path_parts q)
  else q.

Notation "p // s" := (path_join p s) (at level 40, left associativity).

(** ["/".join(parts)] *)
Fixpoint join_sep (parts : list string) : string :=
  match parts with
  | [] => EmptyString
  | [x] => x
  | x :: rest => x +:+ "/" +:+ join_sep rest
  end.

(** [str(p)] *)
Definition path_str (p : Path) : string :=
  let s := path_root p +:+ join_sep (path_parts p) in
  if String.eqb s EmptyString then "." else s.

(** The operating system behind [p.exists()]: whether a file is found at
    a path, or the [OSError] that [exists] lets through (a name that is too
    long, a directory that may not be searched). *)
Class FileSystem : Type := {
  exists_at : string -> res bool
}.

(** [p.exists()] *)
Definition path_exists {FS : FileSystem} (p : Path) : res bool :=
  exists_at (path_str p).

(** A directory tree given by the list of its files, on which no probe
    fails. *)
Definition list_fs (files : list string) : FileSystem :=
  {| exists_at := fun s => Ok (bool_decide (s ∈ files)) |}.

(** The same tree on a system that refuses names of more than 255 bytes. *)
Definition name_max : nat := 255.
Definition bounded_fs (files : list string) : FileSystem :=
  {| exists_at := fun s =>
       if existsb (fun x => (name_max <? String.length x)%nat)
            (split_on "/" s)
       then Raise OSError
       else Ok (bool_decide (s ∈ files)) |}.

(** The truth value of an [Optional[int]] and of a [str]. *)
Definition truthy_page (p : option Z) : bool :=
  match p with
  | Some n => negb (Z.eqb n 0)
  | None => false
  end.
Definition truthy_str (s : string) : bool := negb (String.eqb s EmptyString).

Definition default_scratch_path : string := "scratch/service_manual_long".

Section Correlation.

Context {FS : FileSystem}.

Definition table_png_path (scratch_dir : Path) (table : TableReference)
    : Path :=
  scratch_dir // ("page_" +:+ str_opt_int (t_page_number table))
    // "tables" // (element_id table +:+ ".png").

Definition table_html_path (scratch_dir : Path) (table : TableReference)
    : Path :=
  scratch_dir // ("page_" +:+ str_opt_int (t_page_number table))
    // "tables" // (element_id table +:+ ".html").

(** The body of the loop over [references.tables]. *)
Definition correlate_table (scratch_dir : Path) (table : TableReference)
    : res TableReference :=
  if truthy_page (t_page_number table) && truthy_str (element_id table) then
    let table_png_path := table_png_path scratch_dir table in
    let table_html_path := table_html_path scratch_dir table in
    png_exists ← path_exists table_png_path;
    let table :=
      if png_exists : bool then
        mkTableReference (t_sub_question table) (element_id table)
          (t_page_number table) (Some (path_str table_png_path))
          (html_file table)
      else table in
    html_exists ← path_exists table_html_path;
    Ok (if html_exists : bool then
          mkTableReference (t_sub_question table) (element_id table)
            (t_page_number table) (t_png_file table)
            (Some (path_str table_html_path))
        else table)
  else Ok table.

Definition possible_paths (scratch_dir : Path) (figure : FigureReference)
    : list Path :=
  let page_dir :=
    scratch_dir // ("page_" +:+ str_opt_int (f_page_number figure)) in
  [ page_dir // "images" // (label figure +:+ ".png");
    page_dir // "images"
      // ("image-" +:+ str_opt_int (f_page_number figure) +:+ "-"
          +:+ last_piece (split_on "-"%char (label figure)) +:+ ".png") ].

(** [for figure_png_path in possible_paths: if exists: ...; break] *)
Fixpoint first_existing (paths : list Path) : res (option Path) :=
  match paths with
  | [] => Ok None
  | p :: paths' =>
      found ← path_exists p;
      if found : bool then Ok (Some p) else first_existing paths'
  end.

(** The body of the loop over [references.figures]. *)
Definition correlate_figure (scratch_dir : Path) (figure : FigureReference)
    : res FigureReference :=
  if truthy_page (f_page_number figure) && truthy_str (label figure) then
    found ← first_existing (possible_paths scratch_dir figure);
    match found with
    | Some figure_png_path =>
        Ok (mkFigureReference (f_sub_question figure) (label figure)
              (f_page_number figure) (Some (path_str figure_png_path)))
    | None => Ok figure
    end
  else Ok figure.

Definition correlate_references_with_files (references : References)
    (scratch_path : string) : res References :=
  let scratch_dir := path_of scratch_path in
  tables ← mapM (correlate_table scratch_dir) (tables references);
  figures ← mapM (correlate_figure scratch_dir) (figures references);
  Ok {| tables := tables; figures := figures |}.

End Correlation.

(** ** The extraction pipeline ([extract_tables_and_figures_references]) *)

Definition opt_int_value (p : option Z) : pyval :=
  match p with Some n => PInt n | None => PNone end.
Definition opt_str_value (s : option string) : pyval :=
  match s with Some x => PStr x | None => PNone end.

(** [table.model_dump()] and [figure.model_dump()] *)
Definition table_model_dump (t : TableReference) : pydict :=
  [ ("sub_question", PStr (t_sub_question t));
    ("element_id", PStr (element_id t));
    ("page_number", opt_int_value (t_page_number t));
    ("png_file", opt_str_value (t_png_file t));
    ("html_file", opt_str_value (html_file t)) ].

Definition figure_model_dump (f : FigureReference) : pydict :=
  [ ("sub_question", PStr (f_sub_question f));
    ("label", PStr (label f));
    ("page_number", opt_int_value (f_page_number f));
    ("png_file", opt_str_value (f_png_file f)) ].

Section Pipeline.

Context {V : Pydantic} {FS : FileSystem}.

(** The five extractors, in the order the pipeline applies them. *)
Definition extractors : list (pydict -> string -> res extraction) :=
  [ ContentElementsExtractor.extract;
    FlattenedTablesExtractor.extract;
    TableMetadataExtractor.extract;
    ContentSummaryExtractor.extract;
    WithinPageRelationsExtractor.extract ].

(** The innermost loop: all extractors on one result. *)
Definition extract_result (sub_question : string) (acc : extraction)
    (result : pydict) : res extraction :=
  for_each extractors (fun '(all_tables, all_figures) extractor =>
    '(tables, figures) ← extractor result sub_question;
    Ok (all_tables ++ tables, all_figures ++ figures)) acc.

(** The three nested loops, giving [all_tables] and [all_figures]. *)
Definition extract_all (relevant_points : list (string * list pydict))
    : res extraction :=
  for_each relevant_points (fun acc '(sub_question, results) =>
    for_each results (extract_result sub_question) acc) ([], []).

Definition extract_references
    (relevant_points : list (string * list pydict)) : res References :=
  '(all_tables, all_figures) ← extract_all relevant_points;
  let references := mkReferences all_tables all_figures in
  references ←
    correlate_references_with_files references default_scratch_path;
  Ok (deduplicate_references references).

Definition extract_tables_and_figures_references
    (relevant_points : list (string * list pydict)) : res pydict :=
  references ← extract_references relevant_points;
  Ok [ ("tables", PList (map (fun t => PDict (table_model_dump t))
                           (tables references)));
       ("figures", PList (map (fun f => PDict (figure_model_dump f))
                            (figures references))) ].

End Pipeline.

(** ** Specification-side notions *)

(** First occurrences of each key, skipping the keys already in [seen]: the
    list the deduplication loop appends to [unique]. *)
Fixpoint firsts {A} (key : A -> string) (seen : gset string) (l : list A)
    : list A :=
  match l with
  | [] => []
  | x :: l' =>
      if decide (key x ∈ seen) then firsts key seen l'
      else x :: firsts key ({[key x]} ∪ seen) l'
  end.

(** [output] keeps, for every group of [input] agreeing on [k], exactly the
    first member, in the order of first appearance. *)
Definition first_wins {A K} `{EqDecision K} (k : A -> K)
    (input output : list A) : Prop :=
  sublist output input /\
  NoDup (k <$> output) /\
  forall x, x ∈ input ->
    exists y, y ∈ output /\ k y = k x /\
              head (filter (fun z => k z = k x) input) = Some y.

(** Every member of a list next to the members before it. *)
Fixpoint with_earlier {A} (earlier l : list A) : list (list A * A) :=
  match l with
  | [] => []
  | x :: l' => (earlier, x) :: with_earlier (earlier ++ [x]) l'
  end.

(** The members of [input] that no earlier member agrees with on [k], in
    the order of [input]. *)
Definition first_occurrences {A K} `{EqDecision K} (k : A -> K)
    (input : list A) : list A :=
  (filter (fun p => k p.2 ∉ k <$> p.1) (with_earlier [] input)).*2.

Definition table_ident (t : TableReference) : string * option Z :=
  (element_id t, t_page_number t).
Definition figure_ident (f : FigureReference) : string * option Z :=
  (label f, f_page_number f).

Fixpoint str_mem (c : ascii) (s : string) : bool :=
  match s with
  | EmptyString => false
  | String a s' => Ascii.eqb a c || str_mem c s'
  end.

Fixpoint str_forall (f : ascii -> bool) (s : string) : bool :=
  match s with
  | EmptyString => true
  | String a s' => f a && str_forall f s'
  end.

Definition is_num_char (c : ascii) : bool := str_mem c "-0123456789".

(** What one formatted record holds for the point it was built from. *)
Definition formatted_from (p : ScoredPoint) (r : pydict) : Prop :=
  dict_lookup "score" r = Some (pt_score p) /\
  dict_lookup "id" r = Some (pt_id p) /\
  dict_lookup "payload" r = Some (PDict (pt_payload p)) /\
  forall field key default, (field, key, default) ∈ convenience_fields ->
    dict_lookup field r = Some (dict_get (pt_payload p) key default).

(** Clients whose embedding calls all succeed and whose store answers every
    request with [points]. *)
Definition stub_clients (points : list ScoredPoint) : Clients :=
  {| query_points := fun _ => Ok points;
     embeddings_create := fun _ _ _ => Ok [];
     dense_embed := fun _ => Ok [];
     sparse_embed := fun _ => Ok ([], []);
     colbert_embed := fun _ => Ok [] |}.

Definition embeds_ok (cl : Clients) (query : string) : Prop :=
  returns (_get_openai_embedding cl query "text-embedding-3-small" 128) /\
  returns (_get_openai_embedding cl query "text-embedding-3-large" 1024) /\
  returns (dense_embed cl query) /\
  returns (sparse_embed cl query) /\
  returns (colbert_embed cl query).

Definition store_returns (cl : Clients) (points : list ScoredPoint) : Prop :=
  forall r, query_points cl r = Ok points.

(** A store that applies the score threshold of a request to one stored
    point of score 7. *)
Definition threshold_store : Clients :=
  {| query_points := fun r =>
       match q_score_threshold r with
       | Some t =>
           if Z.leb t 7 then Ok [mkScoredPoint (PInt 1) (PInt 7) []]
           else Ok []
       | None => Ok [mkScoredPoint (PInt 1) (PInt 7) []]
       end;
     embeddings_create := fun _ _ _ => Ok [];
     dense_embed := fun _ => Ok [];
     sparse_embed := fun _ => Ok ([], []);
     colbert_embed := fun _ => Ok [] |}.

(** The keys of a dictionary, in order. *)
Definition dict_keys (d : pydict) : list string := map fst d.

(** A ranking that keeps the stored order, and a collection of [n] points. *)
Definition stored_order (_ : option string) (_ : option Query)
    (l : list ScoredPoint) : list ScoredPoint := l.
Definition numbered_points (n : nat) : list ScoredPoint :=
  map (fun i => mkScoredPoint (PInt (Z.of_nat i)) (PInt 0) []) (seq 0 n).

(** *** The identifiers an extractor scans *)

Definition as_dict (v : pyval) : option pydict :=
  match v with PDict d => Some d | _ => None end.
Definition as_list (v : pyval) : option (list pyval) :=
  match v with PList l => Some l | _ => None end.

Fixpoint dicts_of (l : list pyval) : option (list pydict) :=
  match l with
  | [] => Some []
  | PDict d :: l' => ds ← dicts_of l'; Some (d :: ds)
  | _ :: _ => None
  end.

(** A value that is a list of dictionaries. *)
Definition list_of_dicts (v : pyval) : option (list pydict) :=
  l ← as_list v; dicts_of l.

Definition has_type (type_ : string) (d : pydict) : bool :=
  py_eq_str (dict_get d "type" PNone) type_.

(** [content_elements] entries of one type, read at [key]. *)
Definition scan_content (key type_ : string) (r : pydict)
    : option (list pyval) :=
  ds ← list_of_dicts (dict_get r "content_elements" (PList []));
  Some (map (fun d => dict_get d key PNone) (List.filter (has_type type_) ds)).

(** The entries of the list at [loc], read at [key]. *)
Definition scan_entries (loc key : string) (r : pydict)
    : option (list pyval) :=
  ds ← list_of_dicts (dict_get r loc (PList []));
  Some (map (fun d => dict_get d key PNone) ds).

(** [content_summary.figures], whose entries are the identifiers. *)
Definition scan_summary (r : pydict) : option (list pyval) :=
  d ← as_dict (dict_get r "content_summary" (PDict []));
  as_list (dict_get d "figures" (PList [])).

(** The labels under one element's [within_page_relations.related_figures]. *)
Definition related_labels (element : pydict) : option (list pyval) :=
  w ← as_dict (dict_get element "within_page_relations" (PDict []));
  fs ← list_of_dicts (dict_get w "related_figures" (PList []));
  Some (map (fun f => dict_get f "label" PNone) fs).

Fixpoint scan_related (elements : list pydict) : option (list pyval) :=
  match elements with
  | [] => Some []
  | d :: elements' =>
      ls ← related_labels d; rest ← scan_related elements';
      Some (ls ++ rest)
  end.

Definition scan_relations (r : pydict) : option (list pyval) :=
  ds ← list_of_dicts (dict_get r "content_elements" (PList []));
  scan_related ds.

(** An identifier as the models declare it: a string, or a missing one. *)
Definition is_identifier (v : pyval) : bool :=
  match v with PNone | PStr _ => true | _ => false end.

(** A page number as the models declare it. *)
Definition is_page (v : pyval) : bool :=
  match v with PNone | PInt _ => true | _ => false end.
Definition page_value (v : pyval) : option Z :=
  match v with PInt n => Some n | _ => None end.

(** The validity rule in the words of the specification: non-empty and not
    the literal string "None"; a missing identifier is not valid. *)
Definition valid_identifier (v : pyval) : option string :=
  match v with
  | PStr s => if bool_decide (s <> EmptyString /\ s <> "None") then Some s else None
  | _ => None
  end.

Definition valid_ids (ids : list pyval) : list string :=
  omap valid_identifier ids.

Definition scanned (o : option (list pyval)) : list pyval := default [] o.

Definition table_refs (sub_question : string) (page : option Z)
    (ids : list string) : list TableReference :=
  map (fun s => mkTableReference sub_question s page None None) ids.
Definition figure_refs (sub_question : string) (page : option Z)
    (ids : list string) : list FigureReference :=
  map (fun s => mkFigureReference sub_question s page None) ids.

(** The six scanned locations of a result, in pipeline order. *)
Definition scans (r : pydict) : list (option (list pyval)) :=
  [ scan_content "element_id" "table" r;
    scan_content "figure_id" "figure" r;
    scan_entries "flattened_tables" "table_id" r;
    scan_entries "table_metadata" "table_id" r;
    scan_summary r;
    scan_relations r ].

(** Every scanned location has the expected shape, every identifier found
    is a string or missing, and the page number is an integer or missing. *)
Definition well_formed_result (r : pydict) : bool :=
  forallb (fun o => match o with
                    | Some ids => forallb is_identifier ids
                    | None => false
                    end) (scans r)
  && is_page (dict_get r "page_number" PNone).

Definition well_formed_points (relevant_points : list (string * list pydict))
    : bool :=
  forallb (fun '(_, results) => forallb well_formed_result results)
    relevant_points.

(** The references of one well-formed result, before correlation. *)
Definition expected_tables (sub_question : string) (r : pydict)
    : list TableReference :=
  table_refs sub_question (page_value (dict_get r "page_number" PNone))
    (valid_ids (scanned (scan_content "element_id" "table" r)
                ++ scanned (scan_entries "flattened_tables" "table_id" r)
                ++ scanned (scan_entries "table_metadata" "table_id" r))).

Definition expected_figures (sub_question : string) (r : pydict)
    : list FigureReference :=
  figure_refs sub_question (page_value (dict_get r "page_number" PNone))
    (valid_ids (scanned (scan_content "figure_id" "figure" r)
                ++ scanned (scan_summary r)
                ++ scanned (scan_relations r))).

Definition expected_all_tables (relevant_points : list (string * list pydict))
    : list TableReference :=
  concat (map (fun '(sub_question, results) =>
                 concat (map (expected_tables sub_question) results))
            relevant_points).

Definition expected_all_figures (relevant_points : list (string * list pydict))
    : list FigureReference :=
  concat (map (fun '(sub_question, results) =>
                 concat (map (expected_figures sub_question) results))
            relevant_points).

(** *** Correlation in the words of the specification *)

(** The text after the last [c] in [s]; all of [s] when it has no [c]. *)
Fixpoint after_last (c : ascii) (s : string) : string :=
  match s with
  | EmptyString => EmptyString
  | String a s' =>
      if str_mem c s' then after_last c s'
      else if Ascii.eqb a c then s' else String a s'
  end.

(** The paths the correlation probes, written from their pieces. *)
Definition table_probe (dir : Path) (P : Z) (E ext : string) : Path :=
  dir // ("page_" +:+ pretty P) // "tables" // (E +:+ ext).

Definition figure_probe (dir : Path) (P : Z) (file : string) : Path :=
  dir // ("page_" +:+ pretty P) // "images" // file.

Definition raw_file (L : string) : string := L +:+ ".png".
Definition fallback_file (P : Z) (L : string) : string :=
  "image-" +:+ pretty P +:+ "-" +:+ after_last "-"%char L +:+ ".png".

Definition table_correlated `{FileSystem} (dir : Path)
    (t t' : TableReference) : Prop :=
  match t_page_number t with
  | Some P =>
      if Z.eqb P 0 || String.eqb (element_id t) EmptyString then t' = t
      else
        let png := table_probe dir P (element_id t) ".png" in
        let html := table_probe dir P (element_id t) ".html" in
        exists png_found html_found : bool,
          path_exists png = Ok png_found /\
          path_exists html = Ok html_found /\
          t' = mkTableReference (t_sub_question t) (element_id t) (Some P)
                 (if png_found then Some (path_str png) else t_png_file t)
                 (if html_found then Some (path_str html) else html_file t)
  | None => t' = t
  end.

Definition figure_correlated `{FileSystem} (dir : Path)
    (f f' : FigureReference) : Prop :=
  match f_page_number f with
  | Some P =>
      if Z.eqb P 0 || String.eqb (label f) EmptyString then f' = f
      else
        let raw := figure_probe dir P (raw_file (label f)) in
        let fallback := figure_probe dir P (fallback_file P (label f)) in
        exists raw_found : bool,
          path_exists raw = Ok raw_found /\
          if raw_found then
            f' = mkFigureReference (f_sub_question f) (label f) (Some P)
                   (Some (path_str raw))
          else
            exists fallback_found : bool,
              path_exists fallback = Ok fallback_found /\
              f' = if fallback_found then
                     mkFigureReference (f_sub_question f) (label f) (Some P)
                       (Some (path_str fallback))
                   else f
  | None => f' = f
  end.

(** Every probe the correlation makes for a reference is answered, with a
    file found or not, rather than failing. *)
Definition table_probes_answer `{FileSystem} (dir : Path)
    (t : TableReference) : Prop :=
  match t_page_number t with
  | Some P =>
      if Z.eqb P 0 || String.eqb (element_id t) EmptyString then True
      else returns (path_exists (table_probe dir P (element_id t) ".png")) /\
           returns (path_exists (table_probe dir P (element_id t) ".html"))
  | None => True
  end.

Definition figure_probes_answer `{FileSystem} (dir : Path)
    (f : FigureReference) : Prop :=
  match f_page_number f with
  | Some P =>
      if Z.eqb P 0 || String.eqb (label f) EmptyString then True
      else
        let raw := figure_probe dir P (raw_file (label f)) in
        returns (path_exists raw) /\
        (path_exists raw = Ok false ->
         returns (path_exists
                    (figure_probe dir P (fallback_file P (label f)))))
  | None => True
  end.

Definition probes_answer `{FileSystem} (dir : Path) (refs : References)
    : Prop :=
  Forall (table_probes_answer dir) (tables refs) /\
  Forall (figure_probes_answer dir) (figures refs).

(** A path below [dir]: the same root, and the parts of [dir] followed by
    [parts]. *)
Definition below (dir : Path) (parts : list string) : Path :=
  mkPath (path_root dir) (path_parts dir ++ parts).

(** A name of [n] bytes. *)
Definition long_name (n : nat) : string :=
  string_of_list_ascii (repeat "a"%char n).

Global Arguments path_of : simpl never.
Global Arguments path_join : simpl never.
Global Arguments path_str : simpl never.
Global Arguments path_exists : simpl never.

(** *** Relations used to state what correlation keeps *)

(** A file field after correlation: the old value, or the path of a file
    that exists. *)
Definition file_kept_or_found `{FileSystem} (before after : option string)
    : Prop :=
  after = before \/
  exists p, after = Some (path_str p) /\ path_exists p = Ok true.

Definition table_enriched `{FileSystem} (t t' : TableReference) : Prop :=
  t_sub_question t' = t_sub_question t /\
  element_id t' = element_id t /\
  t_page_number t' = t_page_number t /\
  file_kept_or_found (t_png_file t) (t_png_file t') /\
  file_kept_or_found (html_file t) (html_file t').

Definition figure_enriched `{FileSystem} (f f' : FigureReference) : Prop :=
  f_sub_question f' = f_sub_question f /\
  label f' = label f /\
  f_page_number f' = f_page_number f /\
  file_kept_or_found (f_png_file f) (f_png_file f').

(** *** The record of the base formatter, key by key *)

Definition base_record (point : ScoredPoint) : pydict :=
  let payload := pt_payload point in
  [ ("score", pt_score point);
    ("id", pt_id point);
    ("payload", PDict payload);
    ("text", dict_get payload "embedding_text" (PStr EmptyString));
    ("page_number", dict_get payload "page_number" PNone);
    ("document_title", dict_get payload "document_title" PNone);
    ("document_id", dict_get payload "document_id" PNone);
    ("section_title", dict_get payload "section_title" PNone);
    ("subsection_title", dict_get payload "subsection_title" PNone);
    ("manufacturer", dict_get payload "manufacturer" PNone);
    ("models_covered", dict_get payload "models_covered" (PList []));
    ("entities", dict_get payload "entities" (PList []));
    ("keywords", dict_get payload "keywords" (PList []));
    ("warnings", dict_get payload "warnings" (PList []));
    ("has_tables", dict_get payload "has_tables" (PBool false));
    ("has_figures", dict_get payload "has_figures" (PBool false));
    ("table_count", dict_get payload "table_count" (PInt 0));
    ("figure_count", dict_get payload "figure_count" (PInt 0)) ].

Definition promoted_fields (full_metadata : pydict) : pydict :=
  [ ("page_visual_description",
     dict_get full_metadata "page_visual_description" PNone);
    ("content_elements", dict_get full_metadata "content_elements" (PList []));
    ("text_content", dict_get full_metadata "text_content" PNone);
    ("text_file", dict_get full_metadata "text_file" PNone) ].

(** A value that [for ... in] cannot iterate. *)
Definition not_iterable (v : pyval) : bool :=
  match v with
  | PNone | PBool _ | PInt _ | PFloat _ => true
  | _ => false
  end.

(** The keys the extractors read from a result, page number apart. *)
Definition scanned_keys : list string :=
  ["content_elements"; "flattened_tables"; "table_metadata"; "content_summary"].

Definition lacks_scanned_keys (r : pydict) : bool :=
  forallb (fun k => negb (dict_mem k r)) scanned_keys.

Definition append_extraction (a b : extraction) : extraction :=
  (a.1 ++ b.1, a.2 ++ b.2).

(** ** The retrieval service ([services.py], [schemas.py]) *)

Record SubQuestionMapping : Type := mkSubQuestionMapping {
  sqm_sub_question : string;
  sqm_section_number : Z;
  sqm_section_title : string;
  sqm_matched_chapters : list string
}.

Record QueryDecompositionResponse : Type := mkQueryDecompositionResponse {
  original_question : string;
  decomposed_questions : list SubQuestionMapping
}.

(** [results[k] = v] on the mapping from sub-question to results. *)
Fixpoint results_set {V} (k : string) (v : V) (d : list (string * V))
    : list (string * V) :=
  match d with
  | [] => [(k, v)]
  | (k', v') :: d' =>
      if String.eqb k k' then (k, v) :: d' else (k', v') :: results_set k v d'
  end.

Fixpoint results_get {V} (k : string) (d : list (string * V)) : option V :=
  match d with
  | [] => None
  | (k', v) :: d' => if String.eqb k k' then Some v else results_get k d'
  end.

Module RetrievalService.

(** [collection_name or "hybrid_collection"] in the constructor. *)
Definition init_collection_name (collection_name : option string) : string :=
  match collection_name with
  | Some name => if String.eqb name EmptyString then "hybrid_collection" else name
  | None => "hybrid_collection"
  end.

(** [decompose_query] stands for the decomposition service, and
    [retriever_strategy], when there is one, for its [retrieve] called with
    the query and the collection name.  Without a strategy the code calls
    [_retrieve_with_direct_client], which the class does not define. *)
Definition _retrieve_points
    (decompose_query : string -> res QueryDecompositionResponse)
    (retriever_strategy : option (string -> string -> res (list pydict)))
    (collection_name : string) (query : string)
    : res (list (string * list pydict)) :=
  decomposition ← decompose_query query;
  for_each (decomposed_questions decomposition) (fun results m =>
    let sub_question := sqm_sub_question m in
    match retriever_strategy with
    | Some retrieve =>
        r ← retrieve sub_question collection_name;
        Ok (results_set sub_question r results)
    | None => Raise AttributeError
    end) [].

(** [chat] stands for the answer-synthesis call, given the question and the
    retrieved points; the result is the dictionary of answer and
    references, as a pair. *)
Definition answer_question `{Pydantic} `{FileSystem}
    (decompose_query : string -> res QueryDecompositionResponse)
    (retriever_strategy : option (string -> string -> res (list pydict)))
    (collection_name : string)
    (chat : string -> list (string * list pydict) -> res string)
    (user_question : string) : res (string * pydict) :=
  relevant_points ←
    _retrieve_points decompose_query retriever_strategy collection_name
      user_question;
  references ← extract_tables_and_figures_references relevant_points;
  answer ← chat user_question relevant_points;
  Ok (answer, references).

End RetrievalService.

(** The Fusion variant as a strategy of the service, with the default
    arguments of its [retrieve]. *)
Definition fusion_strategy (cl : Clients)
    : string -> string -> res (list pydict) :=
  fun query collection_name =>
    FusionybridRetriever.retrieve cl query 10 10 (Some collection_name).

(** ** Ingestion: points and batch indexing
    ([gigo_ingestion/src/db/collection.py], [gigo_ingestion/src/indexer.py]) *)

Record Vectors : Type := mkVectors {
  v_dense : Vec;
  v_colbert : list Vec;
  v_small : Vec;
  v_large : Vec;
  v_sparse : list Z * list Q
}.

(** [models.PointStruct(id=..., vector=..., payload=...)] *)
Record PointStruct : Type := mkPointStruct {
  ps_id : Z;
  ps_vector : Vectors;
  ps_payload : pydict
}.

Module QdrantCollection.

Definition _get_small_embedding (cl : Clients) (text : string) : res Vec :=
  embeddings_create cl text "text-embedding-3-small" 128.

Definition _get_large_embedding (cl : Clients) (text : string) : res Vec :=
  embeddings_create cl text "text-embedding-3-large" 1024.

(** The sparse model's result has indices and values by its type. *)
Definition _create_sparse_vector (cl : Clients) (text : string)
    : res (list Z * list Q) :=
  sparse_embed cl text.

(** The five embeddings, in the order of the dictionary display. *)
Definition _get_embeddings (cl : Clients) (text : string) : res Vectors :=
  dense ← dense_embed cl text;
  colbert ← colbert_embed cl text;
  small ← _get_small_embedding cl text;
  large ← _get_large_embedding cl text;
  sparse ← _create_sparse_vector cl text;
  Ok (mkVectors dense colbert small large sparse).

(** [payload = {"embedding_text": text, **metadata}] *)
Definition create_point (cl : Clients) (id : Z) (text : string)
    (metadata : pydict) : res PointStruct :=
  vectors ← _get_embeddings cl text;
  let payload := dict_literal (("embedding_text", PStr text) :: metadata) in
  Ok (mkPointStruct id vectors payload).

End QdrantCollection.

(** [l[start:stop]] *)
Definition py_slice {A} (l : list A) (start stop : Z) : list A :=
  let n := Z.of_nat (length l) in
  let clamp i := if Z.ltb i 0 then Z.max (i + n) 0 else Z.min i n in
  take (Z.to_nat (clamp stop - clamp start)) (drop (Z.to_nat (clamp start)) l).

(** [zip(a, b, c)] *)
Fixpoint zip3 {A B C} (a : list A) (b : list B) (c : list C)
    : list (A * B * C) :=
  match a, b, c with
  | x :: a', y :: b', z :: c' => (x, y, z) :: zip3 a' b' c'
  | _, _, _ => []
  end.

Module QdrantIndexer.

Section IndexDocuments.

(** The collection the indexer writes to: [create_point] builds a point and
    [upsert_points] changes the store, and either may raise. *)
Variable Store : Type.
Variable create_point : Z -> string -> pydict -> res PointStruct.
Variable upsert_points : list PointStruct -> Store -> res Store.

Variable batch_size : Z.
Variable ids : list Z.
Variable documents : list string.
Variable metadata : list pydict.

(** The body of the [try]: build the points of a batch and upsert them. *)
Definition upsert_batch (batch : list (Z * string * pydict)) (store : Store)
    : res Store :=
  points ← mapM (fun '(id, doc, md) => create_point id doc md) batch;
  upsert_points points store.

(** The [while processed < total_docs] loop, with the list of failed
    batches and the store as its state; [None] when [fuel] iterations do
    not reach the end of the loop. *)
Fixpoint index_loop (fuel : nat) (processed : Z) (failed_batches : list (Z * Z))
    (store : Store) : option (list (Z * Z) * Store) :=
  match fuel with
  | O => None
  | S fuel' =>
      let total_docs := Z.of_nat (length documents) in
      if Z.ltb processed total_docs then
        let end_idx := Z.min (processed + batch_size) total_docs in
        let batch_ids := py_slice ids processed end_idx in
        let batch_docs := py_slice documents processed end_idx in
        let batch_metadata := py_slice metadata processed end_idx in
        match upsert_batch (zip3 batch_ids batch_docs batch_metadata) store with
        | Ok store' => index_loop fuel' end_idx failed_batches store'
        | Raise _ =>
            index_loop fuel' end_idx
              (failed_batches ++ [(processed, end_idx)]) store
        end
      else Some (failed_batches, store)
  end.

Definition index_documents (fuel : nat) (store : Store)
    : option (list (Z * Z) * Store) :=
  index_loop fuel 0 [] store.

End IndexDocuments.

End QdrantIndexer.

(** Consecutive chunks of at most [n] items. *)
Fixpoint chunks_aux {A} (fuel n : nat) (l : list A) : list (list A) :=
  match fuel with
  | O => []
  | S fuel' =>
      match l with
      | [] => []
      | _ :: _ => take n l :: chunks_aux fuel' n (drop n l)
      end
  end.

Definition chunks {A} (n : nat) (l : list A) : list (list A) :=
  chunks_aux (length l) n l.


(** ** Ingestion: batch processing of pages
    ([gigo_ingestion/src/processors/base.py]) *)

Record Summary : Type := mkSummary {
  total_pages : Z;
  processed_pages : Z;
  total_items : Z
}.

Module BaseBatchProcessor.

Section ProcessAll.

(** [process_page] reads and writes the page's files: it returns the number
    of items processed and the new state of the files. *)
Variable Files : Type.
Variable process_page : Z -> Files -> Z * Files.

(** The range filter: a bound that is None or 0 does not filter. *)
Definition filter_pages (page_numbers : list Z) (start_page end_page : option Z)
    : list Z :=
  let page_numbers :=
    if truthy_page start_page
    then List.filter (fun p => Z.geb p (default 0 start_page)) page_numbers
    else page_numbers in
  if truthy_page end_page
  then List.filter (fun p => Z.leb p (default 0 end_page)) page_numbers
  else page_numbers.

(** The loop over the pages, with the two counters and the files. *)
Fixpoint process_pages (page_numbers : list Z) (total processed : Z)
    (files : Files) : Z * Z * Files :=
  match page_numbers with
  | [] => (total, processed, files)
  | page_number :: rest =>
      let '(items_processed, files') := process_page page_number files in
      if Z.ltb 0 items_processed
      then process_pages rest (total + items_processed) (processed + 1) files'
      else process_pages rest total processed files'
  end.

(** [page_numbers] stands for [path_builder.get_all_page_numbers()]. *)
Definition process_all (page_numbers : list Z) (start_page end_page : option Z)
    (files : Files) : Summary * Files :=
  let page_numbers := filter_pages page_numbers start_page end_page in
  let '(total_items, processed_pages, files') :=
    process_pages page_numbers 0 0 files in
  (mkSummary (Z.of_nat (length page_numbers)) processed_pages total_items,
   files').

End ProcessAll.

End BaseBatchProcessor.

(** A store that logs the identifiers of each upserted batch, and a point
    constructor without embeddings, to run the indexing loop on. *)
Definition plain_point (id : Z) (text : string) (metadata : pydict)
    : PointStruct :=
  mkPointStruct id (mkVectors [] [] [] [] ([], []))
    (dict_literal (("embedding_text", PStr text) :: metadata)).

Definition log_upsert (points : list PointStruct) (log : list (list Z))
    : list (list Z) :=
  log ++ [map ps_id points].

(** An upsert that rejects every batch holding the identifier [bad]. *)
Definition picky_upsert (bad : Z) (points : list PointStruct)
    (log : list (list Z)) : res (list (list Z)) :=
  if bool_decide (bad ∈ map ps_id points) then Raise StoreError
  else Ok (log_upsert points log).

(** A point as the store returns it: the stored payload under a score. *)
Definition stored_point (pt : PointStruct) (score : pyval) : ScoredPoint :=
  mkScoredPoint (PInt (ps_id pt)) score (ps_payload pt).

(** * Properties *)

(** ** Strings and keys *)

Lemma str_mem_app_sep c s p : str_mem c (s +:+ String c p) = true.
Proof.
  induction s as [|a s IH]; simpl.
  - by rewrite Ascii.eqb_refl.
  - rewrite IH. by destruct (Ascii.eqb a c).
Qed.

Lemma app_sep_inj c s1 s2 p1 p2 :
  str_mem c p1 = false -> str_mem c p2 = false ->
  s1 +:+ String c p1 = s2 +:+ String c p2 -> s1 = s2 /\ p1 = p2.
Proof.
  intros H1 H2. revert s2.
  induction s1 as [|a s1 IH]; intros [|b s2]; simpl; intros E.
  - by injection E.
  - injection E as -> ->. by rewrite str_mem_app_sep in H1.
  - injection E as -> <-. by rewrite str_mem_app_sep in H2.
  - injection E as -> E. destruct (IH _ E) as [-> ->]. done.
Qed.

Lemma str_forall_mem f c s :
  str_forall f s = true -> f c = false -> str_mem c s = false.
Proof.
  induction s as [|a s IH]; simpl; [done|].
  intros [Ha Hs]%andb_true_iff Hc. rewrite (IH Hs Hc), orb_false_r.
  destruct (Ascii.eqb_spec a c) as [->|]; [congruence|done].
Qed.

Lemma pretty_N_char_num x : is_num_char (pretty_N_char x) = true.
Proof. unfold pretty_N_char. by repeat case_match. Qed.

Lemma pretty_N_go_num x s :
  str_forall is_num_char s = true ->
  str_forall is_num_char (pretty_N_go x s) = true.
Proof.
  revert s. induction (N.lt_wf_0 x) as [x _ IH]; intros s Hs.
  destruct (decide (x = 0)%N) as [->|Hx]; [by rewrite pretty_N_go_0|].
  rewrite pretty_N_go_step by lia.
  apply IH; [apply N.div_lt; lia|].
  simpl str_forall. by rewrite pretty_N_char_num, Hs.
Qed.

Lemma pretty_N_num (x : N) : str_forall is_num_char (pretty x) = true.
Proof.
  unfold pretty, pretty_N. case_decide; [done|]. by apply pretty_N_go_num.
Qed.

Lemma pretty_Z_num (n : Z) : str_forall is_num_char (pretty n) = true.
Proof.
  destruct n as [|p|p]; [done|apply pretty_N_num|].
  change (pretty (Z.neg p)) with ("-" +:+ pretty (N.pos p)).
  simpl. apply pretty_N_num.
Qed.

Lemma str_opt_int_no_underscore p : str_mem "_" (str_opt_int p) = false.
Proof.
  destruct p as [n|]; [|done].
  apply (str_forall_mem is_num_char); [apply pretty_Z_num|done].
Qed.

Lemma str_opt_int_inj p q : str_opt_int p = str_opt_int q -> p = q.
Proof.
  destruct p as [n|], q as [m|]; simpl; intros E; [|exfalso..|done].
  - by apply (inj pretty) in E as ->.
  - pose proof (pretty_Z_num n) as Hn. by rewrite E in Hn.
  - pose proof (pretty_Z_num m) as Hm. by rewrite <- E in Hm.
Qed.

Lemma key_inj (e1 e2 : string) (p1 p2 : option Z) :
  e1 +:+ "_" +:+ str_opt_int p1 = e2 +:+ "_" +:+ str_opt_int p2 ->
  e1 = e2 /\ p1 = p2.
Proof.
  intros E.
  apply (app_sep_inj "_"%char) in E as [-> E];
    auto using str_opt_int_no_underscore.
  by apply str_opt_int_inj in E as ->.
Qed.

Lemma table_key_ident t u :
  table_key t = table_key u <-> table_ident t = table_ident u.
Proof.
  unfold table_key, table_ident. split.
  - intros [-> ->]%key_inj. done.
  - by intros [= -> ->].
Qed.

Lemma figure_key_ident f g :
  figure_key f = figure_key g <-> figure_ident f = figure_ident g.
Proof.
  unfold figure_key, figure_ident. split.
  - intros [-> ->]%key_inj. done.
  - by intros [= -> ->].
Qed.

(** ** Deduplication *)

Section Dedup.

Context {A : Type} (key : A -> string).

Lemma dedup_loop_firsts l seen unique :
  dedup_loop key l seen unique = unique ++ firsts key seen l.
Proof.
  revert seen unique. induction l as [|x l IH]; intros seen unique; simpl.
  - by rewrite app_nil_r.
  - case_decide; rewrite IH; [done|]. by rewrite <- app_assoc.
Qed.

Lemma firsts_sublist seen l : sublist (firsts key seen l) l.
Proof.
  revert seen. induction l as [|x l IH]; intros seen; simpl; [done|].
  case_decide; [apply sublist_cons|apply sublist_skip]; apply IH.
Qed.

Lemma firsts_not_seen seen l x : x ∈ firsts key seen l -> key x ∉ seen.
Proof.
  revert seen. induction l as [|a l IH]; intros seen; simpl.
  - by intros ?%elem_of_nil.
  - case_decide as Ha; [apply IH|].
    intros [->|Hx%IH]%elem_of_cons; [done|]. set_solver.
Qed.

Lemma firsts_NoDup seen l : NoDup (key <$> firsts key seen l).
Proof.
  revert seen. induction l as [|a l IH]; intros seen; simpl.
  - constructor.
  - case_decide; [apply IH|]. rewrite fmap_cons. constructor; [|apply IH].
    intros (y & Hy & Hin%firsts_not_seen)%list_elem_of_fmap. set_solver.
Qed.

Lemma firsts_first seen l x :
  x ∈ l -> key x ∉ seen ->
  exists y, y ∈ firsts key seen l /\ key y = key x /\
            head (filter (fun z => key z = key x) l) = Some y.
Proof.
  revert seen. induction l as [|a l IH]; intros seen Hx Hseen.
  { by apply elem_of_nil in Hx. }
  simpl firsts. destruct (decide (key a = key x)) as [Ha|Ha].
  - rewrite decide_False by congruence.
    exists a. split; [left|]. split; [done|].
    by rewrite filter_cons_True.
  - assert (x ∈ l) as Hl.
    { apply elem_of_cons in Hx as [->|]; [done|done]. }
    rewrite filter_cons_False by done.
    case_decide.
    + destruct (IH seen Hl Hseen) as (y & ? & ? & ?). exists y. done.
    + destruct (IH ({[key a]} ∪ seen) Hl) as (y & ? & ? & ?);
        [set_solver|].
      exists y. split; [by right|done].
Qed.

Lemma firsts_id seen l :
  NoDup (key <$> l) -> (forall x, x ∈ l -> key x ∉ seen) ->
  firsts key seen l = l.
Proof.
  revert seen. induction l as [|a l IH]; intros seen Hnd Hseen; [done|].
  simpl. rewrite fmap_cons in Hnd. apply NoDup_cons in Hnd as [Ha Hnd].
  rewrite decide_False by (apply Hseen; left).
  f_equal. apply IH; [done|]. intros x Hx.
  assert (key x ≠ key a).
  { intros E. apply Ha. rewrite <- E. apply list_elem_of_fmap. eauto. }
  assert (key x ∉ seen) by (apply Hseen; by right). set_solver.
Qed.

Lemma firsts_idem l :
  firsts key ∅ (firsts key ∅ l) = firsts key ∅ l.
Proof. apply firsts_id; [apply firsts_NoDup|]. set_solver. Qed.

Context {K : Type} `{EqDecision K} (k : A -> K).
Hypothesis key_k : forall a b, key a = key b <-> k a = k b.

Lemma NoDup_key_k l : NoDup (key <$> l) -> NoDup (k <$> l).
Proof.
  induction l as [|a l IH]; [constructor|].
  rewrite !fmap_cons, !NoDup_cons. intros [Ha Hnd]. split; [|by apply IH].
  intros (y & Hy & Hin)%list_elem_of_fmap. apply Ha.
  apply list_elem_of_fmap. exists y. split; [by apply key_k|done].
Qed.

Lemma elem_of_key_k x (l : list A) :
  key x ∈ key <$> l <-> k x ∈ k <$> l.
Proof.
  rewrite !list_elem_of_fmap.
  split; intros (y & Hy & Hin); exists y; (split; [|done]).
  - by apply key_k.
  - by apply key_k.
Qed.

Lemma firsts_with_earlier earlier l :
  firsts key (list_to_set (key <$> earlier)) l
  = (filter (fun p => k p.2 ∉ k <$> p.1) (with_earlier earlier l)).*2.
Proof.
  revert earlier. induction l as [|x l IH]; intros earlier; [done|].
  cbn [firsts with_earlier].
  assert (list_to_set (key <$> (earlier ++ [x]))
          = ({[key x]} ∪ list_to_set (key <$> earlier) : gset string))
    as Hseen by (rewrite fmap_app, list_to_set_app_L; set_solver).
  case_decide as Hx.
  - rewrite filter_cons_False
      by (simpl; rewrite <- elem_of_key_k; intros Hn; apply Hn;
          by apply elem_of_list_to_set in Hx).
    rewrite <- IH, Hseen. f_equal. set_solver.
  - rewrite filter_cons_True
      by (simpl; rewrite <- elem_of_key_k; intros Hn; apply Hx;
          by apply elem_of_list_to_set).
    rewrite fmap_cons. simpl. f_equal. by rewrite <- IH, Hseen.
Qed.

Lemma dedup_first_occurrences l :
  dedup_loop key l ∅ [] = first_occurrences k l.
Proof.
  rewrite dedup_loop_firsts, app_nil_l. unfold first_occurrences.
  by rewrite <- firsts_with_earlier.
Qed.

Lemma dedup_first_wins l : first_wins k l (dedup_loop key l ∅ []).
Proof.
  rewrite dedup_loop_firsts, app_nil_l. split; [apply firsts_sublist|].
  split; [apply NoDup_key_k, firsts_NoDup|].
  intros x Hx.
  destruct (firsts_first ∅ l x Hx) as (y & Hy & Hk & Hhead); [set_solver|].
  exists y. split; [done|]. split; [by apply key_k|].
  rewrite <- Hhead. f_equal. apply list_filter_iff. intros z.
  symmetry. apply key_k.
Qed.

End Dedup.

(** C3: for every list of table references and every list of figure
    references, [deduplicate_references] keeps, for each group agreeing on
    (element_id, page_number) for tables and on (label, page_number) for
    figures, exactly one reference, the first one of the input (the record
    itself, so with its own sub_question), and the output is in the order of
    first appearance: it is the input without the members that agree with an
    earlier member. *)
Theorem deduplicate_references_first_wins (references : References) :
  tables (deduplicate_references references)
  = first_occurrences table_ident (tables references) /\
  figures (deduplicate_references references)
  = first_occurrences figure_ident (figures references) /\
  first_wins table_ident (tables references)
    (tables (deduplicate_references references)) /\
  first_wins figure_ident (figures references)
    (figures (deduplicate_references references)).
Proof.
  split; [|split; [|split]].
  - apply dedup_first_occurrences, table_key_ident.
  - apply dedup_first_occurrences, figure_key_ident.
  - apply dedup_first_wins, table_key_ident.
  - apply dedup_first_wins, figure_key_ident.
Qed.

(** Two equal references around a third one: the first copy is the one
    kept, before the third. *)
Example dedup_keeps_first_copy :
  let ta := mkTableReference "q" "table-1-1" (Some 1) None None in
  let tb := mkTableReference "q" "table-1-2" (Some 1) None None in
  first_occurrences table_ident [ta; tb; ta] = [ta; tb] /\
  tables (deduplicate_references (mkReferences [ta; tb; ta] [])) = [ta; tb].
Proof. split; vm_compute; reflexivity. Qed.

(** C5: deduplication is idempotent: deduplicating the output of a
    deduplication gives that output again. *)
Theorem deduplicate_references_idempotent (references : References) :
  deduplicate_references (deduplicate_references references)
  = deduplicate_references references.
Proof.
  unfold deduplicate_references; simpl.
  rewrite !dedup_loop_firsts, !app_nil_l. by rewrite !firsts_idem.
Qed.

Example dedup_cross_sub_question :
  deduplicate_references
    {| tables := [ mkTableReference "q1" "table-2-1" (Some 2) None None;
                   mkTableReference "q2" "table-2-1" (Some 2) None None;
                   mkTableReference "q2" "table-2-1" (Some 3) None None ];
       figures := [] |}
  = {| tables := [ mkTableReference "q1" "table-2-1" (Some 2) None None;
                   mkTableReference "q2" "table-2-1" (Some 3) None None ];
       figures := [] |}.
Proof. vm_compute. reflexivity. Qed.

(** ** Result formatting *)

Lemma mapM_Forall2 {A B} (f : A -> res B) (P : A -> B -> Prop) l :
  Forall (fun x => exists y, f x = Ok y /\ P x y) l ->
  exists out, mapM f l = Ok out /\ Forall2 P l out.
Proof.
  induction 1 as [|x l (y & Hy & HP) _ (out & Hout & IH)]; simpl.
  - exists []. by split; [|constructor].
  - rewrite Hy, Hout. exists (y :: out). by split; [|constructor].
Qed.

Lemma format_point_total (p : ScoredPoint) :
  metadata_is_dict (pt_payload p) = true ->
  exists r, BaseQdrantRetriever.format_point p = Ok r /\ formatted_from p r.
Proof.
  unfold metadata_is_dict, BaseQdrantRetriever.format_point, dict_mem,
    dict_item.
  destruct (dict_lookup "full_page_metadata" (pt_payload p)) as [[]|];
    try discriminate; intros _; eexists; (split; [reflexivity|]);
    (repeat split; [reflexivity..|]);
    intros field key default Hin; unfold convenience_fields in Hin;
    repeat (apply elem_of_cons in Hin as [[= -> -> ->]|Hin];
            [reflexivity|]);
    by apply elem_of_nil in Hin.
Qed.

(** C1, as amended: for every list of store results whose payloads hold a
    dictionary under [full_page_metadata] whenever they have that key, the
    formatter returns one record per point, in order, and every documented
    field is present: score, id and payload are the point's, and each other
    field is the payload's value when the key is there and otherwise its
    default, which is the empty string for text, the empty list for
    models_covered, entities, keywords and warnings, false for has_tables and
    has_figures, zero for table_count and figure_count, and None for
    page_number, document_title, document_id, section_title, subsection_title
    and manufacturer. *)
Theorem format_results_total_with_defaults (points : list ScoredPoint) :
  Forall (fun p => metadata_is_dict (pt_payload p) = true) points ->
  exists out,
    BaseQdrantRetriever._format_results points = Ok out /\
    Forall2 formatted_from points out.
Proof.
  intros Hpoints. apply mapM_Forall2.
  eapply Forall_impl; [exact Hpoints|]. apply format_point_total.
Qed.

Lemma format_results_total_with_defaults_witness :
  exists out,
    BaseQdrantRetriever._format_results
      [ mkScoredPoint (PInt 7) (PFloat 0.5)
          [ ("page_number", PInt 5);
            ("full_page_metadata", PDict [("text_file", PStr "p5.txt")]) ];
        mkScoredPoint (PInt 8) (PFloat 0.25) [] ] = Ok out /\
    Forall2 formatted_from
      [ mkScoredPoint (PInt 7) (PFloat 0.5)
          [ ("page_number", PInt 5);
            ("full_page_metadata", PDict [("text_file", PStr "p5.txt")]) ];
        mkScoredPoint (PInt 8) (PFloat 0.25) [] ] out.
Proof.
  apply format_results_total_with_defaults.
  repeat constructor.
Defined.

(** C1 fails as stated: a payload whose [full_page_metadata] is not a
    dictionary makes the formatter raise, and on an empty payload the
    page_number field is None, which is none of the empty string, the empty
    list, false and zero. *)
Lemma format_results_counterexample :
  BaseQdrantRetriever._format_results
    [mkScoredPoint (PInt 1) (PFloat 0.5) [("full_page_metadata", PNone)]]
  = Raise AttributeError /\
  exists r,
    BaseQdrantRetriever._format_results [mkScoredPoint (PInt 1) (PFloat 0.5) []]
    = Ok [r] /\
    dict_lookup "page_number" r = Some PNone /\
    is_empty_default PNone = false.
Proof.
  split; [reflexivity|]. eexists. split; [reflexivity|]. split; reflexivity.
Qed.

(** ** The factory *)

(** C2: the factory returns the ColBERT, Hybrid and Matryoshka variants for
    their tags (the last given an OpenAI client), and raises for every other
    tag; the tag [fusion], a member of the enumeration, is among the tags it
    raises for, with the error of an unknown search type. *)
Theorem create_retriever_by_tag (config : RetrievalConfig) (client : OpenAI) :
  RetrieverFactory.create_retriever SearchType.COLBERT config (Some client)
    = Ok (NewColbertRetriever config) /\
  RetrieverFactory.create_retriever SearchType.HYBRID config (Some client)
    = Ok (NewHybridRetriever config) /\
  RetrieverFactory.create_retriever SearchType.MATRIOSKA config (Some client)
    = Ok (NewMatrioskaRetriever client config) /\
  SearchType.FUSION ∈ SearchType.members /\
  RetrieverFactory.create_retriever SearchType.FUSION config (Some client)
    = Raise (ValueError "Unknown search type") /\
  forall tag,
    tag ∈ [SearchType.COLBERT; SearchType.HYBRID; SearchType.MATRIOSKA] \/
    RetrieverFactory.create_retriever tag config (Some client)
      = Raise (ValueError "Unknown search type").
Proof.
  repeat split; try reflexivity.
  - unfold SearchType.members. set_solver.
  - intros tag. unfold RetrieverFactory.create_retriever.
    destruct (String.eqb_spec tag SearchType.COLBERT) as [->|]; [set_solver|].
    destruct (String.eqb_spec tag SearchType.HYBRID) as [->|]; [set_solver|].
    destruct (String.eqb_spec tag SearchType.MATRIOSKA) as [->|];
      [set_solver|].
    by right.
Qed.

(** ** Formatting across the strategy variants *)

Lemma fusion_format_point_keys (p : ScoredPoint) :
  dict_keys (FusionybridRetriever.format_point p) = ["id"; "score"; "payload"].
Proof. reflexivity. Qed.

Lemma fusion_agrees_on_raw_fields (p : ScoredPoint) (r : pydict) :
  formatted_from p r ->
  Forall (fun k => dict_lookup k (FusionybridRetriever.format_point p)
                   = dict_lookup k r) ["id"; "score"; "payload"].
Proof.
  intros (Hs & Hi & Hp & _).
  repeat constructor; [by rewrite Hi|by rewrite Hs|by rewrite Hp].
Qed.

(** C6, as amended: on the same store results the ColBERT, Hybrid and
    Matryoshka variants return the output of the one base formatter, so the
    same records; the Fusion variant overrides the formatter and returns, per
    point, a record of exactly id, score and payload, without the convenience
    fields, never raising. *)
Theorem formatting_shared_except_fusion (cl : Clients) (query : string)
    (points : list ScoredPoint) :
  embeds_ok cl query -> store_returns cl points ->
  forall (limit : Z) (prefetch_limit score_threshold : option Z)
         (fusion_prefetch_limit : Z) (collection_name : option string),
    ColbertRetriever.retrieve cl query limit score_threshold prefetch_limit
      collection_name = BaseQdrantRetriever._format_results points /\
    HybridRetriever.retrieve cl query limit prefetch_limit score_threshold
      collection_name = BaseQdrantRetriever._format_results points /\
    MatrioskaRetriever.retrieve cl query limit prefetch_limit score_threshold
      collection_name = BaseQdrantRetriever._format_results points /\
    FusionybridRetriever.retrieve cl query limit fusion_prefetch_limit
      collection_name = Ok (map FusionybridRetriever.format_point points) /\
    Forall (fun r => dict_keys r = ["id"; "score"; "payload"])
      (map FusionybridRetriever.format_point points).
Proof.
  intros ([s Hs] & [l Hl] & [d Hd] & [sp Hsp] & [c Hc]) Hstore. intros.
  unfold ColbertRetriever.retrieve, HybridRetriever.retrieve,
    MatrioskaRetriever.retrieve, FusionybridRetriever.retrieve.
  rewrite Hs, Hl, Hd, Hsp, Hc. simpl. rewrite !Hstore. simpl.
  repeat split; try reflexivity.
  apply Forall_forall. intros r (p & -> & _)%list_elem_of_fmap.
  apply fusion_format_point_keys.
Qed.

Lemma formatting_shared_except_fusion_witness :
  let points := [mkScoredPoint (PInt 1) (PInt 3) [("page_number", PInt 4)]] in
  let cl := stub_clients points in
  ColbertRetriever.retrieve cl "q" 5 (Some 10) (Some 20) None
    = BaseQdrantRetriever._format_results points /\
  HybridRetriever.retrieve cl "q" 5 (Some 20) (Some 10) None
    = BaseQdrantRetriever._format_results points /\
  MatrioskaRetriever.retrieve cl "q" 5 (Some 20) (Some 10) None
    = BaseQdrantRetriever._format_results points /\
  FusionybridRetriever.retrieve cl "q" 5 10 None
    = Ok (map FusionybridRetriever.format_point points) /\
  Forall (fun r => dict_keys r = ["id"; "score"; "payload"])
    (map FusionybridRetriever.format_point points).
Proof.
  intros points cl.
  apply (formatting_shared_except_fusion cl "q" points).
  - unfold embeds_ok, returns. simpl. eauto 10.
  - intros r. reflexivity.
Defined.

(** C6 fails as stated: on one and the same stored point the Fusion variant
    returns a record of three fields and the Hybrid variant the record of the
    base formatter. *)
Lemma formatting_differs_for_fusion :
  let points := [mkScoredPoint (PInt 1) (PInt 3) []] in
  let cl := stub_clients points in
  FusionybridRetriever.retrieve cl "q" 5 10 None
    <> HybridRetriever.retrieve cl "q" 5 (Some 20) (Some 10) None /\
  FusionybridRetriever._format_results points
    <> BaseQdrantRetriever._format_results points /\
  FusionybridRetriever._format_results points
    = Ok [[("id", PInt 1); ("score", PInt 3); ("payload", PDict [])]].
Proof. repeat split; try discriminate. Qed.

(** ** The Matryoshka variant *)

(** C10: the Matryoshka variant's result does not depend on score_threshold:
    two calls that differ only in that argument, against the same clients,
    return the same thing, because the request that retrieve sends to the
    store carries no threshold; the ColBERT and the Hybrid variant send a
    request that carries the argument, and there is a store on which the
    result of each of the two changes with it. *)
Theorem matrioska_ignores_score_threshold (cl : Clients) (query : string)
    (limit : Z) (prefetch_limit st1 st2 : option Z)
    (collection_name : option string) :
  MatrioskaRetriever.retrieve cl query limit prefetch_limit st1 collection_name
  = MatrioskaRetriever.retrieve cl query limit prefetch_limit st2
      collection_name /\
  MatrioskaRetriever.retrieve cl query limit prefetch_limit st1 collection_name
  = (small ← _get_openai_embedding cl query "text-embedding-3-small" 128;
     large ← _get_openai_embedding cl query "text-embedding-3-large" 1024;
     points ← query_points cl
       {| q_collection_name := collection_name;
          q_prefetch :=
            [mkPrefetch [] (Some (Nearest small)) (Some "small-embedding")
               (Some (int_or prefetch_limit 50))];
          q_query := Some (Nearest large);
          q_using := Some "large-embedding";
          q_with_payload := None;
          q_limit := limit;
          q_score_threshold := None |};
     BaseQdrantRetriever._format_results points) /\
  ColbertRetriever.retrieve cl query limit st1 prefetch_limit collection_name
  = (colbert ← colbert_embed cl query;
     points ← query_points cl
       {| q_collection_name := collection_name;
          q_prefetch := [];
          q_query := Some (NearestMulti colbert);
          q_using := Some "colbert";
          q_with_payload := Some true;
          q_limit := limit;
          q_score_threshold := st1 |};
     BaseQdrantRetriever._format_results points) /\
  HybridRetriever.retrieve cl query limit prefetch_limit st1 collection_name
  = (dense ← dense_embed cl query;
     sparse ← sparse_embed cl query;
     colbert ← colbert_embed cl query;
     points ← query_points cl
       {| q_collection_name := collection_name;
          q_prefetch :=
            [mkPrefetch [] (Some (Nearest dense)) (Some "dense")
               (Some (int_or prefetch_limit 20));
             mkPrefetch [] (Some (NearestSparse sparse.1 sparse.2))
               (Some "sparse") (Some (int_or prefetch_limit 20))];
          q_query := Some (NearestMulti colbert);
          q_using := Some "colbert";
          q_with_payload := Some true;
          q_limit := limit;
          q_score_threshold := st1 |};
     BaseQdrantRetriever._format_results points) /\
  MatrioskaRetriever.retrieve threshold_store query limit prefetch_limit
    (Some 10) collection_name
  = MatrioskaRetriever.retrieve threshold_store query limit prefetch_limit
      (Some 5) collection_name /\
  ColbertRetriever.retrieve threshold_store query limit (Some 10)
    prefetch_limit collection_name
  <> ColbertRetriever.retrieve threshold_store query limit (Some 5)
       prefetch_limit collection_name /\
  HybridRetriever.retrieve threshold_store query limit prefetch_limit
    (Some 10) collection_name
  <> HybridRetriever.retrieve threshold_store query limit prefetch_limit
       (Some 5) collection_name.
Proof.
  do 5 (split; [reflexivity|]). split; discriminate.
Qed.

Lemma mapM_length {A B} (f : A -> res B) l out :
  mapM f l = Ok out -> length out = length l.
Proof.
  revert out. induction l as [|x l IH]; intros out; simpl.
  - by intros [= <-].
  - destruct (f x); [|done]. simpl.
    destruct (mapM f l) as [ys|]; [|done]. simpl.
    intros [= <-]. simpl. by rewrite (IH ys).
Qed.

Section MatrioskaStaging.

Variable corpus : list ScoredPoint.
Variable rank :
  option string -> option Query -> list ScoredPoint -> list ScoredPoint.
Hypothesis rank_perm : forall f q l, rank f q l ≡ₚ l.

Lemma matrioska_stages small large limit pl coll :
  let stage1 :=
    eval_prefetch corpus rank
      (mkPrefetch [] (Some (Nearest small)) (Some "small-embedding")
         (Some pl)) in
  let final :=
    eval_request corpus rank
      (MatrioskaRetriever.request small large limit pl coll) in
  stage1 ⊆ corpus /\ final ⊆ stage1 /\
  (length stage1 <= Z.to_nat pl)%nat /\
  (length final <= Z.to_nat limit `min` Z.to_nat pl)%nat.
Proof.
  intros stage1 final.
  assert (length stage1 <= Z.to_nat pl)%nat as Hlen1.
  { unfold stage1. simpl. rewrite length_take. lia. }
  assert (final = take (Z.to_nat limit)
                    (rank (Some "large-embedding") (Some (Nearest large))
                       (stage1 ++ []))) as Hfinal by reflexivity.
  rewrite app_nil_r in Hfinal.
  split; [|split; [|split; [done|]]].
  - unfold stage1. simpl. intros x Hx%subseteq_take.
    by rewrite rank_perm in Hx.
  - rewrite Hfinal. intros x Hx%subseteq_take. by rewrite rank_perm in Hx.
  - rewrite Hfinal, length_take, rank_perm. lia.
Qed.

End MatrioskaStaging.

Lemma matrioska_retrieve_request cl query limit prefetch_limit st coll out :
  MatrioskaRetriever.retrieve cl query limit prefetch_limit st coll = Ok out ->
  exists small large points,
    query_points cl
      (MatrioskaRetriever.request small large limit (int_or prefetch_limit 50)
         coll) = Ok points /\
    BaseQdrantRetriever._format_results points = Ok out.
Proof.
  unfold MatrioskaRetriever.retrieve.
  destruct (_get_openai_embedding cl query "text-embedding-3-small" 128)
    as [small|]; [|done].
  destruct (_get_openai_embedding cl query "text-embedding-3-large" 1024)
    as [large|]; [|done].
  simpl.
  destruct (query_points cl _) as [points|] eqn:Hq; [|done].
  simpl. intros Hout. by exists small, large, points.
Qed.

(** C9, as amended: the Matryoshka variant's retrieve sends a two-stage
    query: one prefetch stage on the small-embedding field limited to
    prefetch_limit (default 50, also taken when the argument is None or 0),
    and the outer query on the large-embedding field limited to limit.  On a
    store that follows the staged-query contract, retrieve returns the
    formatted top limit, by the large field, of the stage-1 candidates, which
    are the top prefetch_limit of the collection by the small field; so the
    outer candidates are among the stage-1 candidates, and the output has at
    most min(limit, prefetch_limit) records. *)
Theorem matrioska_retrieve_two_stage
    (corpus : list ScoredPoint)
    (rank : option string -> option Query -> list ScoredPoint ->
            list ScoredPoint)
    (cl : Clients) (query : string) (limit : Z)
    (prefetch_limit score_threshold : option Z)
    (collection_name : option string) :
  (forall f q l, rank f q l ≡ₚ l) ->
  let pl := int_or prefetch_limit 50 in
  int_or MatrioskaRetriever.default_prefetch_limit 50 = 50 /\
  int_or None 50 = 50 /\ int_or (Some 0) 50 = 50 /\
  MatrioskaRetriever.retrieve cl query limit prefetch_limit score_threshold
    collection_name
  = (small ← _get_openai_embedding cl query "text-embedding-3-small" 128;
     large ← _get_openai_embedding cl query "text-embedding-3-large" 1024;
     points ← query_points cl
       {| q_collection_name := collection_name;
          q_prefetch :=
            [mkPrefetch [] (Some (Nearest small)) (Some "small-embedding")
               (Some pl)];
          q_query := Some (Nearest large);
          q_using := Some "large-embedding";
          q_with_payload := None;
          q_limit := limit;
          q_score_threshold := None |};
     BaseQdrantRetriever._format_results points) /\
  (forall small large,
     _get_openai_embedding cl query "text-embedding-3-small" 128 = Ok small ->
     _get_openai_embedding cl query "text-embedding-3-large" 1024
       = Ok large ->
     let stage1 :=
       take (Z.to_nat pl)
         (rank (Some "small-embedding") (Some (Nearest small)) corpus) in
     let final :=
       take (Z.to_nat limit)
         (rank (Some "large-embedding") (Some (Nearest large)) stage1) in
     MatrioskaRetriever.retrieve (staged_store corpus rank cl) query limit
       prefetch_limit score_threshold collection_name
     = BaseQdrantRetriever._format_results final /\
     stage1 ⊆ corpus /\
     final ⊆ stage1 /\
     (length stage1 <= Z.to_nat pl)%nat /\
     (length final <= Z.to_nat limit `min` Z.to_nat pl)%nat) /\
  forall out,
    MatrioskaRetriever.retrieve (staged_store corpus rank cl) query limit
      prefetch_limit score_threshold collection_name = Ok out ->
    (length out <= Z.to_nat limit `min` Z.to_nat pl)%nat.
Proof.
  intros Hrank pl. do 4 (split; [reflexivity|]). split.
  - intros small large Hsmall Hlarge stage1 final.
    pose proof (matrioska_stages corpus rank Hrank small large limit pl
                  collection_name) as (Hsub1 & Hsub & Hlen1 & Hlen).
    cbn [eval_prefetch take_limit] in Hsub1, Hsub, Hlen1.
    assert (eval_request corpus rank
              (MatrioskaRetriever.request small large limit pl
                 collection_name) = final) as Hfinal.
    { unfold eval_request, MatrioskaRetriever.request. simpl.
      by rewrite app_nil_r. }
    rewrite Hfinal in Hsub, Hlen.
    split; [|done].
    unfold MatrioskaRetriever.retrieve.
    change (_get_openai_embedding (staged_store corpus rank cl))
      with (_get_openai_embedding cl).
    rewrite Hsmall, Hlarge. simpl. fold pl.
    change (take (Z.to_nat limit) _) with
      (eval_request corpus rank
         (MatrioskaRetriever.request small large limit pl collection_name)).
    by rewrite Hfinal.
  - intros out (small & large & points & Hq & Hfmt)%matrioska_retrieve_request.
    simpl in Hq. injection Hq as <-.
    apply mapM_length in Hfmt. rewrite Hfmt.
    by pose proof (matrioska_stages corpus rank Hrank small large limit pl
                     collection_name) as (_ & _ & _ & Hlen).
Qed.

Lemma matrioska_retrieve_two_stage_witness :
  let stage1 := take 3 (numbered_points 8) in
  let final := take 5 stage1 in
  MatrioskaRetriever.retrieve
    (staged_store (numbered_points 8) stored_order (stub_clients []))
    "q" 5 (Some 3) (Some 10) None
  = BaseQdrantRetriever._format_results final /\
  final ⊆ stage1 /\ length final = 3%nat.
Proof.
  intros stage1 final.
  destruct (matrioska_retrieve_two_stage (numbered_points 8) stored_order
              (stub_clients []) "q" 5 (Some 3) (Some 10) None
              (fun _ _ _ => reflexivity _))
    as (_ & _ & _ & _ & Hstaged & _).
  destruct (Hstaged [] [] eq_refl eq_refl) as (Hrun & _ & Hsub & _).
  split; [exact Hrun|]. split; [exact Hsub|reflexivity].
Defined.

(** C9 fails as stated: with its default arguments retrieve sends a single
    prefetch stage limited to 50, not the plan small-to-100 then
    large-to-50; and with limit 60 and prefetch_limit 100 it returns 60
    records from a collection of 70, where the plan of the claim, with its
    limit_large of 50, gives 50. *)
Lemma matrioska_plan_counterexample :
  let small := [1 # 2]%Q in
  let large := [1 # 3]%Q in
  let cl :=
    {| query_points := fun _ => Ok [];
       embeddings_create := fun _ model _ =>
         Ok (if String.eqb model "text-embedding-3-small" then small
             else large);
       dense_embed := fun _ => Ok [];
       sparse_embed := fun _ => Ok ([], []);
       colbert_embed := fun _ => Ok [] |} in
  let plan_request :=
    {| q_collection_name := None;
       q_prefetch := matryoshka_plan_spec small large 100 50;
       q_query := None;
       q_using := None;
       q_with_payload := None;
       q_limit := 60;
       q_score_threshold := None |} in
  (forall (store : QueryRequest -> res (list ScoredPoint)),
     MatrioskaRetriever.retrieve
       {| query_points := store;
          embeddings_create := embeddings_create cl;
          dense_embed := dense_embed cl;
          sparse_embed := sparse_embed cl;
          colbert_embed := colbert_embed cl |}
       "q" MatrioskaRetriever.default_limit
       MatrioskaRetriever.default_prefetch_limit
       MatrioskaRetriever.default_score_threshold None
     = (points ← store
          {| q_collection_name := None;
             q_prefetch :=
               [mkPrefetch [] (Some (Nearest small)) (Some "small-embedding")
                  (Some 50)];
             q_query := Some (Nearest large);
             q_using := Some "large-embedding";
             q_with_payload := None;
             q_limit := 5;
             q_score_threshold := None |};
        BaseQdrantRetriever._format_results points)) /\
  [mkPrefetch [] (Some (Nearest small)) (Some "small-embedding") (Some 50)]
    <> matryoshka_plan_spec small large 100 50 /\
  length (eval_request (numbered_points 70) stored_order plan_request)
    = 50%nat /\
  exists out,
    MatrioskaRetriever.retrieve
      (staged_store (numbered_points 70) stored_order cl)
      "q" 60 (Some 100) (Some 10) None = Ok out /\
    length out = 60%nat /\
    ~ (length out
       <= Z.to_nat 60%Z `min` (Z.to_nat 50%Z `min` Z.to_nat 100%Z))%nat.
Proof.
  split; [reflexivity|]. split; [discriminate|].
  split; [vm_compute; reflexivity|].
  eexists. split; [vm_compute; reflexivity|]. split; [reflexivity|].
  simpl. lia.
Qed.

(** ** File correlation *)

Lemma after_last_no_mem c s : str_mem c s = false -> after_last c s = s.
Proof.
  destruct s as [|a s]; simpl; [done|].
  intros [Ha ->]%orb_false_iff. by rewrite Ha.
Qed.

Lemma split_on_no_mem c s : str_mem c s = false -> split_on c s = [s].
Proof.
  induction s as [|a s IH]; simpl; [done|].
  intros [Ha Hs]%orb_false_iff. by rewrite Ha, (IH Hs).
Qed.

Lemma split_on_mem c s :
  str_mem c s = true -> exists p q ps, split_on c s = p :: q :: ps.
Proof.
  induction s as [|a s IH]; simpl; [done|].
  destruct (Ascii.eqb a c); simpl.
  - intros _. destruct (str_mem c s) eqn:Hs.
    + destruct (IH eq_refl) as (p & q & ps & ->). eauto.
    + rewrite (split_on_no_mem _ _ Hs). eauto.
  - intros Hs. destruct (IH Hs) as (p & q & ps & ->). eauto.
Qed.

(** [label.split('-')[-1]] is the text after the last hyphen. *)
Lemma split_on_after_last c s : last_piece (split_on c s) = after_last c s.
Proof.
  unfold last_piece. induction s as [|a s IH]; [done|].
  simpl split_on. simpl after_last.
  destruct (str_mem c s) eqn:Hs.
  - destruct (split_on_mem _ _ Hs) as (p & q & ps & Hsplit).
    rewrite Hsplit in *. by destruct (Ascii.eqb a c).
  - rewrite (split_on_no_mem _ _ Hs). by destruct (Ascii.eqb a c).
Qed.

Lemma after_last_app c a b :
  str_mem c b = false -> after_last c (a +:+ String c b) = b.
Proof.
  intros Hb. induction a as [|x a IH]; simpl.
  - by rewrite Hb, Ascii.eqb_refl.
  - by rewrite str_mem_app_sep.
Qed.

Lemma str_mem_app c a b : str_mem c (a +:+ b) = str_mem c a || str_mem c b.
Proof.
  induction a as [|x a IH]; simpl; [done|]. by rewrite IH, orb_assoc.
Qed.

Lemma pretty_Z_no_slash (n : Z) : str_mem "/" (pretty n) = false.
Proof. apply (str_forall_mem is_num_char); [apply pretty_Z_num|done]. Qed.

Lemma after_last_no_slash c s :
  str_mem "/" s = false -> str_mem "/" (after_last c s) = false.
Proof.
  induction s as [|a s IH]; simpl; [done|].
  intros [Ha Hs]%orb_false_iff.
  destruct (str_mem c s); [by apply IH|].
  destruct (Ascii.eqb a c); simpl; [done|]. by rewrite Ha, Hs.
Qed.

Lemma is_part_ext E a b r : is_part (E +:+ String a (String b r)) = true.
Proof.
  unfold is_part.
  apply andb_true_iff; split; apply negb_true_iff, String.eqb_neq;
    by destruct E as [|? [|? ?]].
Qed.

(** *** Paths *)

Lemma path_of_segment s :
  str_mem "/" s = false -> is_part s = true ->
  path_of s = mkPath EmptyString [s].
Proof.
  intros Hs Hp. unfold path_of.
  assert (splitroot s = (EmptyString, s)) as ->.
  { destruct s as [|c s]; [done|]. simpl in Hs |- *.
    by apply orb_false_iff in Hs as [-> _]. }
  rewrite split_on_no_mem by done. simpl. by rewrite Hp.
Qed.

Lemma path_join_segment p s :
  str_mem "/" s = false -> is_part s = true -> p // s = below p [s].
Proof.
  intros Hs Hp. unfold path_join. by rewrite path_of_segment.
Qed.

Lemma probe_below dir (P : Z) kind file :
  str_mem "/" kind = false -> is_part kind = true ->
  str_mem "/" file = false -> is_part file = true ->
  dir // ("page_" +:+ pretty P) // kind // file
  = below dir ["page_" +:+ pretty P; kind; file].
Proof.
  intros Hk1 Hk2 Hf1 Hf2.
  rewrite (path_join_segment dir), (path_join_segment _ kind),
    (path_join_segment _ file); try done.
  - unfold below. simpl. by rewrite <- !app_assoc.
  - change (str_mem "/" ("page_" +:+ pretty P))
      with (str_mem "/" (pretty P)). apply pretty_Z_no_slash.
Qed.

Lemma table_probe_below dir P E a b r :
  str_mem "/" (E +:+ String a (String b r)) = false ->
  table_probe dir P E (String a (String b r))
  = below dir ["page_" +:+ pretty P; "tables"; E +:+ String a (String b r)].
Proof.
  intros HE. apply probe_below; [done|done|done|apply is_part_ext].
Qed.

Lemma raw_file_no_slash L :
  str_mem "/" L = false -> str_mem "/" (raw_file L) = false.
Proof. intros HL. unfold raw_file. by rewrite str_mem_app, HL. Qed.

Lemma fallback_file_no_slash P L :
  str_mem "/" L = false -> str_mem "/" (fallback_file P L) = false.
Proof.
  intros HL. unfold fallback_file.
  by rewrite !str_mem_app, pretty_Z_no_slash, (after_last_no_slash _ _ HL).
Qed.

Lemma figure_probe_below dir P file :
  str_mem "/" file = false -> is_part file = true ->
  figure_probe dir P file = below dir ["page_" +:+ pretty P; "images"; file].
Proof. intros. by apply probe_below. Qed.

(** *** The error monad over lists *)

Lemma mapM_Ok_Forall2 {A B} (f : A -> res B) l out :
  mapM f l = Ok out <-> Forall2 (fun x y => f x = Ok y) l out.
Proof.
  revert out. induction l as [|x l IH]; intros out; simpl.
  - split; [intros [= <-]; constructor|by intros ->%Forall2_nil_inv_l].
  - split.
    + destruct (f x) as [y|] eqn:Hx; [|done]. simpl.
      destruct (mapM f l) as [ys|] eqn:Hl; [|done]. simpl.
      intros [= <-]. constructor; [done|]. by apply IH.
    + intros (y & ys & Hy & Hys & ->)%Forall2_cons_inv_l.
      rewrite Hy. simpl. apply IH in Hys. by rewrite Hys.
Qed.

Lemma mapM_returns {A B} (f : A -> res B) l :
  returns (mapM f l) <-> Forall (fun x => returns (f x)) l.
Proof.
  induction l as [|x l IH]; simpl.
  - split; [constructor|by exists []].
  - rewrite Forall_cons, <- IH. unfold returns. split.
    + destruct (f x) as [y|]; simpl; [|by intros [? ?]].
      destruct (mapM f l) as [ys|]; simpl; [|by intros [? ?]]. eauto.
    + intros [[y ->] [ys ->]]. simpl. eauto.
Qed.

Lemma mapM_impl {A B} (f : A -> res B) (P : A -> B -> Prop) l out :
  (forall x y, f x = Ok y -> P x y) ->
  mapM f l = Ok out -> Forall2 P l out.
Proof.
  intros HP Hout%mapM_Ok_Forall2.
  eapply Forall2_impl; [exact Hout|]. done.
Qed.

Section CorrelationFacts.

Context {FS : FileSystem}.

Lemma correlate_table_correlated dir t t' :
  correlate_table dir t = Ok t' -> table_correlated dir t t'.
Proof.
  unfold table_correlated, correlate_table, truthy_page, truthy_str,
    table_png_path, table_html_path, table_probe.
  destruct t as [sq e [P|] png html]; simpl; [|by intros [= <-]].
  destruct (Z.eqb P 0); simpl; [by intros [= <-]|].
  destruct (String.eqb e EmptyString); simpl; [by intros [= <-]|].
  destruct (path_exists (_ // (e +:+ ".png"))) as [png_found|] eqn:Hpng;
    [|done]. simpl.
  destruct (path_exists (_ // (e +:+ ".html"))) as [html_found|] eqn:Hhtml;
    [|done]. simpl.
  intros [= <-]. exists png_found, html_found.
  split; [done|]. split; [done|]. by destruct png_found, html_found.
Qed.

Lemma correlate_table_returns dir t :
  returns (correlate_table dir t) <-> table_probes_answer dir t.
Proof.
  unfold table_probes_answer, correlate_table, truthy_page, truthy_str,
    table_png_path, table_html_path, table_probe, returns.
  destruct t as [sq e [P|] png html]; simpl; [|naive_solver].
  destruct (Z.eqb P 0); simpl; [naive_solver|].
  destruct (String.eqb e EmptyString); simpl; [naive_solver|].
  destruct (path_exists (_ // (e +:+ ".png"))) as [png_found|] eqn:Hpng;
    simpl; [|naive_solver].
  destruct (path_exists (_ // (e +:+ ".html"))) as [html_found|] eqn:Hhtml;
    simpl; naive_solver.
Qed.

Lemma correlate_figure_correlated dir f f' :
  correlate_figure dir f = Ok f' -> figure_correlated dir f f'.
Proof.
  unfold figure_correlated, correlate_figure, truthy_page, truthy_str,
    possible_paths, figure_probe, raw_file, fallback_file.
  destruct f as [sq l [P|] png]; simpl; [|by intros [= <-]].
  destruct (Z.eqb P 0); simpl; [by intros [= <-]|].
  destruct (String.eqb l EmptyString); simpl; [by intros [= <-]|].
  rewrite split_on_after_last.
  destruct (path_exists (_ // (l +:+ ".png"))) as [[|]|] eqn:Hraw;
    simpl; [|..|done].
  - intros [= <-]. by exists true.
  - destruct (path_exists (_ // ("image-" +:+ _))) as [[|]|] eqn:Hfb;
      simpl; [..|done]; intros [= <-]; exists false; (split; [done|]).
    + by exists true.
    + by exists false.
Qed.

Lemma correlate_figure_returns dir f :
  returns (correlate_figure dir f) <-> figure_probes_answer dir f.
Proof.
  unfold figure_probes_answer, correlate_figure, truthy_page, truthy_str,
    possible_paths, figure_probe, raw_file, fallback_file, returns.
  destruct f as [sq l [P|] png]; simpl; [|naive_solver].
  destruct (Z.eqb P 0); simpl; [naive_solver|].
  destruct (String.eqb l EmptyString); simpl; [naive_solver|].
  rewrite split_on_after_last.
  destruct (path_exists (_ // (l +:+ ".png"))) as [[|]|] eqn:Hraw; simpl;
    [naive_solver| |naive_solver].
  destruct (path_exists (_ // ("image-" +:+ _))) as [[|]|] eqn:Hfb;
    simpl; naive_solver.
Qed.

Lemma correlate_references_returns references scratch_path :
  returns (correlate_references_with_files references scratch_path)
  <-> probes_answer (path_of scratch_path) references.
Proof.
  unfold probes_answer, correlate_references_with_files.
  rewrite <- (Forall_iff _ _ _ (correlate_table_returns _)),
    <- (Forall_iff _ _ _ (correlate_figure_returns _)), <- !mapM_returns.
  unfold returns. split.
  - destruct (mapM (correlate_table _) _) as [ts|]; simpl; [|by intros [? ?]].
    destruct (mapM (correlate_figure _) _) as [fs|]; simpl;
      [by eauto|by intros [? ?]].
  - intros [[ts ->] [fs ->]]. simpl. eauto.
Qed.

Lemma correlate_references_correlated references scratch_path out :
  correlate_references_with_files references scratch_path = Ok out ->
  Forall2 (table_correlated (path_of scratch_path)) (tables references)
    (tables out) /\
  Forall2 (figure_correlated (path_of scratch_path)) (figures references)
    (figures out).
Proof.
  unfold correlate_references_with_files.
  destruct (mapM (correlate_table _) _) as [ts|] eqn:Hts; [|done]. simpl.
  destruct (mapM (correlate_figure _) _) as [fs|] eqn:Hfs; [|done]. simpl.
  intros [= <-]. simpl. split.
  - eapply mapM_impl; [|exact Hts]. apply correlate_table_correlated.
  - eapply mapM_impl; [|exact Hfs]. apply correlate_figure_correlated.
Qed.

(** C8, as amended: for a table reference whose page number P is not None
    and not 0 and whose element ID E is not empty, the correlation probes
    the paths that pathlib joins from the scratch directory, page_P, tables
    and E.png or E.html, and attaches each one that exists; for such a
    figure reference with label L it probes the join with page_P, images and
    L.png, and then, when that is not found, with image-P-suffix.png, the
    suffix being the text after the last hyphen of L, and attaches the first
    that exists.  These paths are page_P/tables/E.png and so on below the
    scratch directory when the identifier has no slash.  The correlation
    returns exactly when every probe is answered, with a file found or not:
    then a reference whose files are not found, or whose page number is None
    or 0 or whose identifier is empty, is kept unchanged; a probe that fails
    makes the correlation raise. *)
Theorem correlate_references_with_files_paths (references : References)
    (scratch_path : string) :
  let dir := path_of scratch_path in
  (returns (correlate_references_with_files references scratch_path)
   <-> probes_answer dir references) /\
  (forall out,
     correlate_references_with_files references scratch_path = Ok out ->
     Forall2 (table_correlated dir) (tables references) (tables out) /\
     Forall2 (figure_correlated dir) (figures references) (figures out)) /\
  (forall P E,
     str_mem "/" E = false ->
     table_probe dir P E ".png"
     = below dir ["page_" +:+ pretty P; "tables"; E +:+ ".png"] /\
     table_probe dir P E ".html"
     = below dir ["page_" +:+ pretty P; "tables"; E +:+ ".html"]) /\
  (forall P L,
     str_mem "/" L = false ->
     figure_probe dir P (raw_file L)
     = below dir ["page_" +:+ pretty P; "images"; L +:+ ".png"] /\
     figure_probe dir P (fallback_file P L)
     = below dir
         ["page_" +:+ pretty P; "images";
          "image-" +:+ pretty P +:+ "-" +:+ after_last "-" L +:+ ".png"]).
Proof.
  intros dir. split; [apply correlate_references_returns|].
  split; [apply correlate_references_correlated|]. split.
  - intros P E HE.
    split; apply table_probe_below; by rewrite str_mem_app, HE.
  - intros P L HL. split; apply figure_probe_below.
    + by apply raw_file_no_slash.
    + apply is_part_ext.
    + by apply fallback_file_no_slash.
    + done.
Qed.

End CorrelationFacts.

Example correlate_figure_fallback :
  correlate_references_with_files
    (FS := list_fs ["scratch/service_manual_long/page_9/images/image-9-2.png"])
    {| tables := [];
       figures := [mkFigureReference "q" "figure-9-2" (Some 9) None] |}
    default_scratch_path
  = Ok {| tables := [];
          figures := [mkFigureReference "q" "figure-9-2" (Some 9)
            (Some "scratch/service_manual_long/page_9/images/image-9-2.png")]
       |}.
Proof. vm_compute. reflexivity. Qed.

(** What pathlib makes of a scratch path and of an identifier that is not a
    plain name. *)
Example path_normalisation :
  path_str (path_of "scratch//service_manual_long/./") 
    = "scratch/service_manual_long" /\
  path_str (path_of EmptyString) = "." /\
  path_str (path_of "//srv/scratch") = "//srv/scratch" /\
  path_str (path_of "///srv/scratch") = "/srv/scratch" /\
  path_str (table_probe (path_of default_scratch_path) 3 "a/b" ".png")
    = "scratch/service_manual_long/page_3/tables/a/b.png" /\
  path_str (table_probe (path_of default_scratch_path) 3 "/etc/x" ".png")
    = "/etc/x.png".
Proof. repeat split; vm_compute; reflexivity. Qed.

(** C8 fails as stated: a table reference with page number 0 and element ID
    table-0-1, both present, is not given the file page_0/tables/table-0-1.png
    although it exists; and on a system that refuses names of more than 255
    bytes, a table reference with an element ID of 300 bytes, whose files
    cannot be found, is not kept unchanged: the correlation raises. *)
Lemma correlate_page_zero_counterexample :
  let fs :=
    list_fs ["scratch/service_manual_long/page_0/tables/table-0-1.png"] in
  let t := mkTableReference "q" "table-0-1" (Some 0) None None in
  let long := mkTableReference "q" (long_name 300) (Some 3) None None in
  path_exists (FS := fs)
    (path_of default_scratch_path // "page_0" // "tables" // "table-0-1.png")
    = Ok true /\
  correlate_references_with_files (FS := fs)
    {| tables := [t]; figures := [] |} default_scratch_path
  = Ok {| tables := [t]; figures := [] |} /\
  correlate_references_with_files (FS := bounded_fs [])
    {| tables := [long]; figures := [] |} default_scratch_path
  = Raise OSError.
Proof. repeat split; vm_compute; reflexivity. Qed.

(** ** The validity rule and the extractors *)

Lemma is_valid_id_truthy v :
  truthy (ContentElementsExtractor._is_valid_id v)
  = truthy v && negb (py_eq_str v "None").
Proof.
  unfold ContentElementsExtractor._is_valid_id.
  destruct (truthy v) eqn:Hv; simpl; [done|]. by rewrite Hv.
Qed.

Lemma valid_identifier_truthy v :
  is_identifier v = true ->
  match valid_identifier v with
  | Some s => v = PStr s /\ truthy (ContentElementsExtractor._is_valid_id v) = true
  | None => truthy (ContentElementsExtractor._is_valid_id v) = false
  end.
Proof.
  destruct v as [| | | |s| |]; try done. intros _.
  rewrite is_valid_id_truthy. simpl.
  destruct (String.eqb_spec s EmptyString), (String.eqb_spec s "None");
    case_bool_decide; naive_solver.
Qed.

Lemma valid_ids_app a b : valid_ids (a ++ b) = valid_ids a ++ valid_ids b.
Proof. apply omap_app. Qed.

Lemma elem_of_valid_ids s ids :
  s ∈ valid_ids ids <-> PStr s ∈ ids /\ s <> EmptyString /\ s <> "None".
Proof.
  unfold valid_ids. rewrite list_elem_of_omap. split.
  - intros ([| | | |t| |] & Hin & Hv); simpl in Hv; try done.
    case_bool_decide; [|done]. injection Hv as ->. done.
  - intros (Hin & H1 & H2). exists (PStr s). split; [done|]. simpl.
    by rewrite bool_decide_true.
Qed.

Lemma refs_concat {A B} (mk : list string -> list B) (h : A -> list pyval) l :
  mk [] = [] -> (forall a b, mk (a ++ b) = mk a ++ mk b) ->
  concat (map (fun x => mk (valid_ids (h x))) l)
  = mk (valid_ids (concat (map h l))).
Proof.
  intros Hnil Happ. induction l as [|x l IH]; simpl; [done|].
  by rewrite valid_ids_app, Happ, IH.
Qed.

Lemma for_each_append {A B} (g : A -> list B)
    (body : list B -> A -> res (list B)) l acc :
  (forall acc x, x ∈ l -> body acc x = Ok (acc ++ g x)) ->
  for_each l body acc = Ok (acc ++ concat (map g l)).
Proof.
  revert acc. induction l as [|x l IH]; intros acc Hbody; simpl.
  - by rewrite app_nil_r.
  - rewrite Hbody by left. simpl.
    rewrite IH by (intros; apply Hbody; by right). by rewrite <- app_assoc.
Qed.

Lemma for_each_append2 {A B C} (g1 : A -> list B) (g2 : A -> list C)
    (body : list B * list C -> A -> res (list B * list C)) l acc1 acc2 :
  (forall acc1 acc2 x, x ∈ l ->
     body (acc1, acc2) x = Ok (acc1 ++ g1 x, acc2 ++ g2 x)) ->
  for_each l body (acc1, acc2)
  = Ok (acc1 ++ concat (map g1 l), acc2 ++ concat (map g2 l)).
Proof.
  revert acc1 acc2. induction l as [|x l IH]; intros acc1 acc2 Hbody; simpl.
  - by rewrite !app_nil_r.
  - rewrite Hbody by left. simpl.
    rewrite IH by (intros; apply Hbody; by right). by rewrite <- !app_assoc.
Qed.

Lemma dicts_of_Some l ds : dicts_of l = Some ds -> l = map PDict ds.
Proof.
  revert ds. induction l as [|v l IH]; intros ds; simpl.
  - by intros [= <-].
  - destruct v; try done. destruct (dicts_of l) as [ds'|]; [|done].
    simpl. intros [= <-]. simpl. by rewrite (IH ds').
Qed.

Lemma list_of_dicts_Some v ds :
  list_of_dicts v = Some ds -> v = PList (map PDict ds).
Proof.
  destruct v; try done. simpl. by intros ->%dicts_of_Some.
Qed.

Section ExtractorFacts.

Context {V : Pydantic}.

Lemma validate_page pnv :
  is_page pnv = true -> validate_opt_int pnv = Some (page_value pnv).
Proof.
  destruct pnv; try done; intros _;
    [apply validate_opt_int_none|apply validate_opt_int_int].
Qed.

Lemma table_step sq v pnv acc :
  is_identifier v = true -> is_page pnv = true ->
  (if truthy (ContentElementsExtractor._is_valid_id v)
   then t ← new_TableReference sq v pnv; Ok (acc ++ [t])
   else Ok acc)
  = Ok (acc ++ table_refs sq (page_value pnv) (valid_ids [v])).
Proof.
  intros Hv Hp. pose proof (valid_identifier_truthy v Hv) as Hvalid.
  unfold valid_ids. simpl. destruct (valid_identifier v) as [s|].
  - destruct Hvalid as [-> ->]. unfold new_TableReference.
    by rewrite validate_str_str, (validate_page _ Hp).
  - rewrite Hvalid. simpl. by rewrite app_nil_r.
Qed.

Lemma figure_step sq v pnv acc :
  is_identifier v = true -> is_page pnv = true ->
  (if truthy (ContentElementsExtractor._is_valid_id v)
   then f ← new_FigureReference sq v pnv; Ok (acc ++ [f])
   else Ok acc)
  = Ok (acc ++ figure_refs sq (page_value pnv) (valid_ids [v])).
Proof.
  intros Hv Hp. pose proof (valid_identifier_truthy v Hv) as Hvalid.
  unfold valid_ids. simpl. destruct (valid_identifier v) as [s|].
  - destruct Hvalid as [-> ->]. unfold new_FigureReference.
    by rewrite validate_str_str, (validate_page _ Hp).
  - rewrite Hvalid. simpl. by rewrite app_nil_r.
Qed.

End ExtractorFacts.

Lemma forallb_elem_of {A} (f : A -> bool) l :
  forallb f l = true <-> forall x, x ∈ l -> f x = true.
Proof.
  rewrite forallb_forall. by setoid_rewrite list_elem_of_In.
Qed.

Section ExtractorSpecs.

Context {V : Pydantic}.
Variable result : pydict.
Variable sub_question : string.
Hypothesis page_ok : is_page (dict_get result "page_number" PNone) = true.

Local Abbreviation page := (page_value (dict_get result "page_number" PNone)).

Lemma table_refs_app a b :
  table_refs sub_question page (a ++ b)
  = table_refs sub_question page a ++ table_refs sub_question page b.
Proof. apply map_app. Qed.

Lemma figure_refs_app a b :
  figure_refs sub_question page (a ++ b)
  = figure_refs sub_question page a ++ figure_refs sub_question page b.
Proof. apply map_app. Qed.

Lemma concat_singletons {A} (h : A -> pyval) l :
  concat (map (fun x => [h x]) l) = map h l.
Proof. induction l; simpl; congruence. Qed.

Lemma flattened_tables_extract ids :
  scan_entries "flattened_tables" "table_id" result = Some ids ->
  forallb is_identifier ids = true ->
  FlattenedTablesExtractor.extract result sub_question
  = Ok (table_refs sub_question page (valid_ids ids), []).
Proof.
  unfold scan_entries, FlattenedTablesExtractor.extract.
  destruct (list_of_dicts _) as [ds|] eqn:Hds; [|done].
  apply list_of_dicts_Some in Hds as ->. simpl.
  intros [= <-] Hids. rewrite forallb_elem_of in Hids.
  rewrite (for_each_append (fun x =>
    match x with
    | PDict d =>
        table_refs sub_question page (valid_ids [dict_get d "table_id" PNone])
    | _ => []
    end)).
  - simpl. rewrite map_map.
    rewrite (refs_concat (table_refs sub_question page)
               (fun d => [dict_get d "table_id" PNone]));
      [|done|apply table_refs_app].
    by rewrite concat_singletons.
  - intros acc x (d & -> & Hd)%list_elem_of_fmap. simpl.
    apply table_step; [|done].
    apply Hids, list_elem_of_fmap. eauto.
Qed.

Lemma table_metadata_extract ids :
  scan_entries "table_metadata" "table_id" result = Some ids ->
  forallb is_identifier ids = true ->
  TableMetadataExtractor.extract result sub_question
  = Ok (table_refs sub_question page (valid_ids ids), []).
Proof.
  unfold scan_entries, TableMetadataExtractor.extract.
  destruct (list_of_dicts _) as [ds|] eqn:Hds; [|done].
  apply list_of_dicts_Some in Hds as ->. simpl.
  intros [= <-] Hids. rewrite forallb_elem_of in Hids.
  rewrite (for_each_append (fun x =>
    match x with
    | PDict d =>
        table_refs sub_question page (valid_ids [dict_get d "table_id" PNone])
    | _ => []
    end)).
  - simpl. rewrite map_map.
    rewrite (refs_concat (table_refs sub_question page)
               (fun d => [dict_get d "table_id" PNone]));
      [|done|apply table_refs_app].
    by rewrite concat_singletons.
  - intros acc x (d & -> & Hd)%list_elem_of_fmap. simpl.
    apply table_step; [|done].
    apply Hids, list_elem_of_fmap. eauto.
Qed.

Lemma content_summary_extract ids :
  scan_summary result = Some ids ->
  forallb is_identifier ids = true ->
  ContentSummaryExtractor.extract result sub_question
  = Ok ([], figure_refs sub_question page (valid_ids ids)).
Proof.
  unfold scan_summary, ContentSummaryExtractor.extract.
  destruct (dict_get result "content_summary" (PDict [])) as [| | | | | |d];
    try done. simpl.
  destruct (dict_get d "figures" (PList [])) as [| | | | |l|]; try done.
  simpl. intros [= <-] Hids. rewrite forallb_elem_of in Hids.
  rewrite (for_each_append (fun x =>
    figure_refs sub_question page (valid_ids [x]))).
  - simpl.
    rewrite (refs_concat (figure_refs sub_question page) (fun x => [x]));
      [|done|apply figure_refs_app].
    by rewrite concat_singletons, map_id.
  - intros acc x Hx. apply figure_step; [by apply Hids|done].
Qed.

End ExtractorSpecs.

Lemma elem_of_concat {A} (x : A) (ls : list (list A)) :
  x ∈ concat ls <-> exists l, l ∈ ls /\ x ∈ l.
Proof.
  rewrite list_elem_of_In, in_concat.
  by setoid_rewrite list_elem_of_In.
Qed.

Lemma has_type_excl d : has_type "table" d = true -> has_type "figure" d = false.
Proof.
  unfold has_type. destruct (dict_get d "type" PNone) as [| | | |s| |]; try done.
  simpl. by destruct (String.eqb_spec s "table") as [->|].
Qed.

Lemma refs_concat_filter {B} (mk : list string -> list B)
    (p : pydict -> bool) (h : pydict -> pyval) ds :
  mk [] = [] -> (forall a b, mk (a ++ b) = mk a ++ mk b) ->
  concat (map (fun x => match x with
                        | PDict d => if p d then mk (valid_ids [h d]) else []
                        | _ => []
                        end) (map PDict ds))
  = mk (valid_ids (map h (List.filter p ds))).
Proof.
  intros Hnil Happ. induction ds as [|d ds IH]; [done|].
  cbn [map concat List.filter]. rewrite IH. destruct (p d); [|done].
  cbn [map].
  change (h d :: map h (List.filter p ds))
    with ([h d] ++ map h (List.filter p ds)).
  by rewrite valid_ids_app, Happ.
Qed.

Lemma scan_related_Some ds ids :
  scan_related ds = Some ids ->
  ids = concat (map (fun d => default [] (related_labels d)) ds) /\
  forall d, d ∈ ds -> related_labels d = Some (default [] (related_labels d)).
Proof.
  revert ids. induction ds as [|d ds IH]; intros ids; simpl.
  - intros [= <-]. split; [done|]. by intros d ?%elem_of_nil.
  - destruct (related_labels d) as [ls|] eqn:Hd; [|done]. simpl.
    destruct (scan_related ds) as [rest|]; [|done]. simpl. intros [= <-].
    destruct (IH rest eq_refl) as [-> Hall]. split; [done|].
    intros d' [->|Hd']%elem_of_cons; [by rewrite Hd|by apply Hall].
Qed.

Section ExtractorSpecsNested.

Context {V : Pydantic}.
Variable result : pydict.
Variable sub_question : string.
Hypothesis page_ok : is_page (dict_get result "page_number" PNone) = true.

Local Abbreviation page := (page_value (dict_get result "page_number" PNone)).

Lemma content_elements_extract ids1 ids2 :
  scan_content "element_id" "table" result = Some ids1 ->
  scan_content "figure_id" "figure" result = Some ids2 ->
  forallb is_identifier ids1 = true -> forallb is_identifier ids2 = true ->
  ContentElementsExtractor.extract result sub_question
  = Ok (table_refs sub_question page (valid_ids ids1),
        figure_refs sub_question page (valid_ids ids2)).
Proof.
  unfold scan_content, ContentElementsExtractor.extract.
  destruct (list_of_dicts _) as [ds|] eqn:Hds; [|done].
  apply list_of_dicts_Some in Hds as ->. simpl.
  intros [= <-] [= <-] H1 H2. rewrite forallb_elem_of in H1, H2.
  rewrite (for_each_append2
    (fun x => match x with
              | PDict d =>
                  if has_type "table" d
                  then table_refs sub_question page
                         (valid_ids [dict_get d "element_id" PNone])
                  else []
              | _ => []
              end)
    (fun x => match x with
              | PDict d =>
                  if has_type "figure" d
                  then figure_refs sub_question page
                         (valid_ids [dict_get d "figure_id" PNone])
                  else []
              | _ => []
              end)).
  - cbn [app].
    rewrite (refs_concat_filter (table_refs sub_question page)
               (has_type "table") (fun d => dict_get d "element_id" PNone))
      by (done || apply map_app).
    by rewrite (refs_concat_filter (figure_refs sub_question page)
                  (has_type "figure")
                  (fun d => dict_get d "figure_id" PNone))
      by (done || apply map_app).
  - intros acc1 acc2 x (d & -> & Hd)%list_elem_of_fmap. simpl.
    fold (has_type "table" d). fold (has_type "figure" d).
    destruct (has_type "table" d) eqn:Ht.
    + rewrite (has_type_excl d Ht), app_nil_r.
      assert (is_identifier (dict_get d "element_id" PNone) = true) as Hid.
      { apply H1, list_elem_of_fmap. exists d. split; [done|].
        apply list_elem_of_In, filter_In. split; [|done].
        by apply list_elem_of_In. }
      pose proof (valid_identifier_truthy _ Hid) as Hvalid.
      unfold valid_ids. simpl.
      destruct (valid_identifier _) as [s|].
      * destruct Hvalid as [-> ->]. unfold new_TableReference.
        by rewrite validate_str_str, (validate_page _ page_ok).
      * rewrite Hvalid. simpl. by rewrite app_nil_r.
    + rewrite app_nil_r. destruct (has_type "figure" d) eqn:Hf.
      * assert (is_identifier (dict_get d "figure_id" PNone) = true) as Hid.
        { apply H2, list_elem_of_fmap. exists d. split; [done|].
          apply list_elem_of_In, filter_In. split; [|done].
          by apply list_elem_of_In. }
        pose proof (valid_identifier_truthy _ Hid) as Hvalid.
        unfold valid_ids. simpl.
        destruct (valid_identifier _) as [s|].
        -- destruct Hvalid as [-> ->]. unfold new_FigureReference.
           by rewrite validate_str_str, (validate_page _ page_ok).
        -- rewrite Hvalid. simpl. by rewrite app_nil_r.
      * by rewrite app_nil_r.
Qed.

Lemma labels_loop fs acc :
  forallb is_identifier (map (fun f => dict_get f "label" PNone) fs) = true ->
  for_each (map PDict fs) (fun figures figure =>
    label ← py_get figure "label" PNone;
    if truthy (ContentElementsExtractor._is_valid_id label) then
      f ← new_FigureReference sub_question label
            (dict_get result "page_number" PNone);
      Ok (figures ++ [f])
    else Ok figures) acc
  = Ok (acc ++ figure_refs sub_question page
                 (valid_ids (map (fun f => dict_get f "label" PNone) fs))).
Proof.
  intros Hids. rewrite forallb_elem_of in Hids.
  rewrite (for_each_append (fun x =>
    match x with
    | PDict d =>
        figure_refs sub_question page (valid_ids [dict_get d "label" PNone])
    | _ => []
    end)).
  - rewrite map_map.
    rewrite (refs_concat (figure_refs sub_question page)
               (fun d => [dict_get d "label" PNone]));
      [|done|apply map_app].
    by rewrite concat_singletons.
  - intros acc' x (d & -> & Hd)%list_elem_of_fmap. simpl.
    apply figure_step; [|done]. apply Hids, list_elem_of_fmap. eauto.
Qed.

Lemma within_page_relations_extract ids :
  scan_relations result = Some ids ->
  forallb is_identifier ids = true ->
  WithinPageRelationsExtractor.extract result sub_question
  = Ok ([], figure_refs sub_question page (valid_ids ids)).
Proof.
  unfold scan_relations, WithinPageRelationsExtractor.extract.
  destruct (list_of_dicts _) as [ds|] eqn:Hds; [|done].
  apply list_of_dicts_Some in Hds as ->. simpl.
  intros [-> Hall]%scan_related_Some Hids. rewrite forallb_elem_of in Hids.
  rewrite (for_each_append (fun x =>
    match x with
    | PDict d =>
        figure_refs sub_question page
          (valid_ids (default [] (related_labels d)))
    | _ => []
    end)).
  - simpl. rewrite map_map.
    by rewrite (refs_concat (figure_refs sub_question page)
                  (fun d => default [] (related_labels d)))
      by (done || apply map_app).
  - intros acc x (d & -> & Hd)%list_elem_of_fmap. simpl.
    pose proof (Hall d Hd) as Hlabels.
    assert (forall v, v ∈ default [] (related_labels d) ->
                      is_identifier v = true) as Hd_ids.
    { intros v Hv. apply Hids, elem_of_concat.
      exists (default [] (related_labels d)). split; [|done].
      apply list_elem_of_fmap. eauto. }
    unfold related_labels in Hlabels, Hd_ids |- *.
    destruct (dict_get d "within_page_relations" (PDict []))
      as [| | | | | |w]; try done. simpl in *.
    destruct (list_of_dicts (dict_get w "related_figures" (PList [])))
      as [fs|] eqn:Hfs; [|done].
    apply list_of_dicts_Some in Hfs as ->. simpl in *.
    apply labels_loop. by apply forallb_elem_of.
Qed.

End ExtractorSpecsNested.

Lemma well_formed_result_scans r :
  well_formed_result r = true ->
  is_page (dict_get r "page_number" PNone) = true /\
  forall o, o ∈ scans r ->
    o = Some (scanned o) /\ forallb is_identifier (scanned o) = true.
Proof.
  unfold well_formed_result. intros [Hscans Hpage]%andb_true_iff.
  split; [done|]. rewrite forallb_elem_of in Hscans.
  intros o Ho. specialize (Hscans o Ho). by destruct o.
Qed.

Lemma extractors_on_well_formed `{Pydantic} (result : pydict)
    (sub_question : string) :
  well_formed_result result = true ->
  let page := page_value (dict_get result "page_number" PNone) in
  let tables_at o := table_refs sub_question page (valid_ids (scanned o)) in
  let figures_at o := figure_refs sub_question page (valid_ids (scanned o)) in
  ContentElementsExtractor.extract result sub_question
    = Ok (tables_at (scan_content "element_id" "table" result),
          figures_at (scan_content "figure_id" "figure" result)) /\
  FlattenedTablesExtractor.extract result sub_question
    = Ok (tables_at (scan_entries "flattened_tables" "table_id" result), []) /\
  TableMetadataExtractor.extract result sub_question
    = Ok (tables_at (scan_entries "table_metadata" "table_id" result), []) /\
  ContentSummaryExtractor.extract result sub_question
    = Ok ([], figures_at (scan_summary result)) /\
  WithinPageRelationsExtractor.extract result sub_question
    = Ok ([], figures_at (scan_relations result)).
Proof.
  intros [Hpage Hscans]%well_formed_result_scans page tables_at figures_at.
  assert (forall o, o ∈ scans result ->
            o = Some (scanned o) /\ forallb is_identifier (scanned o) = true)
    as Hs by exact Hscans.
  unfold scans in Hs.
  split; [|split; [|split; [|split]]].
  - apply content_elements_extract; try done; apply Hs; set_solver.
  - apply flattened_tables_extract; try done; apply Hs; set_solver.
  - apply table_metadata_extract; try done; apply Hs; set_solver.
  - apply content_summary_extract; try done; apply Hs; set_solver.
  - apply within_page_relations_extract; try done; apply Hs; set_solver.
Qed.

(** C4, as amended: in a result whose page number is an integer or None,
    wherever the location an extractor scans has the shape it expects and
    every identifier found there is a string or None, the extractor returns
    exactly the references of the valid identifiers found there, in order:
    an identifier gives a reference iff it is a non-empty string other than
    "None"; the empty string, None and "None" are never among the references
    and every other string is.  The test itself accepts a value iff it is
    truthy and not equal to "None". *)
Theorem valid_identifiers_extracted `{Pydantic} (result : pydict)
    (sub_question : string) :
  is_page (dict_get result "page_number" PNone) = true ->
  let page := page_value (dict_get result "page_number" PNone) in
  let tables_at ids := table_refs sub_question page (valid_ids ids) in
  let figures_at ids := figure_refs sub_question page (valid_ids ids) in
  (forall ids1 ids2,
     scan_content "element_id" "table" result = Some ids1 ->
     scan_content "figure_id" "figure" result = Some ids2 ->
     forallb is_identifier ids1 = true -> forallb is_identifier ids2 = true ->
     ContentElementsExtractor.extract result sub_question
     = Ok (tables_at ids1, figures_at ids2)) /\
  (forall ids,
     scan_entries "flattened_tables" "table_id" result = Some ids ->
     forallb is_identifier ids = true ->
     FlattenedTablesExtractor.extract result sub_question
     = Ok (tables_at ids, [])) /\
  (forall ids,
     scan_entries "table_metadata" "table_id" result = Some ids ->
     forallb is_identifier ids = true ->
     TableMetadataExtractor.extract result sub_question
     = Ok (tables_at ids, [])) /\
  (forall ids,
     scan_summary result = Some ids -> forallb is_identifier ids = true ->
     ContentSummaryExtractor.extract result sub_question
     = Ok ([], figures_at ids)) /\
  (forall ids,
     scan_relations result = Some ids -> forallb is_identifier ids = true ->
     WithinPageRelationsExtractor.extract result sub_question
     = Ok ([], figures_at ids)) /\
  (forall ids s,
     s ∈ valid_ids ids <-> PStr s ∈ ids /\ s <> EmptyString /\ s <> "None") /\
  (forall v,
     truthy (ContentElementsExtractor._is_valid_id v)
     = truthy v && negb (py_eq_str v "None")).
Proof.
  intros Hpage page tables_at figures_at.
  split; [|split; [|split; [|split; [|split; [|split]]]]].
  - intros. by apply content_elements_extract.
  - intros. by apply flattened_tables_extract.
  - intros. by apply table_metadata_extract.
  - intros. by apply content_summary_extract.
  - intros. by apply within_page_relations_extract.
  - intros ids s. apply elem_of_valid_ids.
  - apply is_valid_id_truthy.
Qed.

Lemma valid_identifiers_extracted_witness :
  let result := [
    ("page_number", PInt 5);
    ("content_elements", PList [
       PDict [("type", PStr "table"); ("element_id", PStr "table-5-1")];
       PDict [("type", PStr "figure"); ("figure_id", PStr "None")];
       PDict [("type", PStr "text");
              ("within_page_relations",
               PDict [("related_figures",
                       PList [PDict [("label", PStr "figure-5-2")]])])]]);
    ("flattened_tables", PList [PDict [("table_id", PStr EmptyString)]]);
    ("content_summary", PDict [("figures", PList [PStr "figure-5-3"; PNone])])
  ] in
  ContentElementsExtractor.extract (H := strict_pydantic) result "q"
    = Ok ([mkTableReference "q" "table-5-1" (Some 5) None None], []) /\
  FlattenedTablesExtractor.extract (H := strict_pydantic) result "q"
    = Ok ([], []) /\
  ContentSummaryExtractor.extract (H := strict_pydantic) result "q"
    = Ok ([], [mkFigureReference "q" "figure-5-3" (Some 5) None]) /\
  WithinPageRelationsExtractor.extract (H := strict_pydantic) result "q"
    = Ok ([], [mkFigureReference "q" "figure-5-2" (Some 5) None]).
Proof.
  intros result.
  destruct (valid_identifiers_extracted (H := strict_pydantic) result "q"
              eq_refl) as (Hc & Hf & _ & Hs & Hw & _).
  split; [exact (Hc _ _ eq_refl eq_refl eq_refl eq_refl)|].
  split; [exact (Hf _ eq_refl eq_refl)|].
  split; [exact (Hs _ eq_refl eq_refl)|exact (Hw _ eq_refl eq_refl)].
Defined.

(** C4 fails as stated: a valid identifier does not always give a
    reference, because the extractors have no error handling.  Whatever the
    validation does, the valid table identifier ft-1 gives no reference
    when the entry after it is not a dictionary: the extractor raises.  And
    the validity test accepts the integer 7, which is truthy and not equal
    to "None"; with a validation that accepts only strings for a field
    declared [str], the reference model rejects it, the extractor raises,
    and the valid identifiers tm-1 and tm-2 around it give no reference. *)
Lemma valid_identifier_lost_counterexample :
  (forall V : Pydantic,
     FlattenedTablesExtractor.extract (H := V)
       [("page_number", PInt 5);
        ("flattened_tables",
         PList [PDict [("table_id", PStr "ft-1")]; PStr "oops"])] "q"
     = Raise AttributeError) /\
  valid_identifier (PStr "ft-1") = Some "ft-1" /\
  truthy (ContentElementsExtractor._is_valid_id (PInt 7)) = true /\
  TableMetadataExtractor.extract (H := strict_pydantic)
    [("page_number", PInt 5);
     ("table_metadata",
      PList [PDict [("table_id", PStr "tm-1")];
             PDict [("table_id", PInt 7)];
             PDict [("table_id", PStr "tm-2")]])] "q"
  = Raise ValidationError.
Proof.
  split; [|by repeat split].
  intros V.
  unfold FlattenedTablesExtractor.extract, new_TableReference. simpl.
  unfold dict_get. simpl.
  by rewrite validate_str_str, validate_opt_int_int.
Qed.

(** ** The extraction pipeline *)

Lemma for_each_app {A S} (l1 l2 : list A) (body : S -> A -> res S) s :
  for_each (l1 ++ l2) body s = s' ← for_each l1 body s; for_each l2 body s'.
Proof.
  revert s. induction l1 as [|x l1 IH]; intros s; simpl; [done|].
  destruct (body s x); simpl; [apply IH|done].
Qed.

Lemma for_each_raises {A S} (l : list A) (body : S -> A -> res S) x :
  x ∈ l -> (forall s, raises (body s x)) -> forall s, raises (for_each l body s).
Proof.
  intros Hx Hraise. induction l as [|y l IH]; intros s.
  { by apply elem_of_nil in Hx. }
  simpl. destruct (body s y) as [s'|e] eqn:Hy; simpl; [|by exists e].
  apply elem_of_cons in Hx as [->|Hx]; [|by apply IH].
  destruct (Hraise s) as [e He]. congruence.
Qed.

Section PipelineFacts.

Context {V : Pydantic} {FS : FileSystem}.

Lemma extract_result_ok sub_question r acc1 acc2 :
  well_formed_result r = true ->
  extract_result sub_question (acc1, acc2) r
  = Ok (acc1 ++ expected_tables sub_question r,
        acc2 ++ expected_figures sub_question r).
Proof.
  intros Hwf.
  destruct (extractors_on_well_formed r sub_question Hwf)
    as (Hc & Hf & Hm & Hs & Hw).
  unfold extract_result, extractors. simpl.
  rewrite Hc. simpl. rewrite Hf. simpl. rewrite Hm. simpl.
  rewrite Hs. simpl. rewrite Hw. simpl.
  unfold expected_tables, expected_figures, table_refs, figure_refs.
  by rewrite !valid_ids_app, !map_app, !app_nil_r, <- !app_assoc.
Qed.

Lemma extract_all_ok relevant_points :
  well_formed_points relevant_points = true ->
  extract_all relevant_points
  = Ok (expected_all_tables relevant_points,
        expected_all_figures relevant_points).
Proof.
  intros Hwf. unfold well_formed_points in Hwf.
  rewrite forallb_elem_of in Hwf. unfold extract_all.
  rewrite (for_each_append2
    (fun '(sub_question, results) =>
       concat (map (expected_tables sub_question) results))
    (fun '(sub_question, results) =>
       concat (map (expected_figures sub_question) results))); [done|].
  intros acc1 acc2 [sub_question results] Hin.
  specialize (Hwf _ Hin). simpl in Hwf. rewrite forallb_elem_of in Hwf.
  apply for_each_append2. intros a1 a2 r Hr.
  by apply extract_result_ok, Hwf.
Qed.


End PipelineFacts.




(** ** Further properties of deduplication and correlation *)

(** X1: the string key of the deduplication never collides: two table
    references have the same key exactly when they have the same element ID
    and the same page number, also when the IDs contain underscores, and
    likewise for figures with their label. *)
Theorem dedup_key_no_collision (t u : TableReference)
    (f g : FigureReference) :
  (table_key t = table_key u <->
   element_id t = element_id u /\ t_page_number t = t_page_number u) /\
  (figure_key f = figure_key g <->
   label f = label g /\ f_page_number f = f_page_number g).
Proof.
  rewrite table_key_ident, figure_key_ident.
  unfold table_ident, figure_ident. split; split.
  - by intros [= -> ->].
  - by intros [-> ->].
  - by intros [= -> ->].
  - by intros [-> ->].
Qed.

Lemma NoDup_ident_key {A K} (key : A -> string) (k : A -> K) (l : list A) :
  (forall a b, key a = key b <-> k a = k b) ->
  NoDup (k <$> l) -> NoDup (key <$> l).
Proof.
  intros Hk. induction l as [|a l IH]; [constructor|].
  rewrite !fmap_cons, !NoDup_cons. intros [Ha Hnd]. split; [|by apply IH].
  intros (y & Hy & Hin)%list_elem_of_fmap. apply Ha.
  apply list_elem_of_fmap. exists y. split; [by apply Hk|done].
Qed.

(** X2: on references whose (element_id, page_number) pairs, and
    (label, page_number) pairs, are pairwise distinct, deduplication returns
    its input unchanged. *)
Theorem dedup_identity_on_distinct (references : References) :
  NoDup (table_ident <$> tables references) ->
  NoDup (figure_ident <$> figures references) ->
  deduplicate_references references = references.
Proof.
  intros Ht Hf. destruct references as [ts fs]. simpl in *.
  unfold deduplicate_references. simpl.
  rewrite !dedup_loop_firsts, !app_nil_l.
  rewrite !firsts_id; [done|..]; try set_solver.
  - by apply (NoDup_ident_key _ figure_ident), Hf; apply figure_key_ident.
  - by apply (NoDup_ident_key _ table_ident), Ht; apply table_key_ident.
Qed.

Lemma dedup_identity_on_distinct_witness :
  deduplicate_references
    {| tables := [ mkTableReference "q1" "table_1" (Some 2) None None;
                   mkTableReference "q1" "table_1" (Some 3) None None;
                   mkTableReference "q2" "table" None None None ];
       figures := [ mkFigureReference "q1" "figure-9-2" (Some 9) None ] |}
  = {| tables := [ mkTableReference "q1" "table_1" (Some 2) None None;
                   mkTableReference "q1" "table_1" (Some 3) None None;
                   mkTableReference "q2" "table" None None None ];
       figures := [ mkFigureReference "q1" "figure-9-2" (Some 9) None ] |}.
Proof.
  apply dedup_identity_on_distinct; simpl.
  - repeat (constructor; [set_solver|]). constructor.
  - repeat (constructor; [set_solver|]). constructor.
Defined.

Lemma firsts_map {A} (key : A -> string) (f : A -> A) seen l :
  (forall x, key (f x) = key x) ->
  firsts key seen (map f l) = map f (firsts key seen l).
Proof.
  intros Hf. revert seen. induction l as [|x l IH]; intros seen; simpl; [done|].
  rewrite Hf. case_decide; simpl; by rewrite IH.
Qed.

(** Mapping a fallible function that, on its own results, returns them. *)
Lemma mapM_idem {A} (f : A -> res A) l :
  (forall x, (y ← f x; f y) = f x) ->
  (l' ← mapM f l; mapM f l') = mapM f l.
Proof.
  intros Hf. induction l as [|x l IH]; [done|]. cbn [mapM].
  pose proof (Hf x) as Hx.
  destruct (f x) as [y|e]; [|done]. simpl in Hx |- *.
  destruct (mapM f l) as [ys|e]; [|done]. simpl in IH |- *.
  by rewrite Hx, IH.
Qed.

(** Mapping a fallible function commutes with keeping first occurrences
    when the function keeps the key and fails by the key alone. *)
Lemma mapM_firsts {A} (key : A -> string) (f : A -> res A) seen l :
  (forall x y, f x = Ok y -> key y = key x) ->
  (forall x x' e, key x = key x' -> f x = Raise e -> f x' = Raise e) ->
  (forall x, x ∈ l -> key x ∈ seen -> returns (f x)) ->
  (l' ← mapM f l; Ok (firsts key seen l')) = mapM f (firsts key seen l).
Proof.
  intros Hkey Hfail. revert seen.
  induction l as [|x l IH]; intros seen Hseen; [done|].
  cbn [mapM firsts]. case_decide as Hx.
  - destruct (Hseen x) as [y Hy]; [by left|done|].
    rewrite Hy. simpl. rewrite <- IH by (intros z Hz; apply Hseen; by right).
    destruct (mapM f l) as [ys|e]; [|done]. simpl.
    by rewrite decide_True by (by rewrite (Hkey _ _ Hy)).
  - cbn [mapM]. destruct (f x) as [y|e] eqn:Hy; [|done]. simpl.
    rewrite <- (IH ({[key x]} ∪ seen)).
    + destruct (mapM f l) as [ys|e]; [|done]. simpl.
      rewrite (Hkey _ _ Hy). by rewrite decide_False by done.
    + intros z Hz [Hzx%elem_of_singleton|Hzs]%elem_of_union.
      * destruct (f z) as [w|e] eqn:Hw; [by exists w|].
        rewrite (Hfail z x e Hzx Hw) in Hy. done.
      * apply Hseen; [by right|done].
Qed.

Section CorrelationAlgebra.

Context {FS : FileSystem}.

Lemma correlate_table_key dir t t' :
  correlate_table dir t = Ok t' -> table_key t' = table_key t.
Proof.
  unfold correlate_table. destruct t as [sq e p png html]. simpl.
  destruct (truthy_page p && truthy_str e); [|by intros [= <-]].
  destruct (path_exists (table_png_path dir _)) as [[|]|]; simpl; [..|done];
    (destruct (path_exists (table_html_path dir _)) as [[|]|]; simpl;
     [..|done]);
    by intros [= <-].
Qed.

Lemma correlate_figure_key dir f f' :
  correlate_figure dir f = Ok f' -> figure_key f' = figure_key f.
Proof.
  unfold correlate_figure.
  destruct (truthy_page _ && truthy_str _); [|by intros [= <-]].
  destruct (first_existing _) as [[path|]|]; simpl; [..|done];
    by intros [= <-].
Qed.

Lemma correlate_table_fails_by_key dir t u e :
  table_key t = table_key u ->
  correlate_table dir t = Raise e -> correlate_table dir u = Raise e.
Proof.
  intros [= He Hp]%table_key_ident.
  unfold correlate_table, table_png_path, table_html_path.
  rewrite He, Hp.
  destruct (truthy_page _ && truthy_str _); [|done].
  destruct (path_exists (_ // (element_id u +:+ ".png"))) as [[|]|]; simpl;
    [..|done];
    by destruct (path_exists (_ // (element_id u +:+ ".html"))) as [[|]|].
Qed.

Lemma correlate_figure_fails_by_key dir f g e :
  figure_key f = figure_key g ->
  correlate_figure dir f = Raise e -> correlate_figure dir g = Raise e.
Proof.
  intros [= Hl Hp]%figure_key_ident.
  unfold correlate_figure, possible_paths. rewrite Hl, Hp.
  destruct (truthy_page _ && truthy_str _); [|done].
  by destruct (first_existing _) as [[path|]|].
Qed.

Lemma correlate_table_idem dir t :
  (t' ← correlate_table dir t; correlate_table dir t')
  = correlate_table dir t.
Proof.
  unfold correlate_table, table_png_path, table_html_path, truthy_page,
    truthy_str.
  destruct t as [sq e [n|] png html]; simpl; [|done].
  destruct (Z.eqb n 0) eqn:Hn; simpl; [by rewrite Hn|].
  destruct (String.eqb e EmptyString) eqn:He; simpl; [by rewrite Hn, He|].
  destruct (path_exists (_ // (e +:+ ".png"))) as [[|]|] eqn:Hpng; simpl;
    [..|done];
    (destruct (path_exists (_ // (e +:+ ".html"))) as [[|]|] eqn:Hhtml; simpl;
     [..|done]);
    rewrite Hn, He; simpl; by rewrite ?Hpng, ?Hhtml.
Qed.

(** X4: deduplication and file correlation commute: correlating first and
    deduplicating after, as the pipeline does, gives the same references as
    deduplicating first, and fails with the same error when a probe fails. *)
Theorem dedup_correlate_commute (references : References)
    (scratch_path : string) :
  (correlated ← correlate_references_with_files references scratch_path;
   Ok (deduplicate_references correlated))
  = correlate_references_with_files
      (deduplicate_references references) scratch_path.
Proof.
  unfold deduplicate_references, correlate_references_with_files. simpl.
  rewrite !dedup_loop_firsts, !app_nil_l.
  rewrite <- (mapM_firsts table_key (correlate_table _) ∅);
    [|apply correlate_table_key|apply correlate_table_fails_by_key
     |set_solver].
  rewrite <- (mapM_firsts figure_key (correlate_figure _) ∅);
    [|apply correlate_figure_key|apply correlate_figure_fails_by_key
     |set_solver].
  destruct (mapM (correlate_table _) _) as [ts|]; [|done]. simpl.
  destruct (mapM (correlate_figure _) _) as [fs|]; [|done]. simpl.
  by rewrite !dedup_loop_firsts, !app_nil_l.
Qed.

Lemma first_existing_exists paths p :
  first_existing paths = Ok (Some p) -> path_exists p = Ok true.
Proof.
  induction paths as [|q paths IH]; simpl; [done|].
  destruct (path_exists q) as [[|]|] eqn:Hq; simpl; [|done..].
  by intros [= <-].
Qed.

Lemma correlate_table_enriched dir t t' :
  correlate_table dir t = Ok t' -> table_enriched t t'.
Proof.
  unfold table_enriched, file_kept_or_found, correlate_table.
  destruct t as [sq e p png html]. simpl.
  destruct (truthy_page p && truthy_str e); simpl;
    [|intros [= <-]; by auto 10].
  destruct (path_exists (table_png_path dir _)) as [[|]|] eqn:Hpng; simpl;
    [..|done];
    (destruct (path_exists (table_html_path dir _)) as [[|]|] eqn:Hhtml;
     simpl; [..|done]);
    intros [= <-]; simpl; repeat split; eauto.
Qed.

Lemma correlate_figure_enriched dir f f' :
  correlate_figure dir f = Ok f' -> figure_enriched f f'.
Proof.
  unfold figure_enriched, file_kept_or_found, correlate_figure.
  destruct (truthy_page (f_page_number f) && truthy_str (label f));
    [|intros [= <-]; by auto 10].
  destruct (first_existing _) as [[path|]|] eqn:Hfirst; simpl; [..|done];
    intros [= <-]; [|by auto 10].
  apply first_existing_exists in Hfirst.
  cbn [f_sub_question label f_page_number f_png_file]. repeat split; eauto.
Qed.

Lemma correlate_figure_idem dir f :
  (f' ← correlate_figure dir f; correlate_figure dir f')
  = correlate_figure dir f.
Proof.
  destruct (correlate_figure dir f) as [f'|e] eqn:Hf; [|done]. simpl.
  destruct (correlate_figure_enriched dir f f' Hf) as (Hsq & Hl & Hp & _).
  assert (possible_paths dir f' = possible_paths dir f)
    as Hpaths by (unfold possible_paths; by rewrite Hl, Hp).
  revert Hf. unfold correlate_figure. rewrite Hl, Hp, Hpaths.
  destruct (truthy_page (f_page_number f) && truthy_str (label f));
    [|by intros [= <-]].
  destruct (first_existing _) as [[path|]|]; simpl; [..|done];
    intros [= <-]; [done|by destruct f].
Qed.

(** X3: file correlation is idempotent: correlating an already correlated
    set of references against the same files changes nothing (and when a
    probe fails, both fail with the same error). *)
Theorem correlate_references_idempotent (references : References)
    (scratch_path : string) :
  (correlated ← correlate_references_with_files references scratch_path;
   correlate_references_with_files correlated scratch_path)
  = correlate_references_with_files references scratch_path.
Proof.
  unfold correlate_references_with_files.
  pose proof (mapM_idem (correlate_table (path_of scratch_path))
                (tables references) (correlate_table_idem _)) as Ht.
  pose proof (mapM_idem (correlate_figure (path_of scratch_path))
                (figures references) (correlate_figure_idem _)) as Hf.
  destruct (mapM (correlate_table _) _) as [ts|]; [|done].
  destruct (mapM (correlate_figure _) _) as [fs|]; [|done].
  simpl in *. by rewrite Ht, Hf.
Qed.

Lemma correlation_enriched (references out : References)
    (scratch_path : string) :
  correlate_references_with_files references scratch_path = Ok out ->
  Forall2 table_enriched (tables references) (tables out) /\
  Forall2 figure_enriched (figures references) (figures out).
Proof.
  unfold correlate_references_with_files.
  destruct (mapM (correlate_table _) _) as [ts|] eqn:Hts; [|done]. simpl.
  destruct (mapM (correlate_figure _) _) as [fs|] eqn:Hfs; [|done]. simpl.
  intros [= <-]. simpl. split.
  - eapply mapM_impl; [|exact Hts]. apply correlate_table_enriched.
  - eapply mapM_impl; [|exact Hfs]. apply correlate_figure_enriched.
Qed.

(** X5: when the file correlation returns, that is when no probe fails, it
    has kept the number and order of the references and, in each one, the
    sub-question, the identifier and the page number; a file field is either
    left as it was or set to the path of a file that exists, so no file that
    is absent is ever attached and no attached file is dropped. *)
Theorem correlate_references_enriches (references out : References)
    (scratch_path : string) :
  correlate_references_with_files references scratch_path = Ok out ->
  Forall2 table_enriched (tables references) (tables out) /\
  Forall2 figure_enriched (figures references) (figures out).
Proof. apply correlation_enriched. Qed.

End CorrelationAlgebra.

Lemma correlate_references_enriches_witness :
  let fs :=
    list_fs ["scratch/service_manual_long/page_5/tables/table-5-1.html"] in
  let t := mkTableReference "q" "table-5-1" (Some 5) None None in
  let f := mkFigureReference "q" "figure-5-1" (Some 5) (Some "old.png") in
  Forall2 (table_enriched (H := fs)) [t]
    [mkTableReference "q" "table-5-1" (Some 5) None
       (Some "scratch/service_manual_long/page_5/tables/table-5-1.html")] /\
  Forall2 (figure_enriched (H := fs)) [f] [f].
Proof.
  intros fs t f.
  exact (correlate_references_enriches (FS := fs)
           (mkReferences [t] [f]) _ default_scratch_path eq_refl).
Defined.

(** ** Further properties of the formatter and the extractors *)

Lemma format_point_cases (p : ScoredPoint) (r : pydict) :
  BaseQdrantRetriever.format_point p = Ok r ->
  (dict_lookup "full_page_metadata" (pt_payload p) = None /\
   r = base_record p) \/
  (exists md,
     dict_lookup "full_page_metadata" (pt_payload p) = Some (PDict md) /\
     r = base_record p ++ promoted_fields md).
Proof.
  unfold BaseQdrantRetriever.format_point, dict_mem, dict_item.
  destruct (dict_lookup "full_page_metadata" (pt_payload p)) as [v|].
  - destruct v as [| | | | | |md]; try done. simpl.
    intros [= <-]. right. by exists md.
  - intros [= <-]. by left.
Qed.

(** X6: the record of the base formatter has exactly the eighteen documented
    keys, in a fixed order, when the payload has no full_page_metadata, and
    these followed by page_visual_description, content_elements, text_content
    and text_file, read from the nested metadata with the defaults None, the
    empty list, None and None, when it has one. *)
Theorem format_point_keys (p : ScoredPoint) (r : pydict) :
  BaseQdrantRetriever.format_point p = Ok r ->
  match dict_lookup "full_page_metadata" (pt_payload p) with
  | None =>
      dict_keys r
      = ["score"; "id"; "payload"; "text"; "page_number"; "document_title";
         "document_id"; "section_title"; "subsection_title"; "manufacturer";
         "models_covered"; "entities"; "keywords"; "warnings"; "has_tables";
         "has_figures"; "table_count"; "figure_count"]
  | Some v =>
      exists md,
        v = PDict md /\
        dict_keys r
        = ["score"; "id"; "payload"; "text"; "page_number"; "document_title";
           "document_id"; "section_title"; "subsection_title"; "manufacturer";
           "models_covered"; "entities"; "keywords"; "warnings"; "has_tables";
           "has_figures"; "table_count"; "figure_count";
           "page_visual_description"; "content_elements"; "text_content";
           "text_file"] /\
        dict_lookup "page_visual_description" r
          = Some (dict_get md "page_visual_description" PNone) /\
        dict_lookup "content_elements" r
          = Some (dict_get md "content_elements" (PList [])) /\
        dict_lookup "text_content" r
          = Some (dict_get md "text_content" PNone) /\
        dict_lookup "text_file" r = Some (dict_get md "text_file" PNone)
  end.
Proof.
  intros [[-> ->]|(md & -> & ->)]%format_point_cases; [done|].
  exists md. by repeat split.
Qed.

Lemma format_point_keys_witness :
  exists md,
    PDict [("text_file", PStr "p5.txt")] = PDict md /\
    dict_lookup "text_file"
      (base_record (mkScoredPoint (PInt 7) (PInt 1)
         [("full_page_metadata", PDict [("text_file", PStr "p5.txt")])])
       ++ promoted_fields [("text_file", PStr "p5.txt")])
    = Some (dict_get md "text_file" PNone).
Proof.
  destruct (format_point_keys
              (mkScoredPoint (PInt 7) (PInt 1)
                 [("full_page_metadata", PDict [("text_file", PStr "p5.txt")])])
              _ eq_refl) as (md & Hmd & _ & _ & _ & _ & Hfile).
  exists md. split; [exact Hmd|exact Hfile].
Defined.

Section ExtractorEdges.

Context {V : Pydantic}.

Lemma lacks_scanned_keys_lookup r :
  lacks_scanned_keys r = true ->
  dict_lookup "content_elements" r = None /\
  dict_lookup "flattened_tables" r = None /\
  dict_lookup "table_metadata" r = None /\
  dict_lookup "content_summary" r = None.
Proof.
  unfold lacks_scanned_keys, scanned_keys, dict_mem. simpl.
  repeat (destruct (dict_lookup _ r); simpl; try done).
Qed.

Lemma extractors_lacking sub_question r :
  lacks_scanned_keys r = true ->
  ContentElementsExtractor.extract r sub_question = Ok ([], []) /\
  FlattenedTablesExtractor.extract r sub_question = Ok ([], []) /\
  TableMetadataExtractor.extract r sub_question = Ok ([], []) /\
  ContentSummaryExtractor.extract r sub_question = Ok ([], []) /\
  WithinPageRelationsExtractor.extract r sub_question = Ok ([], []).
Proof.
  intros (Hc & Hf & Hm & Hs)%lacks_scanned_keys_lookup.
  unfold ContentElementsExtractor.extract,
    FlattenedTablesExtractor.extract, TableMetadataExtractor.extract,
    ContentSummaryExtractor.extract, WithinPageRelationsExtractor.extract,
    dict_get.
  by rewrite Hc, Hf, Hm, Hs.
Qed.

Lemma extract_result_lacking sub_question acc r :
  lacks_scanned_keys r = true -> extract_result sub_question acc r = Ok acc.
Proof.
  intros (Hc & Hf & Hm & Hs & Hw)%(extractors_lacking sub_question).
  destruct acc as [a1 a2]. unfold extract_result, extractors. simpl.
  rewrite Hc. simpl. rewrite Hf. simpl. rewrite Hm. simpl.
  rewrite Hs. simpl. rewrite Hw. simpl. by rewrite !app_nil_r.
Qed.

(** X7: a result that has none of the keys content_elements,
    flattened_tables, table_metadata and content_summary gives no reference
    and no error, whatever else it holds, also a page number of any type:
    each of the five extractors returns two empty lists. *)
Theorem extractors_on_missing_keys (result : pydict) (sub_question : string) :
  lacks_scanned_keys result = true ->
  Forall (fun extractor => extractor result sub_question = Ok ([], []))
    extractors.
Proof.
  intros (Hc & Hf & Hm & Hs & Hw)%(extractors_lacking sub_question).
  unfold extractors. by repeat constructor.
Qed.

(** X8: a key that is present with the value None, or with a boolean or a
    number, is not treated as missing: the extractor that iterates it raises
    TypeError, for content_elements, flattened_tables and table_metadata
    alike. *)
Theorem extractors_on_non_iterable (result : pydict) (sub_question : string)
    (v : pyval) :
  not_iterable v = true ->
  (dict_lookup "content_elements" result = Some v ->
   ContentElementsExtractor.extract result sub_question = Raise TypeError /\
   WithinPageRelationsExtractor.extract result sub_question
     = Raise TypeError) /\
  (dict_lookup "flattened_tables" result = Some v ->
   FlattenedTablesExtractor.extract result sub_question = Raise TypeError) /\
  (dict_lookup "table_metadata" result = Some v ->
   TableMetadataExtractor.extract result sub_question = Raise TypeError).
Proof.
  intros Hv.
  unfold ContentElementsExtractor.extract, FlattenedTablesExtractor.extract,
    TableMetadataExtractor.extract, WithinPageRelationsExtractor.extract,
    dict_get.
  split; [intros ->; split; by destruct v|].
  split; intros ->; by destruct v.
Qed.

End ExtractorEdges.

Lemma extractors_on_missing_keys_witness :
  Forall (fun extractor =>
            extractor [("page_number", PStr "five"); ("payload", PDict [])] "q"
            = Ok ([], []))
    (extractors (V := strict_pydantic)).
Proof. by apply extractors_on_missing_keys. Defined.

Lemma extractors_on_non_iterable_witness :
  ContentElementsExtractor.extract (H := strict_pydantic)
    [("content_elements", PNone)] "q" = Raise TypeError.
Proof.
  by apply (extractors_on_non_iterable (V := strict_pydantic)
              [("content_elements", PNone)] "q" PNone).
Defined.

(** ** Formatted results through the extraction pipeline *)

Lemma base_formatted_lookups (p : ScoredPoint) (r : pydict) :
  BaseQdrantRetriever.format_point p = Ok r ->
  dict_lookup "flattened_tables" r = None /\
  dict_lookup "table_metadata" r = None /\
  dict_lookup "content_summary" r = None /\
  dict_lookup "page_number" r
    = Some (dict_get (pt_payload p) "page_number" PNone).
Proof.
  by intros [[_ ->]|(md & _ & ->)]%format_point_cases.
Qed.

(** X9: on a record produced by the base formatter the extractors of
    flattened_tables, table_metadata and content_summary never find
    anything: these keys stay inside the record's payload and are not
    promoted, so the three extractors return empty lists for every point. *)
Theorem formatted_record_hides_payload_sources `{Pydantic} (p : ScoredPoint)
    (r : pydict) (sub_question : string) :
  BaseQdrantRetriever.format_point p = Ok r ->
  FlattenedTablesExtractor.extract r sub_question = Ok ([], []) /\
  TableMetadataExtractor.extract r sub_question = Ok ([], []) /\
  ContentSummaryExtractor.extract r sub_question = Ok ([], []).
Proof.
  intros (Hf & Hm & Hs & _)%base_formatted_lookups.
  unfold FlattenedTablesExtractor.extract, TableMetadataExtractor.extract,
    ContentSummaryExtractor.extract, dict_get.
  by rewrite Hf, Hm, Hs.
Qed.

Lemma formatted_record_hides_payload_sources_witness :
  let p := mkScoredPoint (PInt 1) (PInt 3)
             [("flattened_tables", PList [PDict [("table_id", PStr "t-1")]])] in
  FlattenedTablesExtractor.extract (H := strict_pydantic)
    (base_record p) "q" = Ok ([], []) /\
  FlattenedTablesExtractor.extract (H := strict_pydantic)
    (pt_payload p) "q"
  = Ok ([mkTableReference "q" "t-1" None None None], []).
Proof.
  intros p. split; [|reflexivity].
  by apply (formatted_record_hides_payload_sources (H := strict_pydantic) p
              (base_record p) "q").
Defined.

Section FormattedThroughPipeline.

Context {V : Pydantic} {FS : FileSystem}.

Lemma for_each_unchanged {A S} (l : list A) (body : S -> A -> res S) s :
  (forall s x, x ∈ l -> body s x = Ok s) -> for_each l body s = Ok s.
Proof.
  induction l as [|x l IH]; intros Hbody; simpl; [done|].
  rewrite Hbody by left. simpl. apply IH. intros; apply Hbody; by right.
Qed.

Lemma extract_all_lacking relevant_points :
  Forall (fun '(_, results) =>
            Forall (fun r => lacks_scanned_keys r = true) results)
    relevant_points ->
  extract_all relevant_points = Ok ([], []).
Proof.
  intros Hall. unfold extract_all. apply for_each_unchanged.
  intros acc [sq results] Hin.
  rewrite Forall_forall in Hall. specialize (Hall _ Hin). simpl in Hall.
  apply for_each_unchanged. intros acc' r Hr.
  apply extract_result_lacking. rewrite Forall_forall in Hall. by apply Hall.
Qed.

Lemma extract_references_of_fusion relevant_points :
  Forall (fun '(_, results) =>
            exists points,
              FusionybridRetriever._format_results points = Ok results)
    relevant_points ->
  extract_references relevant_points = Ok (mkReferences [] []).
Proof.
  intros Hall. unfold extract_references.
  rewrite extract_all_lacking; [done|].
  eapply Forall_impl; [exact Hall|]. intros [sq results] [points [= <-]].
  apply Forall_forall. by intros r (p & -> & _)%list_elem_of_fmap.
Qed.

(** X10: no reference is ever extracted from the output of the Fusion
    variant: its records hold id, score and payload only, so for every
    mapping whose result lists come from the Fusion formatter the pipeline
    returns empty tables and empty figures, without raising. *)
Theorem fusion_results_give_no_references
    (relevant_points : list (string * list pydict)) :
  Forall (fun '(_, results) =>
            exists points,
              FusionybridRetriever._format_results points = Ok results)
    relevant_points ->
  extract_references relevant_points = Ok (mkReferences [] []).
Proof. apply extract_references_of_fusion. Qed.

End FormattedThroughPipeline.

Lemma fusion_results_give_no_references_witness :
  let payload := [
    ("page_number", PInt 5);
    ("full_page_metadata",
     PDict [("content_elements",
             PList [PDict [("type", PStr "table");
                           ("element_id", PStr "table-5-1")]])]) ] in
  let points := [mkScoredPoint (PInt 1) (PInt 3) payload] in
  extract_references (V := strict_pydantic) (FS := list_fs [])
    [("q", map FusionybridRetriever.format_point points)]
  = Ok (mkReferences [] []) /\
  exists formatted,
    BaseQdrantRetriever._format_results points = Ok formatted /\
    extract_references (V := strict_pydantic) (FS := list_fs [])
      [("q", formatted)]
    = Ok (mkReferences
            [mkTableReference "q" "table-5-1" (Some 5) None None] []).
Proof.
  intros payload points. split.
  - apply fusion_results_give_no_references.
    repeat constructor. by exists points.
  - eexists. split; reflexivity.
Defined.

Lemma valid_ids_code_points fuel s :
  valid_ids (map PStr (code_points_aux fuel s)) = code_points_aux fuel s.
Proof.
  revert s. induction fuel as [|fuel IH]; intros [|c s]; try done.
  cbn [code_points_aux map].
  change (PStr ?p :: ?l) with ([PStr p] ++ l).
  rewrite valid_ids_app, IH. unfold valid_ids. simpl.
  rewrite bool_decide_true; [done|]. split; [done|].
  intros [= -> Hrest]. vm_compute in Hrest. done.
Qed.

Example code_points_of_text :
  code_points "f-2" = ["f"; "-"; "2"] /\
  code_points "é2" = ["é"; "2"] /\
  code_points "図1" = ["図"; "1"].
Proof. repeat split; vm_compute; reflexivity. Qed.

(** X11: when content_summary.figures is one string instead of a list of
    strings, the extractor iterates its characters: it returns one figure
    reference per character of the string, labelled with that character. *)
Theorem content_summary_string_is_split `{Pydantic} (result summary : pydict)
    (sub_question s : string) :
  is_page (dict_get result "page_number" PNone) = true ->
  dict_lookup "content_summary" result = Some (PDict summary) ->
  dict_lookup "figures" summary = Some (PStr s) ->
  ContentSummaryExtractor.extract result sub_question
  = Ok ([], figure_refs sub_question
              (page_value (dict_get result "page_number" PNone))
              (code_points s)).
Proof.
  intros Hpage Hsummary Hfigures.
  unfold ContentSummaryExtractor.extract, dict_get.
  rewrite Hsummary. simpl. unfold dict_get. rewrite Hfigures. simpl.
  rewrite (for_each_append (fun x =>
    figure_refs sub_question
      (page_value (dict_get result "page_number" PNone)) (valid_ids [x]))).
  - simpl.
    rewrite (refs_concat
               (figure_refs sub_question
                  (page_value (dict_get result "page_number" PNone)))
               (fun x => [x])); [|done|apply map_app].
    unfold code_points.
    by rewrite concat_singletons, map_id, valid_ids_code_points.
  - intros acc x (c & -> & _)%list_elem_of_fmap. by apply figure_step.
Qed.

Lemma content_summary_string_is_split_witness :
  ContentSummaryExtractor.extract (H := strict_pydantic)
    [("page_number", PInt 9);
     ("content_summary", PDict [("figures", PStr "é-2")])] "q"
  = Ok ([], [ mkFigureReference "q" "é" (Some 9) None;
              mkFigureReference "q" "-" (Some 9) None;
              mkFigureReference "q" "2" (Some 9) None ]).
Proof.
  by apply (content_summary_string_is_split (H := strict_pydantic)
              [("page_number", PInt 9);
               ("content_summary", PDict [("figures", PStr "é-2")])]
              [("figures", PStr "é-2")] "q" "é-2").
Defined.

(** ** Composition of the extraction loops *)

Lemma for_each_shift {A} (G : A -> res extraction)
    (body : extraction -> A -> res extraction) l :
  (forall acc x, body acc x = out ← G x; Ok (append_extraction acc out)) ->
  forall acc,
    for_each l body acc
    = out ← for_each l body ([], []); Ok (append_extraction acc out).
Proof.
  intros Hbody. induction l as [|x l IH]; intros acc; simpl.
  - destruct acc. unfold append_extraction. simpl. by rewrite !app_nil_r.
  - rewrite !Hbody. destruct (G x) as [out|]; simpl; [|done].
    rewrite (IH (append_extraction acc out)),
      (IH (append_extraction ([], []) out)).
    destruct (for_each l body ([], [])) as [rest|]; simpl; [|done].
    destruct acc, out, rest. unfold append_extraction. simpl.
    by rewrite !app_assoc.
Qed.

Section PipelineComposition.

Context {V : Pydantic} {FS : FileSystem}.

Lemma extract_result_shift sub_question acc r :
  extract_result sub_question acc r
  = out ← extract_result sub_question ([], []) r;
    Ok (append_extraction acc out).
Proof.
  unfold extract_result.
  apply (for_each_shift (fun extractor => extractor r sub_question)).
  intros [a1 a2] extractor. by destruct (extractor r sub_question) as [[t f]|].
Qed.

Lemma extract_results_shift sub_question results acc :
  for_each results (extract_result sub_question) acc
  = out ← for_each results (extract_result sub_question) ([], []);
    Ok (append_extraction acc out).
Proof.
  apply (for_each_shift (extract_result sub_question ([], []))).
  intros. apply extract_result_shift.
Qed.

(** X12: the extraction loops only ever append: extracting from the
    concatenation of two mappings gives the tables and figures of the first
    followed by those of the second, and raises exactly when one of the two
    extractions raises, the first one's error coming first. *)
Theorem extract_all_app (rp1 rp2 : list (string * list pydict)) :
  extract_all (rp1 ++ rp2)
  = a ← extract_all rp1; b ← extract_all rp2; Ok (append_extraction a b).
Proof.
  unfold extract_all. rewrite for_each_app.
  match goal with
  | |- context [for_each rp1 ?body ?s] =>
      destruct (for_each rp1 body s) as [a|]; simpl; [|done]
  end.
  apply (for_each_shift
           (fun '(sub_question, results) =>
              for_each results (extract_result sub_question) ([], []))).
  intros acc [sub_question results]. apply extract_results_shift.
Qed.

Lemma extract_references_shape relevant_points refs :
  extract_references relevant_points = Ok refs ->
  exists all_tables all_figures correlated,
    extract_all relevant_points = Ok (all_tables, all_figures) /\
    correlate_references_with_files (mkReferences all_tables all_figures)
      default_scratch_path = Ok correlated /\
    refs = deduplicate_references correlated.
Proof.
  unfold extract_references.
  destruct (extract_all relevant_points) as [[t f]|]; simpl; [|done].
  destruct (correlate_references_with_files _ _) as [correlated|] eqn:Hc;
    simpl; [|done].
  intros [= <-]. by exists t, f, correlated.
Qed.

(** X13: whenever the pipeline returns, its references are free of
    duplicates: no two tables share element ID and page number, no two
    figures share label and page number, and deduplicating the result again
    changes nothing. *)
Theorem extract_references_no_duplicates
    (relevant_points : list (string * list pydict)) (refs : References) :
  extract_references relevant_points = Ok refs ->
  NoDup (table_ident <$> tables refs) /\
  NoDup (figure_ident <$> figures refs) /\
  deduplicate_references refs = refs.
Proof.
  intros (t & f & correlated & _ & _ & ->)%extract_references_shape.
  pose proof (dedup_first_wins table_key table_ident table_key_ident
                (tables correlated)) as (_ & Ht & _).
  pose proof (dedup_first_wins figure_key figure_ident figure_key_ident
                (figures correlated)) as (_ & Hf & _).
  split; [done|]. split; [done|].
  unfold deduplicate_references; simpl.
  rewrite !dedup_loop_firsts, !app_nil_l. by rewrite !firsts_idem.
Qed.

Lemma elem_of_expected_all_tables relevant_points t :
  t ∈ expected_all_tables relevant_points ->
  t_sub_question t ∈ relevant_points.*1 /\
  element_id t <> EmptyString /\ element_id t <> "None".
Proof.
  unfold expected_all_tables.
  intros (l & Hl & Ht)%elem_of_concat.
  apply list_elem_of_fmap in Hl as ([sq results] & -> & Hin).
  apply elem_of_concat in Ht as (l' & Hl' & Ht).
  apply list_elem_of_fmap in Hl' as (r & -> & Hr).
  unfold expected_tables, table_refs in Ht.
  apply list_elem_of_fmap in Ht as (s & -> & Hs).
  apply elem_of_valid_ids in Hs as (_ & ? & ?). simpl.
  split; [|done]. apply list_elem_of_fmap. by exists (sq, results).
Qed.

Lemma elem_of_expected_all_figures relevant_points f :
  f ∈ expected_all_figures relevant_points ->
  f_sub_question f ∈ relevant_points.*1 /\
  label f <> EmptyString /\ label f <> "None".
Proof.
  unfold expected_all_figures.
  intros (l & Hl & Hf)%elem_of_concat.
  apply list_elem_of_fmap in Hl as ([sq results] & -> & Hin).
  apply elem_of_concat in Hf as (l' & Hl' & Hf).
  apply list_elem_of_fmap in Hl' as (r & -> & Hr).
  unfold expected_figures, figure_refs in Hf.
  apply list_elem_of_fmap in Hf as (s & -> & Hs).
  apply elem_of_valid_ids in Hs as (_ & ? & ?). simpl.
  split; [|done]. apply list_elem_of_fmap. by exists (sq, results).
Qed.

(** X14: on a well-formed mapping, whenever the pipeline returns, its
    references all carry a valid identifier, non-empty and not the string
    "None", and a sub-question that is a key of the mapping. *)
Theorem extracted_references_are_valid
    (relevant_points : list (string * list pydict)) (refs : References) :
  well_formed_points relevant_points = true ->
  extract_references relevant_points = Ok refs ->
  Forall (fun t => t_sub_question t ∈ relevant_points.*1 /\
                   element_id t <> EmptyString /\ element_id t <> "None")
    (tables refs) /\
  Forall (fun f => f_sub_question f ∈ relevant_points.*1 /\
                   label f <> EmptyString /\ label f <> "None")
    (figures refs).
Proof.
  intros Hwf (t & f & correlated & Hall & Hc & ->)%extract_references_shape.
  rewrite (extract_all_ok _ Hwf) in Hall. injection Hall as <- <-.
  apply correlation_enriched in Hc as [Hts Hfs]. simpl in Hts, Hfs.
  unfold deduplicate_references. simpl.
  rewrite !dedup_loop_firsts, !app_nil_l. split; apply Forall_forall.
  - intros t Ht.
    apply (sublist_subseteq _ _ (firsts_sublist table_key ∅ _)) in Ht.
    apply list_elem_of_lookup in Ht as [i Hi].
    destruct (Forall2_lookup_r _ _ _ _ _ Hts Hi) as (t0 & Ht0 & Hen).
    destruct Hen as (-> & -> & _).
    apply elem_of_expected_all_tables. by eapply list_elem_of_lookup_2.
  - intros f Hf.
    apply (sublist_subseteq _ _ (firsts_sublist figure_key ∅ _)) in Hf.
    apply list_elem_of_lookup in Hf as [i Hi].
    destruct (Forall2_lookup_r _ _ _ _ _ Hfs Hi) as (f0 & Hf0 & Hen).
    destruct Hen as (-> & -> & _).
    apply elem_of_expected_all_figures. by eapply list_elem_of_lookup_2.
Qed.

End PipelineComposition.

Lemma extract_references_no_duplicates_witness :
  let r := [
    ("page_number", PInt 2);
    ("content_elements", PList [
       PDict [("type", PStr "table"); ("element_id", PStr "table-2-1")]])
  ] in
  exists refs,
    extract_references (V := strict_pydantic) (FS := list_fs [])
      [("q1", [r; r]); ("q2", [r])] = Ok refs /\
    tables refs = [mkTableReference "q1" "table-2-1" (Some 2) None None] /\
    NoDup (table_ident <$> tables refs).
Proof.
  intros r. eexists. split; [reflexivity|]. split; [reflexivity|].
  by apply (extract_references_no_duplicates
              (V := strict_pydantic) (FS := list_fs [])
              [("q1", [r; r]); ("q2", [r])] _ eq_refl).
Defined.

Lemma extracted_references_are_valid_witness :
  let r := [
    ("page_number", PInt 2);
    ("content_elements", PList [
       PDict [("type", PStr "table"); ("element_id", PStr "None")];
       PDict [("type", PStr "figure"); ("figure_id", PStr "figure-2-1")]])
  ] in
  let refs :=
    mkReferences [] [mkFigureReference "q1" "figure-2-1" (Some 2) None] in
  extract_references (V := strict_pydantic) (FS := list_fs [])
    [("q1", [r])] = Ok refs /\
  Forall (fun f => f_sub_question f ∈ [("q1", [r])].*1 /\
                   label f <> EmptyString /\ label f <> "None")
    (figures refs).
Proof.
  intros r refs.
  destruct (extracted_references_are_valid
              (V := strict_pydantic) (FS := list_fs []) [("q1", [r])] refs
              eq_refl eq_refl)
    as [_ Hfigures].
  split; [reflexivity|exact Hfigures].
Defined.

(** ** Further properties of the factory and of the embedding input *)

(** X15: the factory needs an OpenAI client only for the Matryoshka variant,
    for which it raises without one; whenever it returns, the retriever is
    the ColBERT, Hybrid or Matryoshka one of the tag, built on the given
    configuration, and never the Fusion one. *)
Theorem create_retriever_inversion (config : RetrievalConfig) :
  RetrieverFactory.create_retriever SearchType.COLBERT config None
    = Ok (NewColbertRetriever config) /\
  RetrieverFactory.create_retriever SearchType.HYBRID config None
    = Ok (NewHybridRetriever config) /\
  RetrieverFactory.create_retriever SearchType.MATRIOSKA config None
    = Raise (ValueError "OpenAI client required for matrioska search") /\
  forall tag client r,
    RetrieverFactory.create_retriever tag config client = Ok r ->
    (tag = SearchType.COLBERT /\ r = NewColbertRetriever config) \/
    (tag = SearchType.HYBRID /\ r = NewHybridRetriever config) \/
    (tag = SearchType.MATRIOSKA /\
     exists c, client = Some c /\ r = NewMatrioskaRetriever c config).
Proof.
  do 3 (split; [reflexivity|]).
  intros tag client r. unfold RetrieverFactory.create_retriever.
  destruct (String.eqb_spec tag SearchType.COLBERT) as [->|];
    [intros [= <-]; by left|].
  destruct (String.eqb_spec tag SearchType.HYBRID) as [->|];
    [intros [= <-]; right; by left|].
  destruct (String.eqb_spec tag SearchType.MATRIOSKA) as [->|]; [|done].
  destruct client as [c|]; [|done]. intros [= <-]. right; right. eauto.
Qed.

Lemma replace_newlines_no_newline text :
  str_mem "010"%char (replace_newlines text) = false.
Proof.
  induction text as [|c text IH]; simpl; [done|]. rewrite IH.
  by destruct (Ascii.eqb_spec c "010"%char) as [->|]; simpl;
    [|destruct (Ascii.eqb_spec c "010"%char)].
Qed.

Lemma replace_newlines_length text :
  String.length (replace_newlines text) = String.length text.
Proof. induction text as [|c text IH]; simpl; congruence. Qed.

Lemma replace_newlines_idem text :
  replace_newlines (replace_newlines text) = replace_newlines text.
Proof.
  induction text as [|c text IH]; simpl; [done|]. rewrite IH. f_equal.
  by destruct (Ascii.eqb_spec c "010"%char) as [->|Hc]; simpl;
    [|destruct (Ascii.eqb_spec c "010"%char)].
Qed.

(** X16: the text that _get_openai_embedding sends to the embeddings
    endpoint never contains a newline and has the length of the query; the
    replacement is idempotent, so a query and its newline-free form get the
    same embedding. *)
Theorem openai_embedding_input_has_no_newline (cl : Clients)
    (text model : string) (dimensions : Z) :
  _get_openai_embedding cl text model dimensions
    = embeddings_create cl (replace_newlines text) model dimensions /\
  str_mem "010"%char (replace_newlines text) = false /\
  String.length (replace_newlines text) = String.length text /\
  _get_openai_embedding cl (replace_newlines text) model dimensions
    = _get_openai_embedding cl text model dimensions.
Proof.
  split; [done|]. split; [apply replace_newlines_no_newline|].
  split; [apply replace_newlines_length|].
  unfold _get_openai_embedding. by rewrite replace_newlines_idem.
Qed.

(** ** The retrieval service *)

Lemma results_get_set {V} (k k' : string) (v : V) d :
  results_get k' (results_set k v d)
  = if String.eqb k' k then Some v else results_get k' d.
Proof.
  induction d as [|[k0 v0] d IH]; simpl.
  - by destruct (String.eqb k' k).
  - destruct (String.eqb_spec k k0) as [->|Hk]; simpl.
    + by destruct (String.eqb k' k0).
    + rewrite IH. destruct (String.eqb_spec k' k0) as [->|]; [|done].
      by destruct (String.eqb_spec k0 k) as [->|].
Qed.

Lemma results_set_keys {V} (k : string) (v : V) d :
  (results_set k v d).*1 = if bool_decide (k ∈ d.*1) then d.*1 else d.*1 ++ [k].
Proof.
  induction d as [|[k0 v0] d IH]; [done|]. cbn [results_set].
  destruct (String.eqb_spec k k0) as [->|Hk]; rewrite !fmap_cons; cbn [fst].
  - rewrite bool_decide_true; [done|by left].
  - rewrite IH. case_bool_decide as Hin.
    + rewrite bool_decide_true; [done|by right].
    + rewrite bool_decide_false; [done|].
      intros [?|?]%elem_of_cons; done.
Qed.

Lemma results_set_NoDup {V} (k : string) (v : V) d :
  NoDup d.*1 -> NoDup (results_set k v d).*1.
Proof.
  intros Hd. rewrite results_set_keys. case_bool_decide; [done|].
  apply NoDup_app. split; [done|]. split; [|apply NoDup_singleton].
  intros x Hx ->%list_elem_of_singleton. done.
Qed.

Lemma results_set_Forall {V} (P : string * V -> Prop) k v d :
  P (k, v) -> Forall P d -> Forall P (results_set k v d).
Proof.
  intros Hkv. induction 1 as [|[k0 v0] d H0 Hd IH]; simpl.
  - by constructor.
  - destruct (String.eqb k k0); by constructor.
Qed.

Section ServiceFacts.

Variable decompose_query : string -> res QueryDecompositionResponse.
Variable collection_name : string.

(** X17: the service fails fast: when the decomposition fails, or the
    retrieval of any one sub-question raises, or there is no retriever
    strategy while there is a sub-question, _retrieve_points raises and
    returns no partial mapping; without a strategy and without
    sub-questions it returns the empty mapping. *)
Theorem retrieve_points_fail_fast
    (retriever_strategy : option (string -> string -> res (list pydict)))
    (query : string) :
  (raises (decompose_query query) ->
   raises (RetrievalService._retrieve_points decompose_query
             retriever_strategy collection_name query)) /\
  (forall d m,
     decompose_query query = Ok d -> m ∈ decomposed_questions d ->
     match retriever_strategy with
     | Some retrieve => raises (retrieve (sqm_sub_question m) collection_name)
     | None => True
     end ->
     raises (RetrievalService._retrieve_points decompose_query
               retriever_strategy collection_name query)) /\
  (forall d,
     decompose_query query = Ok d -> decomposed_questions d = [] ->
     RetrievalService._retrieve_points decompose_query retriever_strategy
       collection_name query = Ok []).
Proof.
  unfold RetrievalService._retrieve_points. split; [|split].
  - intros [e ->]. by exists e.
  - intros d m -> Hm Hraise. simpl.
    apply (for_each_raises _ _ m); [done|]. intros results.
    destruct retriever_strategy as [retrieve|]; [|by exists AttributeError].
    destruct Hraise as [e ->]. by exists e.
  - intros d -> Hq. simpl. by rewrite Hq.
Qed.

Variable retrieve : string -> string -> res (list pydict).

Lemma retrieve_loop (qs : list SubQuestionMapping) acc :
  (forall m, m ∈ qs -> returns (retrieve (sqm_sub_question m) collection_name)) ->
  exists results,
    for_each qs (fun results m =>
      let sub_question := sqm_sub_question m in
      r ← retrieve sub_question collection_name;
      Ok (results_set sub_question r results)) acc = Ok results /\
    (NoDup acc.*1 -> NoDup results.*1) /\
    forall k,
      results_get k results
      = if bool_decide (k ∈ map sqm_sub_question qs)
        then match retrieve k collection_name with
             | Ok r => Some r
             | Raise _ => None
             end
        else results_get k acc.
Proof.
  revert acc. induction qs as [|x qs IH]; intros acc Hall.
  { exists acc. by repeat split. }
  destruct (Hall x) as [rx Hx]; [by left|]. simpl. rewrite Hx. simpl.
  destruct (IH (results_set (sqm_sub_question x) rx acc))
    as (results & Hres & Hnd & Hget).
  { intros; apply Hall; by right. }
  exists results. split; [exact Hres|].
  split; [intros; by apply Hnd, results_set_NoDup|].
  intros k. rewrite Hget. case_bool_decide as Hin.
  - rewrite bool_decide_true; [done|by right].
  - rewrite results_get_set.
    destruct (String.eqb_spec k (sqm_sub_question x)) as [->|Hk].
    + rewrite bool_decide_true; [by rewrite Hx|by left].
    + rewrite bool_decide_false; [done|].
      intros [?|?]%elem_of_cons; done.
Qed.

Lemma retrieve_loop_length (qs : list SubQuestionMapping) acc results :
  for_each qs (fun results m =>
    let sub_question := sqm_sub_question m in
    r ← retrieve sub_question collection_name;
    Ok (results_set sub_question r results)) acc = Ok results ->
  (length results <= length acc + length qs)%nat.
Proof.
  revert acc. induction qs as [|x qs IH]; intros acc; simpl.
  - intros [= <-]. lia.
  - destruct (retrieve _ _) as [rx|]; simpl; [|done].
    intros Hres%IH.
    assert (length (results_set (sqm_sub_question x) rx acc)
            <= S (length acc))%nat; [|lia].
    rewrite <- (length_fmap fst), results_set_keys.
    case_bool_decide; rewrite ?length_app, !length_fmap; simpl; lia.
Qed.

(** X18: when the decomposition and every retrieval succeed,
    _retrieve_points returns a mapping with pairwise distinct keys that
    maps exactly the sub-questions of the decomposition, each one to the
    results retrieved for it; a sub-question that occurs twice gives one
    entry. *)
Theorem retrieve_points_mapping (query : string)
    (d : QueryDecompositionResponse) :
  decompose_query query = Ok d ->
  (forall m, m ∈ decomposed_questions d ->
             returns (retrieve (sqm_sub_question m) collection_name)) ->
  exists results,
    RetrievalService._retrieve_points decompose_query (Some retrieve)
      collection_name query = Ok results /\
    NoDup results.*1 /\
    (length results <= length (decomposed_questions d))%nat /\
    forall k,
      results_get k results
      = if bool_decide (k ∈ map sqm_sub_question (decomposed_questions d))
        then match retrieve k collection_name with
             | Ok r => Some r
             | Raise _ => None
             end
        else None.
Proof.
  intros Hd Hall. unfold RetrievalService._retrieve_points.
  rewrite Hd. simpl.
  destruct (retrieve_loop (decomposed_questions d) [] Hall)
    as (results & Hres & Hnd & Hget).
  exists results. split; [done|]. split; [apply Hnd; constructor|].
  split; [|done].
  apply retrieve_loop_length in Hres. simpl in Hres. done.
Qed.

End ServiceFacts.

Lemma retrieve_points_mapping_witness :
  let decompose := fun q : string =>
    Ok (mkQueryDecompositionResponse q
          [ mkSubQuestionMapping "brakes" 4 "Axles" ["Brakes"];
            mkSubQuestionMapping "tyres" 4 "Axles" ["Wheels"];
            mkSubQuestionMapping "brakes" 5 "Hydraulics" ["Valves"] ]) in
  let retrieve := fun (q coll : string) => Ok [[("text", PStr q)]] in
  exists results,
    RetrievalService._retrieve_points decompose (Some retrieve)
      "hybrid_collection" "question" = Ok results /\
    NoDup results.*1 /\ (length results <= 3)%nat.
Proof.
  intros decompose retrieve.
  destruct (retrieve_points_mapping decompose "hybrid_collection" retrieve
              "question" _ eq_refl) as (results & Hres & Hnd & Hlen & _).
  { intros m _. by eexists. }
  by exists results.
Defined.

Section FusionService.

Context {V : Pydantic} {FS : FileSystem}.

Lemma fusion_retrieve_formatted cl query limit prefetch_limit coll out :
  FusionybridRetriever.retrieve cl query limit prefetch_limit coll = Ok out ->
  exists points, FusionybridRetriever._format_results points = Ok out.
Proof.
  unfold FusionybridRetriever.retrieve.
  repeat (match goal with
          | |- context [mbind _ ?m] => destruct m; simpl; [|done]
          end).
  intros Hout. eauto.
Qed.

Lemma fusion_loop_formatted cl coll (qs : list SubQuestionMapping) acc results :
  Forall (fun '(_, rs) =>
            exists points, FusionybridRetriever._format_results points = Ok rs)
    acc ->
  for_each qs (fun results m =>
    let sub_question := sqm_sub_question m in
    r ← fusion_strategy cl sub_question coll;
    Ok (results_set sub_question r results)) acc = Ok results ->
  Forall (fun '(_, rs) =>
            exists points, FusionybridRetriever._format_results points = Ok rs)
    results.
Proof.
  revert acc. induction qs as [|x qs IH]; intros acc Hacc; simpl.
  - by intros [= <-].
  - destruct (fusion_strategy cl (sqm_sub_question x) coll) as [r|] eqn:Hr;
      simpl; [|done].
    apply IH. apply results_set_Forall; [|done].
    unfold fusion_strategy in Hr. by apply fusion_retrieve_formatted in Hr.
Qed.

(** X19: with the Fusion variant as its strategy the service never returns
    a reference: whenever answer_question returns, its references are the
    empty tables and the empty figures, whatever the store holds. *)
Theorem fusion_service_has_no_references
    (decompose_query : string -> res QueryDecompositionResponse)
    (cl : Clients) (collection_name : string)
    (chat : string -> list (string * list pydict) -> res string)
    (user_question answer : string) (references : pydict) :
  RetrievalService.answer_question decompose_query
    (Some (fusion_strategy cl)) collection_name chat user_question
  = Ok (answer, references) ->
  references = [("tables", PList []); ("figures", PList [])].
Proof.
  unfold RetrievalService.answer_question,
    RetrievalService._retrieve_points.
  destruct (decompose_query user_question) as [d|]; simpl; [|done].
  destruct (for_each (decomposed_questions d) _ []) as [rp|] eqn:Hrp;
    simpl; [|done].
  apply fusion_loop_formatted in Hrp; [|constructor].
  unfold extract_tables_and_figures_references.
  rewrite (extract_references_of_fusion rp Hrp). simpl.
  destruct (chat user_question rp); simpl; [|done]. by intros [= _ <-].
Qed.

End FusionService.

Lemma fusion_service_has_no_references_witness :
  let payload := [
    ("page_number", PInt 5);
    ("full_page_metadata",
     PDict [("content_elements",
             PList [PDict [("type", PStr "table");
                           ("element_id", PStr "table-5-1")]])]) ] in
  let cl := stub_clients [mkScoredPoint (PInt 1) (PInt 3) payload] in
  let decompose := fun q : string =>
    Ok (mkQueryDecompositionResponse q
          [mkSubQuestionMapping "brakes" 4 "Axles" ["Brakes"]]) in
  let chat := fun (q : string) (_ : list (string * list pydict)) =>
    Ok "answer" in
  exists answer references,
    RetrievalService.answer_question (H := strict_pydantic) (H0 := list_fs [])
      decompose (Some (fusion_strategy cl)) "hybrid_collection" chat
      "question" = Ok (answer, references) /\
    references = [("tables", PList []); ("figures", PList [])].
Proof.
  intros payload cl decompose chat. eexists _, _. split; [reflexivity|].
  by apply (fusion_service_has_no_references
              (V := strict_pydantic) (FS := list_fs []) decompose cl
              "hybrid_collection" chat "question" "answer").
Defined.

(** ** Batch indexing *)

Lemma py_slice_nat {A} (l : list A) (p : nat) (e : Z) :
  (Z.of_nat p <= e <= Z.of_nat (length l))%Z ->
  py_slice l (Z.of_nat p) e = take (Z.to_nat e - p) (drop p l).
Proof.
  intros He. unfold py_slice.
  destruct (Z.ltb_spec (Z.of_nat p) 0); [lia|].
  destruct (Z.ltb_spec e 0); [lia|].
  rewrite !Z.min_l by lia. rewrite Nat2Z.id. f_equal. lia.
Qed.

Lemma zip3_take {A B C} k (a : list A) (b : list B) (c : list C) :
  zip3 (take k a) (take k b) (take k c) = take k (zip3 a b c).
Proof.
  revert a b c. induction k as [|k IH]; intros [|x a] [|y b] [|z c];
    simpl; try done.
  by rewrite IH.
Qed.

Lemma zip3_drop {A B C} k (a : list A) (b : list B) (c : list C) :
  length a = length b -> length c = length b ->
  zip3 (drop k a) (drop k b) (drop k c) = drop k (zip3 a b c).
Proof.
  revert a b c. induction k as [|k IH]; intros [|x a] [|y b] [|z c];
    simpl; try done.
  intros [= Ha] [= Hc]. by apply IH.
Qed.

Lemma length_zip3 {A B C} (a : list A) (b : list B) (c : list C) :
  length a = length b -> length c = length b ->
  length (zip3 a b c) = length b.
Proof.
  revert b c. induction a as [|x a IH]; intros [|y b] [|z c]; simpl; try done.
  intros [= Ha] [= Hc]. by rewrite IH.
Qed.

Lemma chunks_aux_fuel {A} (f1 f2 n : nat) (l : list A) :
  (1 <= n)%nat -> (length l <= f1)%nat -> (length l <= f2)%nat ->
  chunks_aux f1 n l = chunks_aux f2 n l.
Proof.
  intros Hn. revert f2 l. induction f1 as [|f1 IH]; intros f2 l H1 H2.
  - destruct l; [|simpl in H1; lia]. by destruct f2.
  - destruct l as [|x l]; [by destruct f2|].
    destruct f2 as [|f2]; [simpl in H2; lia|]. simpl. f_equal.
    apply IH; rewrite length_drop; simpl in *; lia.
Qed.

Lemma chunks_cons {A} (n : nat) (l : list A) :
  (1 <= n)%nat -> l <> [] -> chunks n l = take n l :: chunks n (drop n l).
Proof.
  intros Hn Hl. unfold chunks. destruct l as [|x l]; [done|]. simpl.
  f_equal. apply chunks_aux_fuel; [done|..]; rewrite length_drop; simpl; lia.
Qed.

Lemma chunks_aux_concat {A} (fuel n : nat) (l : list A) :
  (1 <= n)%nat -> (length l <= fuel)%nat ->
  concat (chunks_aux fuel n l) = l /\
  Forall (fun c => 1 <= length c <= n)%nat (chunks_aux fuel n l).
Proof.
  intros Hn. revert l. induction fuel as [|fuel IH]; intros l Hl.
  - destruct l; [by split|simpl in Hl; lia].
  - destruct l as [|x l]; [by split|]. cbn [chunks_aux concat].
    destruct (IH (drop n (x :: l))) as [Hconcat Hall].
    { rewrite length_drop. simpl in *. lia. }
    rewrite Hconcat. split; [apply take_drop|].
    constructor; [|done]. rewrite length_take. simpl. lia.
Qed.

Section IndexFacts.

Variable Store : Type.
Variable create_point : Z -> string -> pydict -> res PointStruct.
Variable upsert_points : list PointStruct -> Store -> res Store.
Variable batch_size : Z.
Variable ids : list Z.
Variable documents : list string.
Variable metadata : list pydict.

Local Abbreviation loop :=
  (QdrantIndexer.index_loop Store create_point upsert_points batch_size ids
     documents metadata).

Lemma index_loop_never_ends fuel p failed store :
  (batch_size <= 0)%Z -> documents <> [] -> (p <= 0)%Z ->
  loop fuel p failed store = None.
Proof.
  intros Hbs Hdocs. revert p failed store.
  induction fuel as [|fuel IH]; intros p failed store Hp; [done|].
  assert (0 < Z.of_nat (length documents))%Z
    by (destruct documents; [done|simpl; lia]).
  simpl. destruct (Z.ltb_spec p (Z.of_nat (length documents))); [|lia].
  destruct (QdrantIndexer.upsert_batch _ _ _ _); apply IH; lia.
Qed.


(** X21: with a batch size of zero or less and at least one document,
    index_documents never ends: the loop does not advance, so no number of
    iterations reaches its end. *)
Theorem index_documents_never_ends (fuel : nat) (store : Store) :
  (batch_size <= 0)%Z -> documents <> [] ->
  QdrantIndexer.index_documents Store create_point upsert_points batch_size
    ids documents metadata fuel store = None.
Proof.
  intros Hbs Hdocs. by apply index_loop_never_ends.
Qed.

End IndexFacts.

Lemma take_min_length {A} (l : list A) (b : nat) :
  take (b `min` length l) l = take b l.
Proof.
  destruct (Nat.le_gt_cases b (length l)).
  - by rewrite Nat.min_l.
  - rewrite Nat.min_r by lia. by rewrite !take_ge by lia.
Qed.

Lemma drop_min_length {A} (l : list A) (k : nat) :
  drop (k `min` length l) l = drop k l.
Proof.
  destruct (Nat.le_gt_cases k (length l)).
  - by rewrite Nat.min_l.
  - rewrite Nat.min_r by lia. by rewrite !drop_ge by lia.
Qed.

Section IndexSuccess.

Variable Store : Type.
Variable create_point : Z -> string -> pydict -> res PointStruct.
Variable upsert_points : list PointStruct -> Store -> res Store.
Variable mk : Z -> string -> pydict -> PointStruct.
Variable up : list PointStruct -> Store -> Store.
Variable batch_size : Z.
Variable ids : list Z.
Variable documents : list string.
Variable metadata : list pydict.

Hypothesis ids_length : length ids = length documents.
Hypothesis metadata_length : length metadata = length documents.
Hypothesis batch_size_pos : (1 <= batch_size)%Z.
Hypothesis create_point_ok : forall i d m, create_point i d m = Ok (mk i d m).
Hypothesis upsert_points_ok : forall ps s, upsert_points ps s = Ok (up ps s).

Local Abbreviation items := (zip3 ids documents metadata).
Local Abbreviation point_of :=
  (fun item : Z * string * pydict => mk item.1.1 item.1.2 item.2).
Local Abbreviation upsert_chunk :=
  (fun (s : Store) (c : list (Z * string * pydict)) => up (map point_of c) s).

Lemma upsert_batch_ok batch store :
  QdrantIndexer.upsert_batch Store create_point upsert_points batch store
  = Ok (up (map point_of batch) store).
Proof.
  unfold QdrantIndexer.upsert_batch.
  assert (mapM (fun '(id, doc, md) => create_point id doc md) batch
          = Ok (map point_of batch)) as ->.
  { induction batch as [|[[i d] m] batch IH]; simpl; [done|].
    by rewrite create_point_ok, IH. }
  simpl. apply upsert_points_ok.
Qed.

Lemma batch_at (p : nat) :
  (p < length documents)%nat ->
  let e := Z.min (Z.of_nat p + batch_size) (Z.of_nat (length documents)) in
  zip3 (py_slice ids (Z.of_nat p) e) (py_slice documents (Z.of_nat p) e)
    (py_slice metadata (Z.of_nat p) e)
  = take (Z.to_nat batch_size) (drop p items) /\
  drop (Z.to_nat e) items = drop (Z.to_nat batch_size) (drop p items).
Proof.
  intros Hp e.
  assert (Z.of_nat p <= e <= Z.of_nat (length documents))%Z by (unfold e; lia).
  rewrite !py_slice_nat by (rewrite ?ids_length, ?metadata_length; lia).
  rewrite zip3_take, zip3_drop by done.
  assert (length (drop p items) = length documents - p)%nat as Hlen
    by (by rewrite length_drop, length_zip3).
  assert (length items = length documents) as Hitems by (by apply length_zip3).
  split.
  - rewrite <- (take_min_length (drop p items) (Z.to_nat batch_size)).
    f_equal. rewrite Hlen. unfold e. lia.
  - rewrite drop_drop, <- (drop_min_length items (p + Z.to_nat batch_size)).
    f_equal. rewrite Hitems. unfold e. lia.
Qed.

Lemma index_loop_success fuel (p : nat) failed store :
  (p <= length documents)%nat -> (length documents - p < fuel)%nat ->
  QdrantIndexer.index_loop Store create_point upsert_points batch_size ids
    documents metadata fuel (Z.of_nat p) failed store
  = Some (failed,
          fold_left upsert_chunk
            (chunks (Z.to_nat batch_size) (drop p items)) store).
Proof.
  revert p failed store.
  induction fuel as [|fuel IH]; intros p failed store Hp Hfuel; [lia|].
  assert (length items = length documents) as Hitems by (by apply length_zip3).
  simpl.
  destruct (Z.ltb_spec (Z.of_nat p) (Z.of_nat (length documents))) as [Hlt|Hge].
  - destruct (batch_at p) as [Hbatch Hdrop]; [lia|].
    rewrite Hbatch, upsert_batch_ok.
    set (e := Z.min (Z.of_nat p + batch_size) (Z.of_nat (length documents)))
      in *.
    pose proof (IH (Z.to_nat e) failed
                  (up (map point_of
                         (take (Z.to_nat batch_size) (drop p items))) store))
      as Hloop.
    rewrite Z2Nat.id in Hloop by (unfold e; lia).
    rewrite Hloop by (unfold e; lia).
    rewrite Hdrop, (chunks_cons _ (drop p items)); [done|lia|].
    intros Hnil. apply (f_equal length) in Hnil.
    rewrite length_drop, Hitems in Hnil. simpl in Hnil. lia.
  - rewrite drop_ge by lia. done.
Qed.

(** X22: when the three lists have the same length, the batch size is at
    least one and neither point creation nor the upsert fails,
    index_documents ends with no failed batch, having upserted every
    document exactly once and in order, in consecutive batches of at most
    batch_size points, each batch not empty. *)
Theorem index_documents_upserts_all (store : Store) :
  let batches := chunks (Z.to_nat batch_size) items in
  QdrantIndexer.index_documents Store create_point upsert_points batch_size
    ids documents metadata (S (length documents)) store
  = Some ([], fold_left upsert_chunk batches store) /\
  concat batches = items /\
  Forall (fun c => 1 <= length c <= Z.to_nat batch_size)%nat batches.
Proof.
  intros batches. split.
  - apply (index_loop_success (S (length documents)) 0 [] store); lia.
  - apply chunks_aux_concat; lia.
Qed.

End IndexSuccess.

Section IndexBatches.

Variable Store : Type.
Variable create_point : Z -> string -> pydict -> res PointStruct.
Variable upsert_points : list PointStruct -> Store -> res Store.
Variable batch_size : Z.
Variable ids : list Z.
Variable documents : list string.
Variable metadata : list pydict.

Hypothesis ids_length : length ids = length documents.
Hypothesis metadata_length : length metadata = length documents.
Hypothesis batch_size_pos : (1 <= batch_size)%Z.

Local Abbreviation items := (zip3 ids documents metadata).
Local Abbreviation attempt :=
  (QdrantIndexer.upsert_batch Store create_point upsert_points).



End IndexBatches.


Example index_documents_skips_failed_batch :
  QdrantIndexer.index_documents (list (list Z))
    (fun i d m => Ok (plain_point i d m)) (picky_upsert 3) 2
    [1; 2; 3; 4; 5]%Z ["a"; "b"; "c"; "d"; "e"] [[]; []; []; []; []] 6 []
  = Some ([(2, 4)], [[1; 2]; [5]])%Z.
Proof. vm_compute. reflexivity. Qed.

Lemma index_documents_never_ends_witness :
  QdrantIndexer.index_documents (list (list Z))
    (fun i d m => Ok (plain_point i d m))
    (fun ps s => Ok (log_upsert ps s)) 0
    [1; 2]%Z ["a"; "b"] [[]; []] 1000 [] = None.
Proof.
  apply index_documents_never_ends; [lia|done].
Defined.

Lemma index_documents_upserts_all_witness :
  QdrantIndexer.index_documents (list (list Z))
    (fun i d m => Ok (plain_point i d m))
    (fun ps s => Ok (log_upsert ps s)) 2
    [1; 2; 3; 4; 5]%Z ["a"; "b"; "c"; "d"; "e"] [[]; []; []; []; []] 6 []
  = Some ([], [[1; 2]; [3; 4]; [5]])%Z.
Proof.
  destruct (index_documents_upserts_all (list (list Z))
                 (fun i d m => Ok (plain_point i d m))
                 (fun ps s => Ok (log_upsert ps s)) plain_point log_upsert 2
                 [1; 2; 3; 4; 5]%Z ["a"; "b"; "c"; "d"; "e"]
                 [[]; []; []; []; []] eq_refl eq_refl ltac:(lia)
                 (fun _ _ _ => eq_refl) (fun _ _ => eq_refl) [])
    as [Hrun _].
  exact Hrun.
Defined.

(** ** From an indexed point to a formatted result *)

Lemma dict_lookup_set k k' v d :
  dict_lookup k' (dict_set k v d)
  = if String.eqb k' k then Some v else dict_lookup k' d.
Proof.
  induction d as [|[k0 v0] d IH]; simpl.
  - by destruct (String.eqb k' k).
  - destruct (String.eqb_spec k k0) as [->|Hk]; simpl.
    + by destruct (String.eqb k' k0).
    + rewrite IH. destruct (String.eqb_spec k' k0) as [->|]; [|done].
      by destruct (String.eqb_spec k0 k) as [->|].
Qed.

Lemma dict_lookup_None k d : k ∉ dict_keys d -> dict_lookup k d = None.
Proof.
  induction d as [|[k0 v0] d IH]; simpl; [done|].
  intros Hk. destruct (String.eqb_spec k k0) as [->|]; [|apply IH].
  - exfalso. apply Hk. by left.
  - intros ?. apply Hk. by right.
Qed.

Lemma dict_lookup_update k d u :
  NoDup (dict_keys u) ->
  dict_lookup k (dict_update d u)
  = match dict_lookup k u with
    | Some v => Some v
    | None => dict_lookup k d
    end.
Proof.
  unfold dict_update. revert d. induction u as [|[k0 v0] u IH]; intros d Hnd.
  { done. }
  simpl in Hnd. apply NoDup_cons in Hnd as [Hk0 Hnd]. simpl.
  rewrite IH by done. destruct (String.eqb_spec k k0) as [->|Hk].
  - rewrite (dict_lookup_None k0 u) by done.
    by rewrite dict_lookup_set, String.eqb_refl.
  - destruct (dict_lookup k u); [done|].
    rewrite dict_lookup_set. by destruct (String.eqb_spec k k0).
Qed.

Lemma created_payload_lookup text metadata k :
  NoDup (dict_keys metadata) ->
  dict_lookup k (dict_literal (("embedding_text", PStr text) :: metadata))
  = match dict_lookup k metadata with
    | Some v => Some v
    | None => if String.eqb k "embedding_text" then Some (PStr text) else None
    end.
Proof.
  intros Hnd. unfold dict_literal.
  change (dict_update [] (("embedding_text", PStr text) :: metadata))
    with (dict_update [("embedding_text", PStr text)] metadata).
  rewrite dict_lookup_update by done. simpl.
  by destruct (String.eqb k "embedding_text").
Qed.

(** X23: a point built by create_point and read back through the base
    formatter carries the indexed text: its text field is the text given to
    create_point, unless the metadata has its own embedding_text, which then
    wins; every other documented field is the metadata's value or the
    formatter's default. *)
Theorem created_point_formats_back (cl : Clients) (id : Z) (text : string)
    (metadata : pydict) (pt : PointStruct) (score : pyval) :
  NoDup (dict_keys metadata) ->
  metadata_is_dict metadata = true ->
  QdrantCollection.create_point cl id text metadata = Ok pt ->
  exists r,
    BaseQdrantRetriever.format_point (stored_point pt score) = Ok r /\
    dict_lookup "id" r = Some (PInt id) /\
    dict_lookup "text" r
      = Some (dict_get metadata "embedding_text" (PStr text)) /\
    forall field key default,
      (field, key, default) ∈ convenience_fields -> key <> "embedding_text" ->
      dict_lookup field r = Some (dict_get metadata key default).
Proof.
  intros Hnd Hmeta Hcreate.
  unfold QdrantCollection.create_point in Hcreate.
  destruct (QdrantCollection._get_embeddings cl text) as [vectors|];
    simpl in Hcreate; [|done].
  injection Hcreate as <-.
  destruct (format_point_total
              (stored_point
                 (mkPointStruct id vectors
                    (dict_literal (("embedding_text", PStr text) :: metadata)))
                 score)) as (r & Hr & _ & Hid & _ & Hfields).
  { unfold metadata_is_dict in *. simpl.
    rewrite created_payload_lookup by done. simpl.
    by destruct (dict_lookup "full_page_metadata" metadata). }
  exists r. split; [done|]. split; [done|]. simpl in Hfields. split.
  - rewrite (Hfields "text" "embedding_text" (PStr EmptyString))
      by (unfold convenience_fields; set_solver).
    unfold dict_get. rewrite created_payload_lookup by done. simpl.
    by destruct (dict_lookup "embedding_text" metadata).
  - intros field key default Hin Hkey. rewrite (Hfields _ _ _ Hin).
    unfold dict_get. rewrite created_payload_lookup by done.
    destruct (dict_lookup key metadata); [done|].
    by destruct (String.eqb_spec key "embedding_text").
Qed.

Lemma created_point_formats_back_witness :
  let metadata := [("page_number", PInt 5); ("has_tables", PBool true)] in
  exists r,
    BaseQdrantRetriever.format_point
      (stored_point (plain_point 7 "Page 5 text" metadata) (PInt 3)) = Ok r /\
    dict_lookup "text" r = Some (PStr "Page 5 text").
Proof.
  intros metadata.
  destruct (created_point_formats_back (stub_clients []) 7 "Page 5 text"
              metadata (plain_point 7 "Page 5 text" metadata) (PInt 3))
    as (r & Hr & _ & Htext & _).
  - repeat (constructor; [set_solver|]). constructor.
  - reflexivity.
  - reflexivity.
  - exists r. split; [exact Hr|exact Htext].
Defined.

(** ** Batch processing of pages *)

Section ProcessAllFacts.

Variable Files : Type.
Variable process_page : Z -> Files -> Z * Files.

Lemma process_pages_counts pages total processed files :
  let '(total', processed', _) :=
    BaseBatchProcessor.process_pages Files process_page pages total processed
      files in
  (processed <= processed' <= processed + Z.of_nat (length pages) /\
   processed' - processed <= total' - total)%Z.
Proof.
  revert total processed files.
  induction pages as [|page pages IH]; intros total processed files; simpl.
  { lia. }
  destruct (process_page page files) as [items files'].
  destruct (Z.ltb_spec 0 items).
  - specialize (IH (total + items)%Z (processed + 1)%Z files').
    destruct (BaseBatchProcessor.process_pages _ _ _ _ _ _) as [[t p] f]. lia.
  - specialize (IH total processed files').
    destruct (BaseBatchProcessor.process_pages _ _ _ _ _ _) as [[t p] f]. lia.
Qed.

Lemma elem_of_filter_pages pages start_page end_page p :
  p ∈ BaseBatchProcessor.filter_pages pages start_page end_page <->
  p ∈ pages /\
  (truthy_page start_page = true -> (default 0 start_page <= p)%Z) /\
  (truthy_page end_page = true -> (p <= default 0 end_page)%Z).
Proof.
  unfold BaseBatchProcessor.filter_pages.
  destruct (truthy_page start_page), (truthy_page end_page);
    rewrite ?list_elem_of_In, ?filter_In, ?list_elem_of_In, ?filter_In;
    rewrite <- ?list_elem_of_In; rewrite ?Z.geb_le, ?Z.leb_le;
    naive_solver.
Qed.

(** X24: the summary of process_all is consistent: the pages counted are
    those of the directory inside the range, where a bound that is None or 0
    does not restrict; the processed pages are at most the total pages, and
    the total of items is at least the number of processed pages, each of
    them having given at least one item. *)
Theorem process_all_summary (page_numbers : list Z)
    (start_page end_page : option Z) (files : Files) :
  let summary :=
    (BaseBatchProcessor.process_all Files process_page page_numbers start_page
       end_page files).1 in
  (0 <= processed_pages summary <= total_pages summary)%Z /\
  (processed_pages summary <= total_items summary)%Z /\
  (total_pages summary <= Z.of_nat (length page_numbers))%Z /\
  total_pages summary
    = Z.of_nat (length (BaseBatchProcessor.filter_pages page_numbers
                          start_page end_page)) /\
  (forall p,
     p ∈ BaseBatchProcessor.filter_pages page_numbers start_page end_page <->
     p ∈ page_numbers /\
     (truthy_page start_page = true -> (default 0 start_page <= p)%Z) /\
     (truthy_page end_page = true -> (p <= default 0 end_page)%Z)) /\
  BaseBatchProcessor.filter_pages page_numbers (Some 0%Z) (Some 0%Z)
    = page_numbers.
Proof.
  intros summary. unfold summary, BaseBatchProcessor.process_all.
  pose proof (process_pages_counts
                (BaseBatchProcessor.filter_pages page_numbers start_page
                   end_page) 0 0 files) as Hcounts.
  destruct (BaseBatchProcessor.process_pages _ _ _ _ _ _) as [[t p] f].
  simpl.
  assert (length (BaseBatchProcessor.filter_pages page_numbers start_page
                    end_page) <= length page_numbers)%nat as Hlen.
  { unfold BaseBatchProcessor.filter_pages.
    destruct (truthy_page start_page), (truthy_page end_page);
      repeat (etrans; [apply List.filter_length_le|]); done. }
  split; [lia|]. split; [lia|]. split; [lia|]. split; [done|].
  split; [apply elem_of_filter_pages|done].
Qed.

End ProcessAllFacts.

(** ** References need the full page metadata *)

Section ReferencesFromFormatted.

Context {V : Pydantic} {FS : FileSystem}.

Lemma extractors_ext sub_question r1 r2 :
  Forall (fun k => dict_lookup k r1 = dict_lookup k r2)
    ("page_number" :: scanned_keys) ->
  Forall (fun extractor : pydict -> string -> res extraction =>
            extractor r1 sub_question = extractor r2 sub_question)
    extractors.
Proof.
  unfold scanned_keys. intros Hall.
  apply Forall_cons in Hall as [Hp Hall].
  apply Forall_cons in Hall as [Hc Hall].
  apply Forall_cons in Hall as [Hf Hall].
  apply Forall_cons in Hall as [Hm Hall].
  apply Forall_cons in Hall as [Hs _].
  unfold extractors.
  repeat constructor;
    unfold ContentElementsExtractor.extract,
      FlattenedTablesExtractor.extract, TableMetadataExtractor.extract,
      ContentSummaryExtractor.extract, WithinPageRelationsExtractor.extract,
      dict_get;
    by rewrite ?Hp, ?Hc, ?Hf, ?Hm, ?Hs.
Qed.

Lemma for_each_ext {A S} (l : list A) (body1 body2 : S -> A -> res S) s :
  (forall s x, x ∈ l -> body1 s x = body2 s x) ->
  for_each l body1 s = for_each l body2 s.
Proof.
  revert s. induction l as [|x l IH]; intros s Hbody; simpl; [done|].
  rewrite Hbody by left. destruct (body2 s x); simpl; [|done].
  apply IH. intros; apply Hbody; by right.
Qed.

Lemma extract_result_ext sub_question acc r1 r2 :
  Forall (fun k => dict_lookup k r1 = dict_lookup k r2)
    ("page_number" :: scanned_keys) ->
  extract_result sub_question acc r1 = extract_result sub_question acc r2.
Proof.
  intros Hall%(extractors_ext sub_question). unfold extract_result.
  apply for_each_ext. intros [a1 a2] extractor Hin.
  rewrite Forall_forall in Hall. by rewrite (Hall _ Hin).
Qed.

(** X25: the references of a formatted result come from the nested full
    page metadata alone: for a point without full_page_metadata in its
    payload the extraction of its record finds nothing, and with it the
    extraction reads the metadata's content_elements together with the
    payload's own page_number, and nothing else of the record. *)
Theorem references_need_full_metadata (p : ScoredPoint) (r : pydict)
    (sub_question : string) (acc : extraction) :
  BaseQdrantRetriever.format_point p = Ok r ->
  match dict_lookup "full_page_metadata" (pt_payload p) with
  | None => extract_result sub_question acc r = Ok acc
  | Some v =>
      exists md,
        v = PDict md /\
        extract_result sub_question acc r
        = extract_result sub_question acc
            [ ("page_number", dict_get (pt_payload p) "page_number" PNone);
              ("content_elements",
               dict_get md "content_elements" (PList [])) ]
  end.
Proof.
  intros [[-> ->]|(md & -> & ->)]%format_point_cases.
  - by apply extract_result_lacking.
  - exists md. split; [done|]. apply extract_result_ext.
    unfold scanned_keys. by repeat constructor.
Qed.

End ReferencesFromFormatted.

Lemma references_need_full_metadata_witness :
  let p := mkScoredPoint (PInt 1) (PInt 3)
             [ ("page_number", PInt 5);
               ("content_elements",
                PList [PDict [("type", PStr "table");
                              ("element_id", PStr "table-5-1")]]) ] in
  extract_result (V := strict_pydantic) "q" ([], []) (base_record p)
  = Ok ([], []).
Proof.
  intros p.
  exact (references_need_full_metadata (V := strict_pydantic) p
           (base_record p) "q" ([], []) eq_refl).
Defined.
